(** * Secretary AI: the tool router and the fuzzy entity resolution layer

    A shallow embedding of [src/transcript_integrator/database_tools.py]
    (classes [DatabaseTools] and [ToolExecutor]) together with the properties
    of its specification.

    Modelling conventions.
    - Python [str] values are [string]s of ASCII characters; case folding,
      white space and string order follow Python on the ASCII range.
    - Integers (identifiers, Discord ids) are unbounded [Z].
    - A table of the relational store is the list of its rows in scan order;
      a query without ORDER BY returns rows in that order, ORDER BY is a
      stable sort, and text is ordered by character code.
    - [async] methods are run to completion, one call at a time: an
      operation is a function from the world (store, member cache, clock)
      to an outcome and a new world.
    - A raised Python exception is the [Raise] outcome.
    - [execute] is modelled up to the envelope it serialises with
      [json.dumps].
    - The argument bag of a call is typed by the tool's parameter schema:
      a bag that holds a value of another type is outside the model.
    - The store is taken to accept every value bound to a query.  The real
      store refuses a string that holds the character 0 and an integer
      beyond the range of its column, and the query then fails in the
      driver with a [DBAPIError]; the model has no such path.  A property
      that depends on it excludes these values in a hypothesis or leaves
      the errors of the store open.
    - For a [DBAPIError], [str_exn] gives the message of the driver;
      SQLAlchemy's [str(e)] wraps it in the driver's class name and the
      statement with its parameters, which are not rendered.  No property
      states the text of the envelope of such an error.
    - An UPDATE leaves the row at its place in scan order. *)

From Stdlib Require Import String Ascii List ZArith Bool Arith Lia.
From Stdlib Require Import Permutation Sorted DecimalString.
Import ListNotations.
Open Scope string_scope.
Open Scope Z_scope.

Set Implicit Arguments.
Set Warnings "-register-all".

(* ====================================================================== *)
(** ** Python built-ins used by the module *)
(* ====================================================================== *)

Module Py.

(** [str.isspace] on the ASCII range: TAB..CR, FS..US and the space. *)
Definition is_space (c : ascii) : bool :=
  let n := nat_of_ascii c in
  (((9 <=? n) && (n <=? 13)) || ((28 <=? n) && (n <=? 32)))%nat.

(** [str.lower] on one ASCII character. *)
Definition lower_char (c : ascii) : ascii :=
  let n := nat_of_ascii c in
  if ((65 <=? n) && (n <=? 90))%nat then ascii_of_nat (n + 32) else c.

(** [s.lower()] *)
Fixpoint lower (s : string) : string :=
  match s with
  | EmptyString => EmptyString
  | String c s' => String (lower_char c) (lower s')
  end.

(** [s.lstrip()] *)
Fixpoint lstrip (s : string) : string :=
  match s with
  | EmptyString => EmptyString
  | String c s' => if is_space c then lstrip s' else s
  end.

(** [s.rstrip(chars)], the set of characters given as a predicate. *)
Fixpoint rstrip_by (f : ascii -> bool) (s : string) : string :=
  match s with
  | EmptyString => EmptyString
  | String c s' =>
      match rstrip_by f s' with
      | EmptyString => if f c then EmptyString else String c EmptyString
      | r => String c r
      end
  end.

(** [s.strip()] *)
Definition strip (s : string) : string := rstrip_by is_space (lstrip s).

(** [c in chars] for a character. *)
Fixpoint mem_char (c : ascii) (chars : string) : bool :=
  match chars with
  | EmptyString => false
  | String d r => Ascii.eqb c d || mem_char c r
  end.

(** [s.rstrip(chars)] *)
Definition rstrip_chars (chars : string) (s : string) : string :=
  rstrip_by (fun c => mem_char c chars) s.

(** [s.split(sep, 1)[0]] for a one-character separator: the text before the
    first occurrence of [sep], or all of [s]. *)
Fixpoint split1_head (sep : ascii) (s : string) : string :=
  match s with
  | EmptyString => EmptyString
  | String c s' => if Ascii.eqb c sep then EmptyString
                   else String c (split1_head sep s')
  end.

(** [s.split()]: the maximal runs of non-space characters. *)
Fixpoint split_ws (s : string) : list string :=
  match s with
  | EmptyString => []
  | String c s' =>
      if is_space c then split_ws s'
      else match s' with
           | EmptyString => [String c EmptyString]
           | String c' _ =>
               if is_space c' then String c EmptyString :: split_ws s'
               else match split_ws s' with
                    | w :: ws => String c w :: ws
                    | [] => [String c EmptyString]
                    end
           end
  end.

(** [s[:n]] *)
Fixpoint take (n : nat) (s : string) : string :=
  match n, s with
  | S n', String c s' => String c (take n' s')
  | _, _ => EmptyString
  end.

(** [str(n)] for an integer. *)
Definition str_int (z : Z) : string := NilZero.string_of_int (Z.to_int z).

(** [', '.join(l)] and friends. *)
Fixpoint join (sep : string) (l : list string) : string :=
  match l with
  | [] => EmptyString
  | [x] => x
  | x :: r => x ++ sep ++ join sep r
  end.

(** Decimal digit value of a character. *)
Definition digit_of (c : ascii) : option Z :=
  let n := nat_of_ascii c in
  if ((48 <=? n) && (n <=? 57))%nat then Some (Z.of_nat (n - 48)) else None.

(** The digits of an [int()] literal after the sign: one or more digits,
    single underscores allowed between digits.  [seen] tells whether the
    previous character was a digit. *)
Fixpoint int_digits (acc : Z) (seen : bool) (s : string) : option Z :=
  match s with
  | EmptyString => if seen then Some acc else None
  | String c s' =>
      match digit_of c with
      | Some d => int_digits (10 * acc + d) true s'
      | None =>
          if Ascii.eqb c "_" && seen
          then match s' with
               | EmptyString => None
               | String c' _ =>
                   match digit_of c' with
                   | Some _ => int_digits acc false s'
                   | None => None
                   end
               end
          else None
      end
  end.

(** [int(s)] for a string: [None] stands for [ValueError]. *)
Definition int (s : string) : option Z :=
  match strip s with
  | String "-" r => option_map Z.opp (int_digits 0 false r)
  | String "+" r => int_digits 0 false r
  | r => int_digits 0 false r
  end.

End Py.

(* ====================================================================== *)
(** ** Calendar dates and timestamps ([datetime.date], [datetime.datetime]) *)
(* ====================================================================== *)

Record date := { year : Z; month : Z; day : Z }.

Record datetime := {
  dt_date : date; hour : Z; minute : Z; second : Z; microsecond : Z }.

Module Datetime.

Definition is_leap (y : Z) : bool :=
  (y mod 4 =? 0) && (negb (y mod 100 =? 0) || (y mod 400 =? 0)).

Definition days_in_month (y m : Z) : Z :=
  if m =? 2 then (if is_leap y then 29 else 28)
  else if (m =? 4) || (m =? 6) || (m =? 9) || (m =? 11) then 30 else 31.

(** [s.zfill(n)] for a non-negative number's digits. *)
Definition zfill (n : nat) (s : string) : string :=
  string_of_list_ascii (repeat "0"%char (n - String.length s)) ++ s.

(** [str(d)] for a date: YYYY-MM-DD. *)
Definition str_date (d : date) : string :=
  zfill 4 (Py.str_int (year d)) ++ "-" ++ zfill 2 (Py.str_int (month d))
    ++ "-" ++ zfill 2 (Py.str_int (day d)).

(** [t.strftime("%H:%M:%S")] *)
Definition str_time (t : datetime) : string :=
  zfill 2 (Py.str_int (hour t)) ++ ":" ++ zfill 2 (Py.str_int (minute t))
    ++ ":" ++ zfill 2 (Py.str_int (second t)).

(** [t.isoformat()]: the microseconds are printed only when non-zero. *)
Definition isoformat (t : datetime) : string :=
  str_date (dt_date t) ++ "T" ++ str_time t ++
  (if microsecond t =? 0 then "" else "." ++ zfill 6 (Py.str_int (microsecond t))).

(** The text after the first occurrence of [sep], if there is one. *)
Fixpoint after_char (sep : ascii) (s : string) : option string :=
  match s with
  | EmptyString => None
  | String c s' => if Ascii.eqb c sep then Some s' else after_char sep s'
  end.

(** Directive [%m]: the pattern 1[0-2]|0[1-9]|[1-9]. *)
Definition parse_month (s : string) : option Z :=
  match s with
  | String x EmptyString =>
      match Py.digit_of x with
      | Some d => if 1 <=? d then Some d else None
      | None => None
      end
  | String x (String y EmptyString) =>
      match Py.digit_of x, Py.digit_of y with
      | Some p, Some q =>
          if ((p =? 1) && (q <=? 2)) || ((p =? 0) && (1 <=? q))
          then Some (10 * p + q) else None
      | _, _ => None
      end
  | _ => None
  end.

(** Directive [%d]: the pattern 3[01]|[12]\d|0[1-9]|[1-9]| [1-9]. *)
Definition parse_day (s : string) : option Z :=
  match s with
  | String x EmptyString =>
      match Py.digit_of x with
      | Some d => if 1 <=? d then Some d else None
      | None => None
      end
  | String x (String y EmptyString) =>
      match Py.digit_of y with
      | Some q =>
          if Ascii.eqb x " " then (if 1 <=? q then Some q else None)
          else match Py.digit_of x with
               | Some p =>
                   if ((p =? 3) && (q <=? 1)) || (p =? 1) || (p =? 2)
                      || ((p =? 0) && (1 <=? q))
                   then Some (10 * p + q) else None
               | None => None
               end
      | None => None
      end
  | _ => None
  end.

(** [datetime.strptime(s, '%Y-%m-%d').date()]; [None] stands for
    [ValueError] (no match, unconverted data, or no such calendar day). *)
Definition strptime_ymd (s : string) : option date :=
  match s with
  | String a (String b (String c (String d (String "-" r)))) =>
      match Py.digit_of a, Py.digit_of b, Py.digit_of c, Py.digit_of d with
      | Some y1, Some y2, Some y3, Some y4 =>
          let y := 1000 * y1 + 100 * y2 + 10 * y3 + y4 in
          match parse_month (Py.split1_head "-" r), after_char "-" r with
          | Some m, Some r' =>
              match parse_day r' with
              | Some dd =>
                  if (1 <=? y) && (dd <=? days_in_month y m)
                  then Some {| year := y; month := m; day := dd |}
                  else None
              | None => None
              end
          | _, _ => None
          end
      | _, _, _, _ => None
      end
  | _ => None
  end.

(** Order of dates and of timestamps. *)
Definition date_leb (x y : date) : bool :=
  (year x <? year y) ||
  ((year x =? year y) &&
   ((month x <? month y) || ((month x =? month y) && (day x <=? day y)))).

Definition seconds_of (t : datetime) : Z :=
  ((hour t * 60 + minute t) * 60 + second t) * 1000000 + microsecond t.

Definition datetime_leb (x y : datetime) : bool :=
  if date_leb (dt_date x) (dt_date y)
  then (if date_leb (dt_date y) (dt_date x)
        then seconds_of x <=? seconds_of y else true)
  else false.

End Datetime.
(* ====================================================================== *)
(** ** [difflib.get_close_matches] (Python standard library)

    The resolver's third step calls [difflib.get_close_matches].  The module
    below follows CPython's [Lib/difflib.py]: [SequenceMatcher] with no junk
    predicate and [autojunk] on, its three ratios, and the selection of the
    best candidates.  A ratio [2.0 * m / t] is kept as the fraction
    [(2 * m, t)]; comparing fractions by cross multiplication agrees with
    the comparison of the floating point quotients for the string lengths
    at hand. *)
(* ====================================================================== *)

Module Difflib.

Local Open Scope nat_scope.

Record Match := { besti : nat; bestj : nat; bestsize : nat }.

Section SequenceMatcher.

(** [a] is the first sequence (the candidate), [b] the second (the word). *)
Variables a b : list ascii.

Definition count (c : ascii) (l : list ascii) : nat :=
  length (filter (Ascii.eqb c) l).

(** [bpopular]: with [autojunk], an element of a [b] of 200 or more items
    that occurs more than [n // 100 + 1] times. *)
Definition popular (c : ascii) : bool :=
  (200 <=? length b) && (length b / 100 + 1 <? count c b).

Fixpoint indices_from (j : nat) (c : ascii) (l : list ascii) : list nat :=
  match l with
  | [] => []
  | x :: r => if Ascii.eqb x c then j :: indices_from (S j) c r
              else indices_from (S j) c r
  end.

(** [b2j.get(c, [])] after [__chain_b]. *)
Definition b2j (c : ascii) : list nat :=
  if popular c then [] else indices_from 0 c b.

Fixpoint j2len_get (m : list (nat * nat)) (j : nat) : nat :=
  match m with
  | [] => 0
  | (j', k) :: r => if j' =? j then k else j2len_get r j
  end.

Definition elt (l : list ascii) (i : nat) : ascii := nth i l zero.

(** One pass of the inner loop of [find_longest_match] for index [j]. *)
Definition step_j (i blo bhi : nat) (j2len : list (nat * nat))
    (st : list (nat * nat) * Match) (j : nat) : list (nat * nat) * Match :=
  let '(newj2len, best) := st in
  if (j <? blo) || (bhi <=? j) then st
  else
    let k := S (match j with O => 0 | S j' => j2len_get j2len j' end) in
    ((j, k) :: newj2len,
     if bestsize best <? k
     then {| besti := i + 1 - k; bestj := j + 1 - k; bestsize := k |}
     else best).

(** The outer loop: [for i in range(alo, ahi)]. *)
Fixpoint scan_a (rng : list nat) (blo bhi : nat) (j2len : list (nat * nat))
    (best : Match) : Match :=
  match rng with
  | [] => best
  | i :: r =>
      let '(newj2len, best') :=
        fold_left (step_j i blo bhi j2len) (b2j (elt a i)) ([], best) in
      scan_a r blo bhi newj2len best'
  end.

Fixpoint extend_left (fuel alo blo : nat) (m : Match) : Match :=
  match fuel with
  | O => m
  | S f =>
      if (alo <? besti m) && (blo <? bestj m)
         && Ascii.eqb (elt a (besti m - 1)) (elt b (bestj m - 1))
      then extend_left f alo blo
             {| besti := besti m - 1; bestj := bestj m - 1;
                bestsize := S (bestsize m) |}
      else m
  end.

Fixpoint extend_right (fuel ahi bhi : nat) (m : Match) : Match :=
  match fuel with
  | O => m
  | S f =>
      if (besti m + bestsize m <? ahi) && (bestj m + bestsize m <? bhi)
         && Ascii.eqb (elt a (besti m + bestsize m)) (elt b (bestj m + bestsize m))
      then extend_right f ahi bhi
             {| besti := besti m; bestj := bestj m; bestsize := S (bestsize m) |}
      else m
  end.

(** [find_longest_match(alo, ahi, blo, bhi)].  There is no junk, so the two
    junk-extension loops of the source never run. *)
Definition find_longest_match (alo ahi blo bhi : nat) : Match :=
  let m := scan_a (seq alo (ahi - alo)) blo bhi []
             {| besti := alo; bestj := blo; bestsize := 0 |} in
  extend_right (length a) ahi bhi (extend_left (length a) alo blo m).

(** The total size of the blocks of [get_matching_blocks].  The source keeps
    a work list of windows; every window pushed is strictly shorter in [a]
    than the one it comes from, so [fuel = S (len a)] levels are enough. *)
Fixpoint matching_size (fuel alo ahi blo bhi : nat) : nat :=
  match fuel with
  | O => 0
  | S f =>
      let m := find_longest_match alo ahi blo bhi in
      let k := bestsize m in
      if k =? 0 then 0
      else
        k
        + (if (alo <? besti m) && (blo <? bestj m)
           then matching_size f alo (besti m) blo (bestj m) else 0)
        + (if (besti m + k <? ahi) && (bestj m + k <? bhi)
           then matching_size f (besti m + k) ahi (bestj m + k) bhi else 0)
  end.

(** [_calculate_ratio(matches, length)] as a fraction. *)
Definition calculate_ratio (matches len : nat) : nat * nat :=
  if len =? 0 then (1, 1) else (2 * matches, len).

Definition ratio : nat * nat :=
  calculate_ratio
    (matching_size (S (length a)) 0 (length a) 0 (length b))
    (length a + length b).

(** [quick_ratio]: the size of the multiset intersection. *)
Fixpoint quick_matches (xs : list ascii) (avail : list ascii) : nat :=
  match xs with
  | [] => 0
  | x :: r =>
      if existsb (Ascii.eqb x) avail
      then S (quick_matches r
                ((fix remove1 (l : list ascii) : list ascii :=
                    match l with
                    | [] => []
                    | y :: t => if Ascii.eqb x y then t else y :: remove1 t
                    end) avail))
      else quick_matches r avail
  end.

Definition quick_ratio : nat * nat :=
  calculate_ratio (quick_matches a b) (length a + length b).

Definition real_quick_ratio : nat * nat :=
  calculate_ratio (Nat.min (length a) (length b)) (length a + length b).

End SequenceMatcher.

(** [r1 >= r2] and [r1 > r2] on fractions with positive denominators. *)
Definition ratio_geb (r1 r2 : nat * nat) : bool :=
  fst r2 * snd r1 <=? fst r1 * snd r2.
Definition ratio_gtb (r1 r2 : nat * nat) : bool :=
  fst r2 * snd r1 <? fst r1 * snd r2.

(** Tuples [(score, x)] compare by score, then by the string. *)
Definition score_gtb (p q : (nat * nat) * string) : bool :=
  ratio_gtb (fst p) (fst q)
  || (ratio_geb (fst p) (fst q) && String.ltb (snd q) (snd p)).

(** Insertion into a list kept in decreasing order. *)
Fixpoint insert_desc (p : (nat * nat) * string) (l : list ((nat * nat) * string))
  : list ((nat * nat) * string) :=
  match l with
  | [] => [p]
  | q :: r => if score_gtb p q then p :: l else q :: insert_desc p r
  end.

(** [heapq.nlargest(n, result)] *)
Definition nlargest (n : nat) (l : list ((nat * nat) * string))
  : list ((nat * nat) * string) :=
  firstn n (fold_right insert_desc [] l).

(** [get_close_matches(word, possibilities, n, cutoff)] for [n > 0]; the
    cutoff is a fraction, 0.6 being [(3, 5)]. *)
Definition get_close_matches (word : string) (possibilities : list string)
    (n : positive) (cutoff : nat * nat) : list string :=
  let w := list_ascii_of_string word in
  let result :=
    flat_map
      (fun x =>
         let s := list_ascii_of_string x in
         if ratio_geb (real_quick_ratio s w) cutoff
            && ratio_geb (quick_ratio s w) cutoff
            && ratio_geb (ratio s w) cutoff
         then [(ratio s w, x)] else [])
      possibilities in
  map snd (nlargest (Pos.to_nat n) result).

End Difflib.

(* ====================================================================== *)
(** ** The store's ILIKE operator

    The store is PostgreSQL; SQLAlchemy's [ilike] renders its ILIKE.  The
    matcher follows [MatchText] of PostgreSQL's [like_match.c]: [%] matches
    any run of characters, [_] any one character, a backslash takes the
    next pattern character literally, and a pattern that ends in a lone
    backslash is an error when the matcher reaches it. *)
(* ====================================================================== *)

Module Sql.

Inductive like_result := LIKE_TRUE | LIKE_FALSE | LIKE_ABORT | LIKE_ERROR.

Definition is_percent (c : ascii) : bool := Ascii.eqb c "%".

(** Try the rest of the pattern [p'] at every place of the text where the
    first literal [x] of the pattern occurs. *)
Section Scan.
Variable rest : list ascii -> like_result.
Variable x : ascii.
Fixpoint scan (t : list ascii) : like_result :=
  match t with
  | [] => LIKE_ABORT
  | c :: t' =>
      if Ascii.eqb c x
      then match rest t' with
           | LIKE_FALSE => scan t'
           | r => r
           end
      else scan t'
  end.
End Scan.

Fixpoint MatchText (p t : list ascii) {struct p} : like_result :=
  match t with
  | [] => if forallb is_percent p then LIKE_TRUE else LIKE_ABORT
  | c :: t' =>
      match p with
      | [] => LIKE_FALSE
      | "\"%char :: [] => LIKE_ERROR
      | "\"%char :: x :: p' =>
          if Ascii.eqb x c then MatchText p' t' else LIKE_FALSE
      | "%"%char :: p' => AfterPercent p' t
      | "_"%char :: p' => MatchText p' t'
      | x :: p' => if Ascii.eqb x c then MatchText p' t' else LIKE_FALSE
      end
  end
with AfterPercent (p t : list ascii) {struct p} : like_result :=
  match p with
  | [] => LIKE_TRUE
  | "%"%char :: p' => AfterPercent p' t
  | "_"%char :: p' =>
      match t with
      | [] => LIKE_ABORT
      | _ :: t' => AfterPercent p' t'
      end
  | "\"%char :: [] => LIKE_ERROR
  | "\"%char :: x :: p' => scan (MatchText p') x t
  | x :: p' => scan (MatchText p') x t
  end.

(** [column ILIKE pattern]: both sides are folded to lower case first. *)
Definition ilike (column pattern : string) : like_result :=
  MatchText (list_ascii_of_string (Py.lower pattern))
            (list_ascii_of_string (Py.lower column)).

End Sql.

(* ====================================================================== *)
(** ** The relational store *)
(* ====================================================================== *)

(** Modelled from the spec: the table declarations ([models.py]) are not
    among the sources.  The columns are those the queries of
    [database_tools.py] name; a column the code tests for [None] or fills
    with [None] is nullable. *)
Record Committee := {
  member_id : Z; member_name : option string; discord_id : option Z;
  role : option string; subcommittee : option string; email : option string }.

Record Task := {
  task_id : Z; task_name : string; task_description : option string;
  task_deadline : option date; task_status : option string }.

Record Meeting := {
  meeting_id : Z; meeting_name : string; meeting_type : option string;
  meeting_summary : option string; ingestion_timestamp : option datetime }.

Record Project := {
  project_id : Z; project_name : string; project_description : option string }.

Record Topic := {
  topic_id : Z; topic_name : string; topic_description : option string }.

(** A junction row is the pair of its two foreign keys, in the order of the
    table's name: [TaskMembers] is (task_id, member_id), [MeetingTopics] is
    (meeting_id, topic_id), and so on. *)
Definition link := (Z * Z)%type.

Record DB := {
  committee : list Committee;
  tasks : list Task;
  meetings : list Meeting;
  projects : list Project;
  topics : list Topic;
  task_members : list link;
  meeting_members : list link;
  meeting_topics : list link;
  meeting_tasks : list link;
  meeting_projects : list link;
  project_members : list link;
  project_tasks : list link }.

(* ====================================================================== *)
(** ** Outcomes, exceptions, result envelopes *)
(* ====================================================================== *)

(** The exceptions the operations can raise, each with its [str(e)].  A
    [DBAPIError] carries the message of the driver, and [str_exn] gives
    that message alone: the class name, the statement and the parameters
    that SQLAlchemy puts around it are not rendered. *)
Inductive exn :=
| KeyError (key : string)
| IndexError
| MultipleResultsFound
| DBAPIError (msg : string)
| TypeError (msg : string).

Definition str_exn (e : exn) : string :=
  match e with
  | KeyError key => "'" ++ key ++ "'"
  | IndexError => "list index out of range"
  | MultipleResultsFound =>
      "Multiple rows were found when one or none was required"
  | DBAPIError msg => msg
  | TypeError msg => msg
  end.

Inductive outcome (A : Type) :=
| Ok (a : A)
| Raise (e : exn).
Arguments Ok {A} a.
Arguments Raise {A} e.

(** The values of a result payload. *)
Inductive json :=
| JNull
| JBool (b : bool)
| JInt (z : Z)
| JStr (s : string)
| JList (l : list json)
| JDict (kv : list (string * json)).

(** The [Dict[str, Any]] an operation returns, keys in insertion order. *)
Definition envelope := list (string * json).

Definition jstr_opt (o : option string) : json :=
  match o with Some s => JStr s | None => JNull end.

Definition jint_opt (o : option Z) : json :=
  match o with Some z => JInt z | None => JNull end.

(** An [Optional[str]] inside an f-string. *)
Definition fmt_opt (o : option string) : string :=
  match o with Some s => s | None => "None" end.

(** [x or 'incomplete'] *)
Definition or_incomplete (o : option string) : string :=
  match o with
  | Some EmptyString => "incomplete"
  | Some s => s
  | None => "incomplete"
  end.

(** Python dictionaries with string keys, in insertion order. *)
Module Dict.
Section Dict.
Variable V : Type.

Fixpoint get (k : string) (d : list (string * V)) : option V :=
  match d with
  | [] => None
  | (k', v) :: r => if String.eqb k' k then Some v else get k r
  end.

(** [d[k] = v] *)
Fixpoint set (k : string) (v : V) (d : list (string * V)) : list (string * V) :=
  match d with
  | [] => [(k, v)]
  | (k', v') :: r =>
      if String.eqb k' k then (k, v) :: r else (k', v') :: set k v r
  end.

Definition keys (d : list (string * V)) : list string := map fst d.

End Dict.
End Dict.

(* ====================================================================== *)
(** ** Statements against the store *)
(* ====================================================================== *)

Module Query.

(** [result.scalar_one_or_none()] *)
Definition scalar_one_or_none {A} (rows : list A) : outcome (option A) :=
  match rows with
  | [] => Ok None
  | [r] => Ok (Some r)
  | _ => Raise MultipleResultsFound
  end.

(** The truth value of [column ILIKE pattern] in a WHERE clause; a NULL
    column is not a match.  The pattern is taken to be a string the store
    accepts: one holding the character 0 is refused by the real store
    before any matching, which is outside the model. *)
Definition ilike (column : option string) (pattern : string) : outcome bool :=
  match column with
  | None => Ok false
  | Some s =>
      match Sql.ilike s pattern with
      | Sql.LIKE_TRUE => Ok true
      | Sql.LIKE_ERROR =>
          Raise (DBAPIError "LIKE pattern must not end with escape character")
      | _ => Ok false
      end
  end.

(** [or_(c1, c2, ...)] of conditions evaluated from left to right. *)
Fixpoint or_ (conds : list (outcome bool)) : outcome bool :=
  match conds with
  | [] => Ok false
  | Ok true :: _ => Ok true
  | Ok false :: r => or_ r
  | Raise e :: _ => Raise e
  end.

(** [select(T).where(cond)]: the rows satisfying [cond], in scan order. *)
Fixpoint where_ {A} (cond : A -> outcome bool) (rows : list A)
  : outcome (list A) :=
  match rows with
  | [] => Ok []
  | r :: rest =>
      match cond r with
      | Raise e => Raise e
      | Ok b =>
          match where_ cond rest with
          | Raise e => Raise e
          | Ok l => Ok (if b then r :: l else l)
          end
      end
  end.

(** [select(T).join(J, T.key == J.col).where(J.other == v)]: one result row
    per pair of a [T] row and a junction row. *)
Definition join {A} (key : A -> Z) (col other : link -> Z) (v : Z)
    (rows : list A) (junction : list link) : list A :=
  flat_map
    (fun r =>
       map (fun _ => r)
         (filter (fun j => (key r =? col j) && (other j =? v)) junction))
    rows.

(** ORDER BY with a stable sort. *)
Fixpoint insert_by {A} (leb : A -> A -> bool) (x : A) (l : list A) : list A :=
  match l with
  | [] => [x]
  | y :: r => if leb x y then x :: l else y :: insert_by leb x r
  end.

Definition order_by {A} (leb : A -> A -> bool) (rows : list A) : list A :=
  fold_right (insert_by leb) [] rows.

(** [column.asc().nullslast()] *)
Definition asc_nullslast {K} (leb : K -> K -> bool) (x y : option K) : bool :=
  match x, y with
  | _, None => true
  | None, Some _ => false
  | Some a, Some b => leb a b
  end.

(** [column.desc()]: in descending order the store puts NULL first. *)
Definition desc_nullsfirst {K} (leb : K -> K -> bool) (x y : option K) : bool :=
  match x, y with
  | None, _ => true
  | Some _, None => false
  | Some a, Some b => leb b a
  end.

(** Modelled from the spec: identifiers are assigned by the store on
    [flush]; the next identifier is one more than the largest in use. *)
Definition next_id (ids : list Z) : Z := 1 + fold_right Z.max 0 ids.

End Query.

(* ====================================================================== *)
(** ** The world of a [DatabaseTools] instance *)
(* ====================================================================== *)

(** A member dictionary: keys id, name, discord_id, role, subcommittee,
    email. *)
Record member := {
  m_id : Z; m_name : option string; m_discord_id : option Z;
  m_role : option string; m_subcommittee : option string;
  m_email : option string }.

Definition member_of_row (r : Committee) : member :=
  {| m_id := member_id r; m_name := member_name r;
     m_discord_id := discord_id r; m_role := role r;
     m_subcommittee := subcommittee r; m_email := email r |}.

(** The instance attributes [_member_cache], [_member_first_name_index] and
    [_cache_loaded]. *)
Record Cache := {
  _member_cache : list (string * member);
  _member_first_name_index : list (string * list member);
  _cache_loaded : bool }.

(** The cache of a fresh instance ([__init__]). *)
Definition empty_cache : Cache :=
  {| _member_cache := []; _member_first_name_index := [];
     _cache_loaded := false |}.

(** The committed store, the instance's cache, and the server clock read by
    [datetime.now()]. *)
Record World := { db : DB; cache : Cache; clock : datetime }.

Definition with_db (d : DB) (w : World) : World :=
  {| db := d; cache := cache w; clock := clock w |}.

Definition with_cache (c : Cache) (w : World) : World :=
  {| db := db w; cache := c; clock := clock w |}.

(** Operations: state passing with exceptions.  A session's writes reach
    the store at [commit]; an operation that returns or raises before its
    [commit] leaves the store as it was. *)
Definition M (A : Type) : Type := World -> outcome A * World.

Definition ret {A} (a : A) : M A := fun w => (Ok a, w).

Definition raise {A} (e : exn) : M A := fun w => (Raise e, w).

Definition bind {A B} (m : M A) (k : A -> M B) : M B :=
  fun w =>
    match m w with
    | (Ok a, w') => k a w'
    | (Raise e, w') => (Raise e, w')
    end.

Definition lift {A} (o : outcome A) : M A := fun w => (o, w).

Definition get_db : M DB := fun w => (Ok (db w), w).

Definition get_cache : M Cache := fun w => (Ok (cache w), w).

Definition get_clock : M datetime := fun w => (Ok (clock w), w).

Definition commit (d : DB) : M unit := fun w => (Ok tt, with_db d w).

Declare Scope op_scope.
Delimit Scope op_scope with op.
Notation "x <- m ;; k" := (bind m (fun x => k))
  (at level 100, m at next level, right associativity) : op_scope.
Notation "m ;;; k" := (bind m (fun _ => k))
  (at level 100, right associativity) : op_scope.
Local Open Scope op_scope.

(* ====================================================================== *)
(** ** [DatabaseTools]: the Entity Resolver *)
(* ====================================================================== *)

(** The body of the loop of [_ensure_cache] for one row.  A name made of
    white space only has no first word: [name.split()[0]] raises
    [IndexError] after the full-name entry has been written. *)
Definition cache_row (r : Committee) (c : Cache) : outcome unit * Cache :=
  match member_name r with
  | None => (Ok tt, c)
  | Some name =>
      if String.eqb name "" then (Ok tt, c) else
      let member_dict := member_of_row r in
      let c1 :=
        {| _member_cache := Dict.set (Py.lower name) member_dict (_member_cache c);
           _member_first_name_index := _member_first_name_index c;
           _cache_loaded := _cache_loaded c |} in
      match Py.split_ws name with
      | [] => (Raise IndexError, c1)
      | first :: _ =>
          let first_name := Py.lower first in
          let old :=
            match Dict.get first_name (_member_first_name_index c1) with
            | Some l => l
            | None => []
            end in
          (Ok tt,
           {| _member_cache := _member_cache c1;
              _member_first_name_index :=
                Dict.set first_name (old ++ [member_dict])%list
                  (_member_first_name_index c1);
              _cache_loaded := _cache_loaded c1 |})
      end
  end.

Fixpoint cache_rows (rows : list Committee) (c : Cache) : outcome unit * Cache :=
  match rows with
  | [] => (Ok tt, c)
  | r :: rest =>
      match cache_row r c with
      | (Ok _, c') => cache_rows rest c'
      | (Raise e, c') => (Raise e, c')
      end
  end.

(** [_ensure_cache]: load the member cache if not already loaded. *)
Definition _ensure_cache : M unit :=
  fun w =>
    if _cache_loaded (cache w) then (Ok tt, w)
    else
      match cache_rows (committee (db w)) (cache w) with
      | (Ok _, c) =>
          (Ok tt,
           with_cache {| _member_cache := _member_cache c;
                         _member_first_name_index := _member_first_name_index c;
                         _cache_loaded := true |} w)
      | (Raise e, c) => (Raise e, with_cache c w)
      end.

(** [" " in key] *)
Definition has_space (s : string) : bool := Py.mem_char " " s.

(** The cleaned, case-folded key of a raw name (the source's [key]). *)
Definition clean_key (raw : string) : string :=
  let cleaned := Py.strip (Py.split1_head "(" raw) in
  let cleaned := Py.strip (Py.rstrip_chars ",;.-" cleaned) in
  Py.lower cleaned.

(** Step 3 of the resolver: the best full name within the cutoff 0.6. *)
Definition fuzzy_step (c : Cache) (key : string) : option member :=
  match Difflib.get_close_matches key (Dict.keys (_member_cache c)) 1 (3, 5)%nat with
  | m0 :: _ => Dict.get m0 (_member_cache c)
  | [] => None
  end.

(** [_fuzzy_match_member(name)]; the argument is [None] or a string. *)
Definition _fuzzy_match_member (c : Cache) (name : option string) : option member :=
  let raw := Py.strip (match name with Some s => s | None => "" end) in
  match raw with
  | EmptyString => None
  | _ =>
      let key := clean_key raw in
      match Dict.get key (_member_cache c) with
      | Some m => Some m
      | None =>
          let unique :=
            if negb (has_space key)
            then match Dict.get key (_member_first_name_index c) with
                 | Some [m] => Some m
                 | _ => None
                 end
            else None in
          match unique with
          | Some m => Some m
          | None => fuzzy_step c key
          end
      end
  end.

(** [get_member_by_discord_id(discord_id)].  Every integer is compared
    with the column; one beyond the column's range is refused by the real
    store, which is outside the model. *)
Definition get_member_by_discord_id (discord : Z) : M (option member) :=
  _ensure_cache ;;;
  d <- get_db ;;
  row <- lift (Query.scalar_one_or_none
                 (filter (fun r => match discord_id r with
                                   | Some x => x =? discord
                                   | None => false
                                   end) (committee d))) ;;
  ret (option_map member_of_row row).

(* ====================================================================== *)
(** ** [DatabaseTools]: retrieval functions *)
(* ====================================================================== *)

(** How a function's search for its target row ends: the row, an early
    return with an envelope, or nothing found (the [if not x:] that
    follows). *)
Inductive lookup (A : Type) :=
| Found (a : A)
| Ambiguous (e : envelope)
| NoMatch.
Arguments Found {A} a.
Arguments Ambiguous {A} e.
Arguments NoMatch {A}.

Definition obind {A B} (o : outcome A) (k : A -> outcome B) : outcome B :=
  match o with
  | Ok a => k a
  | Raise e => Raise e
  end.

Notation "x <-- o ;; k" := (obind o (fun x => k))
  (at level 100, o at next level, right associativity) : op_scope.

Definition error (msg : string) : envelope := [("error", JStr msg)].

Definition jdate_opt (o : option date) : json :=
  match o with Some d => JStr (Datetime.str_date d) | None => JNull end.

(** [str(ts.date()) if ts else None] *)
Definition jdate_of_ts (o : option datetime) : json :=
  match o with Some t => JStr (Datetime.str_date (dt_date t)) | None => JNull end.

Definition str_len {A} (l : list A) : string := Py.str_int (Z.of_nat (length l)).

(** [s[:n] + "..." if s and len(s) > n else s] *)
Definition truncated (n : nat) (o : option string) : json :=
  match o with
  | Some s => if (n <? String.length s)%nat then JStr (Py.take n s ++ "...")
              else JStr s
  | None => JNull
  end.

(** [order_by(Task.task_deadline.asc().nullslast())] *)
Definition by_deadline (x y : Task) : bool :=
  Query.asc_nullslast Datetime.date_leb (task_deadline x) (task_deadline y).

(** [order_by(Meeting.ingestion_timestamp.desc())] *)
Definition by_timestamp_desc (x y : Meeting) : bool :=
  Query.desc_nullsfirst Datetime.datetime_leb
    (ingestion_timestamp x) (ingestion_timestamp y).

(** The dictionary returned by [get_member_by_discord_id], as a payload. *)
Definition member_json (m : member) : json :=
  JDict [("id", JInt (m_id m)); ("name", jstr_opt (m_name m));
         ("email", jstr_opt (m_email m)); ("role", jstr_opt (m_role m));
         ("subcommittee", jstr_opt (m_subcommittee m));
         ("discord_id", jint_opt (m_discord_id m))].

Definition get_my_identity (discord : Z) : M envelope :=
  member <- get_member_by_discord_id discord ;;
  match member with
  | None =>
      ret (error "Could not find your member record. Your Discord account may not be linked in the committee table.")
  | Some m =>
      ret [("message", JStr ("You are " ++ fmt_opt (m_name m) ++ " in the society."));
           ("member", member_json m)]
  end.

Definition get_my_tasks (discord : Z) : M envelope :=
  _ensure_cache ;;;
  member <- get_member_by_discord_id discord ;;
  match member with
  | None =>
      ret (error "Could not find your member record. Please contact an admin to link your Discord account.")
  | Some m =>
      d <- get_db ;;
      let rows :=
        Query.order_by by_deadline
          (Query.join task_id fst snd (m_id m) (tasks d) (task_members d)) in
      let tasks :=
        map (fun task =>
               JDict [("task_id", JInt (task_id task));
                      ("name", JStr (task_name task));
                      ("description", jstr_opt (task_description task));
                      ("deadline", jdate_opt (task_deadline task));
                      ("status", JStr (or_incomplete (task_status task)))])
            rows in
      match tasks with
      | [] =>
          ret [("message", JStr ("You (" ++ fmt_opt (m_name m) ++ ") have no tasks assigned."));
               ("tasks", JList [])]
      | _ =>
          ret [("message", JStr ("Found " ++ str_len tasks ++ " task(s) for " ++ fmt_opt (m_name m)));
               ("tasks", JList tasks)]
      end
  end.

(** The WHERE clause of [get_all_tasks] for a status filter. *)
Definition status_where (status_filter : string) (t : Task) : bool :=
  if String.eqb status_filter "complete"
  then match task_status t with Some s => String.eqb s "complete" | None => false end
  else if String.eqb status_filter "incomplete"
  then match task_status t with Some s => String.eqb s "incomplete" | None => true end
  else true.

(** The rows [get_all_tasks] iterates over. *)
Definition all_tasks_rows (d : DB) (status_filter : string) : list Task :=
  Query.order_by by_deadline (filter (status_where status_filter) (tasks d)).

(** The dictionary appended for one task in [get_all_tasks]. *)
Definition all_tasks_entry (d : DB) (task : Task) : json :=
  let assigned_to :=
    map (fun r => jstr_opt (member_name r))
        (Query.join member_id snd fst (task_id task) (committee d) (task_members d)) in
  JDict [("task_id", JInt (task_id task));
         ("name", JStr (task_name task));
         ("description", jstr_opt (task_description task));
         ("deadline", jdate_opt (task_deadline task));
         ("status", JStr (or_incomplete (task_status task)));
         ("assigned_to", JList assigned_to)].

Definition get_all_tasks (status_filter : string) : M envelope :=
  d <- get_db ;;
  let tasks := map (all_tasks_entry d) (all_tasks_rows d status_filter) in
  ret [("message",
        JStr ("Found " ++ str_len tasks ++ " task(s)" ++
              (if negb (String.eqb status_filter "all")
               then " with status '" ++ status_filter ++ "'" else "")));
       ("tasks", JList tasks)].

Definition name_status (t : Task) : json :=
  JDict [("name", JStr (task_name t));
         ("status", JStr (or_incomplete (task_status t)))].

Definition get_member_info (member_name_arg : string) : M envelope :=
  _ensure_cache ;;;
  c <- get_cache ;;
  match _fuzzy_match_member c (Some member_name_arg) with
  | None => ret (error ("Could not find a member matching '" ++ member_name_arg ++ "'"))
  | Some matched =>
      d <- get_db ;;
      member <- lift (Query.scalar_one_or_none
                        (filter (fun r => member_id r =? m_id matched) (committee d))) ;;
      match member with
      | None => ret (error "Member record not found")
      | Some member =>
          let projects :=
            map (fun p => JStr (project_name p))
                (Query.join project_id fst snd (member_id member)
                   (projects d) (project_members d)) in
          let tasks :=
            map name_status
                (Query.join task_id fst snd (member_id member)
                   (tasks d) (task_members d)) in
          ret [("member_id", JInt (member_id member));
               ("name", jstr_opt (member_name member));
               ("email", jstr_opt (email member));
               ("role", jstr_opt (role member));
               ("subcommittee", jstr_opt (subcommittee member));
               ("discord_id", jint_opt (discord_id member));
               ("projects", JList projects);
               ("tasks", JList tasks)]
      end
  end.

(** The [try: int(...)] block shared by the meeting functions. *)
Definition meeting_by_id (d : DB) (meeting_identifier : string)
  : outcome (option Meeting) :=
  match Py.int meeting_identifier with
  | Some n =>
      Query.scalar_one_or_none (filter (fun m => meeting_id m =? n) (meetings d))
  | None => Ok None
  end.

Definition meetings_like (d : DB) (meeting_identifier : string)
  : outcome (list Meeting) :=
  Query.where_
    (fun m => Query.ilike (Some (meeting_name m)) ("%" ++ meeting_identifier ++ "%"))
    (meetings d).

(** The search for the meeting in [get_meeting_info]. *)
Definition get_meeting_info_lookup (d : DB) (meeting_identifier : string)
  : outcome (lookup Meeting) :=
  meeting <-- meeting_by_id d meeting_identifier ;;
  match meeting with
  | Some m => Ok (Found m)
  | None =>
      found <-- meetings_like d meeting_identifier ;;
      match found with
      | [m] => Ok (Found m)
      | _ :: _ :: _ =>
          Ok (Ambiguous
                [("error", JStr "Multiple meetings match that name");
                 ("matches",
                  JList (map (fun m => JDict [("id", JInt (meeting_id m));
                                              ("name", JStr (meeting_name m))])
                             (firstn 5 found)))])
      | [] => Ok NoMatch
      end
  end.

Definition get_meeting_info (meeting_identifier : string) : M envelope :=
  d <- get_db ;;
  found <- lift (get_meeting_info_lookup d meeting_identifier) ;;
  match found with
  | Ambiguous e => ret e
  | NoMatch =>
      ret (error ("Could not find a meeting matching '" ++ meeting_identifier ++ "'"))
  | Found meeting =>
      let attendees :=
        map (fun r => jstr_opt (member_name r))
            (Query.join member_id snd fst (meeting_id meeting)
               (committee d) (meeting_members d)) in
      let topics :=
        map (fun t => JStr (topic_name t))
            (Query.join topic_id snd fst (meeting_id meeting)
               (topics d) (meeting_topics d)) in
      let tasks :=
        map name_status
            (Query.join task_id snd fst (meeting_id meeting)
               (tasks d) (meeting_tasks d)) in
      let projects :=
        map (fun p => JStr (project_name p))
            (Query.join project_id snd fst (meeting_id meeting)
               (projects d) (meeting_projects d)) in
      ret [("meeting_id", JInt (meeting_id meeting));
           ("name", JStr (meeting_name meeting));
           ("type", jstr_opt (meeting_type meeting));
           ("summary", jstr_opt (meeting_summary meeting));
           ("date", jdate_of_ts (ingestion_timestamp meeting));
           ("attendees", JList attendees);
           ("topics", JList topics);
           ("tasks", JList tasks);
           ("projects", JList projects)]
  end.

Definition get_meetings_for_member (member_name_arg : string) : M envelope :=
  _ensure_cache ;;;
  c <- get_cache ;;
  match _fuzzy_match_member c (Some member_name_arg) with
  | None => ret (error ("Could not find a member matching '" ++ member_name_arg ++ "'"))
  | Some matched =>
      d <- get_db ;;
      let rows :=
        Query.order_by by_timestamp_desc
          (Query.join meeting_id fst snd (m_id matched)
             (meetings d) (meeting_members d)) in
      let meetings :=
        map (fun meeting =>
               JDict [("meeting_id", JInt (meeting_id meeting));
                      ("name", JStr (meeting_name meeting));
                      ("type", jstr_opt (meeting_type meeting));
                      ("date", jdate_of_ts (ingestion_timestamp meeting))])
            rows in
      ret [("message", JStr ("Found " ++ str_len meetings ++ " meeting(s) for "
                             ++ fmt_opt (m_name matched)));
           ("meetings", JList meetings)]
  end.

(** [{m.meeting_id: m for m in rows}]: a key keeps the place of its first
    row and the value of its last. *)
Fixpoint index_set (k : Z) (m : Meeting) (d : list (Z * Meeting)) : list (Z * Meeting) :=
  match d with
  | [] => [(k, m)]
  | (k', m') :: r => if k' =? k then (k, m) :: r else (k', m') :: index_set k m r
  end.

Definition index_by_id (rows : list Meeting) : list (Z * Meeting) :=
  fold_left (fun acc m => index_set (meeting_id m) m acc) rows [].

Definition get_missed_meetings (discord : Z) : M envelope :=
  member <- get_member_by_discord_id discord ;;
  match member with
  | None => ret (error "Could not find your member record.")
  | Some m =>
      d <- get_db ;;
      let all_meetings := index_by_id (Query.order_by by_timestamp_desc (meetings d)) in
      let attended_ids :=
        map fst (filter (fun j => snd j =? m_id m) (meeting_members d)) in
      let missed :=
        flat_map
          (fun km =>
             let '(mid, meeting) := km in
             if existsb (Z.eqb mid) attended_ids then []
             else
               let topics :=
                 map (fun t => JStr (topic_name t))
                     (Query.join topic_id snd fst mid (topics d) (meeting_topics d)) in
               [JDict [("meeting_id", JInt (meeting_id meeting));
                       ("name", JStr (meeting_name meeting));
                       ("type", jstr_opt (meeting_type meeting));
                       ("date", jdate_of_ts (ingestion_timestamp meeting));
                       ("summary", truncated 200 (meeting_summary meeting));
                       ("topics", JList topics)]])
          all_meetings in
      match missed with
      | [] =>
          ret [("message", JStr ("You (" ++ fmt_opt (m_name m) ++ ") have attended all meetings!"));
               ("missed_meetings", JList [])]
      | _ =>
          ret [("message", JStr ("You missed " ++ str_len missed ++ " meeting(s)"));
               ("missed_meetings", JList missed)]
      end
  end.


Definition projects_like (d : DB) (project_name_arg : string)
  : outcome (list Project) :=
  Query.where_
    (fun p => Query.ilike (Some (project_name p)) ("%" ++ project_name_arg ++ "%"))
    (projects d).

(** The search for the project in [get_project_info]: among several
    matches, the first whose name is the argument up to case is taken. *)
Definition get_project_info_lookup (d : DB) (project_name_arg : string)
  : outcome (lookup Project) :=
  found <-- projects_like d project_name_arg ;;
  match found with
  | [] => Ok NoMatch
  | [p] => Ok (Found p)
  | _ =>
      match find (fun p => String.eqb (Py.lower (project_name p))
                                      (Py.lower project_name_arg)) found with
      | Some p => Ok (Found p)
      | None =>
          Ok (Ambiguous
                [("error", JStr "Multiple projects match that name");
                 ("matches",
                  JList (map (fun p => JDict [("id", JInt (project_id p));
                                              ("name", JStr (project_name p))])
                             (firstn 5 found)))])
      end
  end.

Definition get_project_info (project_name_arg : string) : M envelope :=
  d <- get_db ;;
  found <- lift (get_project_info_lookup d project_name_arg) ;;
  match found with
  | NoMatch =>
      ret (error ("Could not find a project matching '" ++ project_name_arg ++ "'"))
  | Ambiguous e => ret e
  | Found project =>
      let members :=
        map (fun r => JDict [("name", jstr_opt (member_name r));
                             ("role", jstr_opt (role r))])
            (Query.join member_id snd fst (project_id project)
               (committee d) (project_members d)) in
      let tasks :=
        map (fun t => JDict [("name", JStr (task_name t));
                             ("status", JStr (or_incomplete (task_status t)));
                             ("deadline", jdate_opt (task_deadline t))])
            (Query.join task_id snd fst (project_id project)
               (tasks d) (project_tasks d)) in
      ret [("project_id", JInt (project_id project));
           ("name", JStr (project_name project));
           ("description", jstr_opt (project_description project));
           ("team_members", JList members);
           ("tasks", JList tasks)]
  end.

Definition get_all_projects : M envelope :=
  d <- get_db ;;
  let rows :=
    Query.order_by (fun x y => String.leb (project_name x) (project_name y))
                   (projects d) in
  let projects :=
    map (fun project =>
           let member_count :=
             length (filter (fun j => fst j =? project_id project)
                            (project_members d)) in
           JDict [("project_id", JInt (project_id project));
                  ("name", JStr (project_name project));
                  ("description", truncated 100 (project_description project));
                  ("member_count", JInt (Z.of_nat member_count))])
        rows in
  ret [("message", JStr ("Found " ++ str_len projects ++ " project(s)"));
       ("projects", JList projects)].

Definition get_all_members : M envelope :=
  d <- get_db ;;
  let rows :=
    Query.order_by
      (fun x y => Query.asc_nullslast String.leb (member_name x) (member_name y))
      (committee d) in
  let members :=
    map (fun member =>
           JDict [("member_id", JInt (member_id member));
                  ("name", jstr_opt (member_name member));
                  ("role", jstr_opt (role member));
                  ("subcommittee", jstr_opt (subcommittee member));
                  ("email", jstr_opt (email member))])
        rows in
  ret [("message", JStr ("Found " ++ str_len members ++ " member(s)"));
       ("members", JList members)].

Definition topics_like (d : DB) (topic_name_arg : string) : outcome (list Topic) :=
  Query.where_
    (fun t => Query.ilike (Some (topic_name t)) ("%" ++ topic_name_arg ++ "%"))
    (topics d).

(** The search for the topic in [get_topic_info]: the first match is
    taken. *)
Definition get_topic_info_lookup (d : DB) (topic_name_arg : string)
  : outcome (lookup Topic) :=
  found <-- topics_like d topic_name_arg ;;
  match found with
  | [] => Ok NoMatch
  | topic :: _ => Ok (Found topic)
  end.

Definition get_topic_info (topic_name_arg : string) : M envelope :=
  d <- get_db ;;
  found <- lift (get_topic_info_lookup d topic_name_arg) ;;
  match found with
  | NoMatch =>
      ret (error ("Could not find a topic matching '" ++ topic_name_arg ++ "'"))
  | Ambiguous e => ret e
  | Found topic =>
      let meetings :=
        map (fun m => JDict [("name", JStr (meeting_name m));
                             ("type", jstr_opt (meeting_type m))])
            (Query.join meeting_id fst snd (topic_id topic)
               (meetings d) (meeting_topics d)) in
      ret [("topic_id", JInt (topic_id topic));
           ("name", JStr (topic_name topic));
           ("description", jstr_opt (topic_description topic));
           ("discussed_in_meetings", JList meetings)]
  end.

(** [search_in in [category, "all"]] *)
Definition searches (search_in category : string) : bool :=
  String.eqb search_in category || String.eqb search_in "all".

(** One category of [search_database]: at most 10 rows, rendered. *)
Definition search_category {A} (on : bool) (cols : A -> list (option string))
    (render : A -> json) (pattern : string) (rows : list A)
  : outcome (list json) :=
  if on
  then found <-- Query.where_
                   (fun r => Query.or_ (map (fun c => Query.ilike c pattern) (cols r)))
                   rows ;;
       Ok (map render (firstn 10 found))
  else Ok [].

Definition search_database (search_query search_in : string) : M envelope :=
  d <- get_db ;;
  let pattern := "%" ++ search_query ++ "%" in
  members <- lift (search_category (searches search_in "members")
                     (fun m => [member_name m; email m; role m])
                     (fun m => JDict [("name", jstr_opt (member_name m));
                                      ("role", jstr_opt (role m));
                                      ("email", jstr_opt (email m))])
                     pattern (committee d)) ;;
  meetings <- lift (search_category (searches search_in "meetings")
                      (fun m => [Some (meeting_name m); meeting_summary m])
                      (fun m => JDict [("name", JStr (meeting_name m));
                                       ("type", jstr_opt (meeting_type m))])
                      pattern (meetings d)) ;;
  projects <- lift (search_category (searches search_in "projects")
                      (fun p => [Some (project_name p); project_description p])
                      (fun p => JDict [("name", JStr (project_name p));
                                       ("description",
                                        match project_description p with
                                        | Some EmptyString => JNull
                                        | Some s => JStr (Py.take 100 s)
                                        | None => JNull
                                        end)])
                      pattern (projects d)) ;;
  tasks <- lift (search_category (searches search_in "tasks")
                   (fun t => [Some (task_name t); task_description t])
                   name_status pattern (tasks d)) ;;
  topics <- lift (search_category (searches search_in "topics")
                    (fun t => [Some (topic_name t); topic_description t])
                    (fun t => JDict [("name", JStr (topic_name t))])
                    pattern (topics d)) ;;
  let results :=
    flat_map (fun kv => match snd kv with
                        | [] => []
                        | l => [(fst kv, JList l)]
                        end)
      [("members", members); ("meetings", meetings); ("projects", projects);
       ("tasks", tasks); ("topics", topics)] in
  match results with
  | [] => ret [("message", JStr ("No results found for '" ++ search_query ++ "'"))]
  | _ => ret [("message", JStr ("Search results for '" ++ search_query ++ "'"));
              ("results", JDict results)]
  end.


(* ====================================================================== *)
(** ** [DatabaseTools]: edit functions *)
(* ====================================================================== *)

Definition set_tasks (l : list Task) (d : DB) : DB :=
  {| committee := committee d; tasks := l; meetings := meetings d;
     projects := projects d; topics := topics d;
     task_members := task_members d; meeting_members := meeting_members d;
     meeting_topics := meeting_topics d; meeting_tasks := meeting_tasks d;
     meeting_projects := meeting_projects d;
     project_members := project_members d; project_tasks := project_tasks d |}.

Definition set_task_members (l : list link) (d : DB) : DB :=
  {| committee := committee d; tasks := tasks d; meetings := meetings d;
     projects := projects d; topics := topics d;
     task_members := l; meeting_members := meeting_members d;
     meeting_topics := meeting_topics d; meeting_tasks := meeting_tasks d;
     meeting_projects := meeting_projects d;
     project_members := project_members d; project_tasks := project_tasks d |}.

Definition set_projects (l : list Project) (d : DB) : DB :=
  {| committee := committee d; tasks := tasks d; meetings := meetings d;
     projects := l; topics := topics d;
     task_members := task_members d; meeting_members := meeting_members d;
     meeting_topics := meeting_topics d; meeting_tasks := meeting_tasks d;
     meeting_projects := meeting_projects d;
     project_members := project_members d; project_tasks := project_tasks d |}.

Definition set_project_members (l : list link) (d : DB) : DB :=
  {| committee := committee d; tasks := tasks d; meetings := meetings d;
     projects := projects d; topics := topics d;
     task_members := task_members d; meeting_members := meeting_members d;
     meeting_topics := meeting_topics d; meeting_tasks := meeting_tasks d;
     meeting_projects := meeting_projects d;
     project_members := l; project_tasks := project_tasks d |}.

Definition set_topics (l : list Topic) (d : DB) : DB :=
  {| committee := committee d; tasks := tasks d; meetings := meetings d;
     projects := projects d; topics := l;
     task_members := task_members d; meeting_members := meeting_members d;
     meeting_topics := meeting_topics d; meeting_tasks := meeting_tasks d;
     meeting_projects := meeting_projects d;
     project_members := project_members d; project_tasks := project_tasks d |}.

Definition set_meeting_topics (l : list link) (d : DB) : DB :=
  {| committee := committee d; tasks := tasks d; meetings := meetings d;
     projects := projects d; topics := topics d;
     task_members := task_members d; meeting_members := meeting_members d;
     meeting_topics := l; meeting_tasks := meeting_tasks d;
     meeting_projects := meeting_projects d;
     project_members := project_members d; project_tasks := project_tasks d |}.

(** The [try: int(...)] block shared by the task functions.  Only
    [ValueError] is caught; an integer beyond the range of the id column
    is refused by the real store with a [DBAPIError], which is outside the
    model: every integer is looked up. *)
Definition task_by_id (d : DB) (task_identifier : string) : outcome (option Task) :=
  match Py.int task_identifier with
  | Some n => Query.scalar_one_or_none (filter (fun t => task_id t =? n) (tasks d))
  | None => Ok None
  end.

Definition tasks_like (d : DB) (task_identifier : string) : outcome (list Task) :=
  Query.where_
    (fun t => Query.ilike (Some (task_name t)) ("%" ++ task_identifier ++ "%"))
    (tasks d).

(** The search for the task in [update_task_status] and in
    [assign_member_to_task]; the two differ in the text [msg] of the
    several-matches error. *)
Definition task_lookup (msg : string) (d : DB) (task_identifier : string)
  : outcome (lookup Task) :=
  task <-- task_by_id d task_identifier ;;
  match task with
  | Some t => Ok (Found t)
  | None =>
      found <-- tasks_like d task_identifier ;;
      match found with
      | [t] => Ok (Found t)
      | _ :: _ :: _ =>
          Ok (Ambiguous
                [("error", JStr msg);
                 ("matches",
                  JList (map (fun t => JDict [("id", JInt (task_id t));
                                              ("name", JStr (task_name t))])
                             (firstn 5 found)))])
      | [] => Ok NoMatch
      end
  end.

Definition update_task_status (task_identifier new_status : string) : M envelope :=
  if negb (String.eqb new_status "complete" || String.eqb new_status "incomplete")
  then ret (error "Status must be 'complete' or 'incomplete'")
  else
    d <- get_db ;;
    found <- lift (task_lookup "Multiple tasks match that name. Please be more specific."
                     d task_identifier) ;;
    match found with
    | Ambiguous e => ret e
    | NoMatch =>
        ret (error ("Could not find a task matching '" ++ task_identifier ++ "'"))
    | Found task =>
        let old_status := or_incomplete (task_status task) in
        commit (set_tasks
                  (map (fun t =>
                          if task_id t =? task_id task
                          then {| task_id := task_id t; task_name := task_name t;
                                  task_description := task_description t;
                                  task_deadline := task_deadline t;
                                  task_status := Some new_status |}
                          else t) (tasks d)) d) ;;;
        ret [("success", JBool true);
             ("message", JStr ("Task '" ++ task_name task ++ "' status updated from '"
                               ++ old_status ++ "' to '" ++ new_status ++ "'"));
             ("task_id", JInt (task_id task));
             ("task_name", JStr (task_name task));
             ("old_status", JStr old_status);
             ("new_status", JStr new_status)]
    end.

(** [TaskMembers.task_id == t and TaskMembers.member_id == m] *)
Definition is_link (x y : Z) (j : link) : bool := (fst j =? x) && (snd j =? y).

Definition assign_member_to_task (task_identifier member_name_arg : string)
  : M envelope :=
  _ensure_cache ;;;
  c <- get_cache ;;
  match _fuzzy_match_member c (Some member_name_arg) with
  | None => ret (error ("Could not find a member matching '" ++ member_name_arg ++ "'"))
  | Some matched_member =>
      d <- get_db ;;
      found <- lift (task_lookup "Multiple tasks match. Please be more specific."
                       d task_identifier) ;;
      match found with
      | Ambiguous e => ret e
      | NoMatch =>
          ret (error ("Could not find a task matching '" ++ task_identifier ++ "'"))
      | Found task =>
          existing <- lift (Query.scalar_one_or_none
                              (filter (is_link (task_id task) (m_id matched_member))
                                      (task_members d))) ;;
          match existing with
          | Some _ =>
              ret (error (fmt_opt (m_name matched_member) ++ " is already assigned to '"
                          ++ task_name task ++ "'"))
          | None =>
              commit (set_task_members
                        (task_members d ++ [(task_id task, m_id matched_member)])%list d) ;;;
              ret [("success", JBool true);
                   ("message", JStr ("Assigned " ++ fmt_opt (m_name matched_member)
                                     ++ " to task '" ++ task_name task ++ "'"));
                   ("task_id", JInt (task_id task));
                   ("task_name", JStr (task_name task));
                   ("member_name", jstr_opt (m_name matched_member))]
          end
      end
  end.

(** The search for the task in [remove_member_from_task]: only a single
    match is taken; there is no several-matches return. *)
Definition remove_member_from_task_lookup (d : DB) (task_identifier : string)
  : outcome (lookup Task) :=
  task <-- task_by_id d task_identifier ;;
  match task with
  | Some t => Ok (Found t)
  | None =>
      found <-- tasks_like d task_identifier ;;
      match found with
      | [t] => Ok (Found t)
      | _ => Ok NoMatch
      end
  end.

Definition remove_member_from_task (task_identifier member_name_arg : string)
  : M envelope :=
  _ensure_cache ;;;
  c <- get_cache ;;
  match _fuzzy_match_member c (Some member_name_arg) with
  | None => ret (error ("Could not find a member matching '" ++ member_name_arg ++ "'"))
  | Some matched_member =>
      d <- get_db ;;
      found <- lift (remove_member_from_task_lookup d task_identifier) ;;
      match found with
      | Ambiguous e => ret e
      | NoMatch =>
          ret (error ("Could not find a task matching '" ++ task_identifier ++ "'"))
      | Found task =>
          let hit := is_link (task_id task) (m_id matched_member) in
          let rowcount := length (filter hit (task_members d)) in
          commit (set_task_members
                    (filter (fun j => negb (hit j)) (task_members d)) d) ;;;
          if (rowcount =? 0)%nat
          then ret (error (fmt_opt (m_name matched_member) ++ " was not assigned to '"
                           ++ task_name task ++ "'"))
          else ret [("success", JBool true);
                    ("message", JStr ("Removed " ++ fmt_opt (m_name matched_member)
                                      ++ " from task '" ++ task_name task ++ "'"))]
      end
  end.


(* ====================================================================== *)
(** ** [DatabaseTools]: create functions *)
(* ====================================================================== *)

(** The loop over the names of [assigned_to] or [team_members]: the matched
    members in order, or the first name that matches nobody. *)
Fixpoint match_members (c : Cache) (names : list string) : list member + string :=
  match names with
  | [] => inl []
  | name :: rest =>
      match _fuzzy_match_member c (Some name) with
      | Some matched =>
          match match_members c rest with
          | inl l => inl (matched :: l)
          | inr unresolved => inr unresolved
          end
      | None => inr name
      end
  end.

(** The deadline argument: absent, empty or "null" (in any case) is no
    deadline; anything else must parse as YYYY-MM-DD.  [None] is the
    [ValueError] of [strptime]. *)
Definition parse_deadline (deadline : option string) : option (option date) :=
  match deadline with
  | None => Some None
  | Some s =>
      if String.eqb s "" || String.eqb (Py.lower s) "null" then Some None
      else match Datetime.strptime_ymd s with
           | Some d => Some (Some d)
           | None => None
           end
  end.

(** [', '.join(m['name'] for m in members)]: a name that is [None] raises
    [TypeError]. *)
Fixpoint names_from (i : nat) (members : list member) : outcome (list string) :=
  match members with
  | [] => Ok []
  | m :: rest =>
      match m_name m with
      | Some s => l <-- names_from (S i) rest ;; Ok (s :: l)
      | None =>
          Raise (TypeError ("sequence item " ++ Py.str_int (Z.of_nat i)
                            ++ ": expected str instance, NoneType found"))
      end
  end.

Definition join_names (members : list member) : outcome string :=
  l <-- names_from 0 members ;; Ok (Py.join ", " l).

(** [create_task] up to its session: the deadline is parsed, the names of
    [assigned_to] are matched, the caller is added if asked for.  The
    result is the envelope of an early return, or the deadline and the
    members to assign.  The task's name plays no part here. *)
Definition create_task_prepare (deadline : option string)
    (assigned_to : option (list string)) (assign_to_current_user : bool)
    (current_user_discord_id : option Z)
  : M (envelope + option date * list member) :=
  _ensure_cache ;;;
  match parse_deadline deadline with
  | None => ret (inl (error "Invalid deadline format. Please use YYYY-MM-DD"))
  | Some task_deadline =>
      c <- get_cache ;;
      match match_members c (match assigned_to with Some l => l | None => [] end) with
      | inr name =>
          ret (inl (error ("Could not find a member matching '" ++ name ++ "'")))
      | inl matched_members =>
          match assign_to_current_user, current_user_discord_id with
          | true, Some discord =>
              current_member <- get_member_by_discord_id discord ;;
              match current_member with
              | None =>
                  ret (inl (error "Could not find your member record to assign this task. Please contact an admin to link your Discord account."))
              | Some cm =>
                  if existsb (fun m => m_id m =? m_id cm) matched_members
                  then ret (inr (task_deadline, matched_members))
                  else ret (inr (task_deadline, (matched_members ++ [cm])%list))
              end
          | _, _ => ret (inr (task_deadline, matched_members))
          end
      end
  end.

Definition create_task (task_name_arg : string) (task_description_arg : option string)
    (deadline : option string) (assigned_to : option (list string))
    (assign_to_current_user : bool) (current_user_discord_id : option Z)
  : M envelope :=
  prepared <- create_task_prepare deadline assigned_to assign_to_current_user
                current_user_discord_id ;;
  match prepared with
  | inl e => ret e
  | inr (task_deadline_v, matched_members) =>
      d <- get_db ;;
      let new_task :=
        {| task_id := Query.next_id (map task_id (tasks d));
           task_name := task_name_arg;
           task_description := task_description_arg;
           task_deadline := task_deadline_v;
           task_status := Some "incomplete" |} in
      commit (set_task_members
                (task_members d
                 ++ map (fun m => (task_id new_task, m_id m)) matched_members)%list
                (set_tasks (tasks d ++ [new_task])%list d)) ;;;
      assigned <- lift (match matched_members with
                        | [] => Ok ""
                        | _ => names <-- join_names matched_members ;;
                               Ok (" and assigned to " ++ names)
                        end) ;;
      ret [("success", JBool true);
           ("message", JStr ("Created task '" ++ task_name_arg ++ "'" ++ assigned));
           ("task_id", JInt (task_id new_task));
           ("task_name", JStr task_name_arg);
           ("deadline", jdate_opt task_deadline_v);
           ("assigned_to", JList (map (fun m => jstr_opt (m_name m)) matched_members))]
  end.

Definition create_project (project_name_arg : string)
    (project_description_arg : option string) (team_members : option (list string))
  : M envelope :=
  _ensure_cache ;;;
  c <- get_cache ;;
  match match_members c (match team_members with Some l => l | None => [] end) with
  | inr name => ret (error ("Could not find a member matching '" ++ name ++ "'"))
  | inl matched_members =>
      d <- get_db ;;
      found <- lift (Query.where_
                       (fun p => Query.ilike (Some (project_name p)) project_name_arg)
                       (projects d)) ;;
      existing <- lift (Query.scalar_one_or_none found) ;;
      match existing with
      | Some _ =>
          ret (error ("A project named '" ++ project_name_arg ++ "' already exists"))
      | None =>
          let new_project :=
            {| project_id := Query.next_id (map project_id (projects d));
               project_name := project_name_arg;
               project_description := project_description_arg |} in
          commit (set_project_members
                    (project_members d
                     ++ map (fun m => (project_id new_project, m_id m)) matched_members)%list
                    (set_projects (projects d ++ [new_project])%list d)) ;;;
          team <- lift (match matched_members with
                        | [] => Ok ""
                        | _ => names <-- join_names matched_members ;;
                               Ok (" with team: " ++ names)
                        end) ;;
          ret [("success", JBool true);
               ("message", JStr ("Created project '" ++ project_name_arg ++ "'" ++ team));
               ("project_id", JInt (project_id new_project));
               ("project_name", JStr project_name_arg);
               ("team_members", JList (map (fun m => jstr_opt (m_name m)) matched_members))]
      end
  end.

(** The search for the project in [add_member_to_project]; the matches of
    the several-matches return are bare names. *)
Definition add_member_to_project_lookup (d : DB) (project_name_arg : string)
  : outcome (lookup Project) :=
  found <-- projects_like d project_name_arg ;;
  match found with
  | [] => Ok NoMatch
  | [p] => Ok (Found p)
  | _ =>
      Ok (Ambiguous
            [("error", JStr "Multiple projects match. Please be more specific.");
             ("matches", JList (map (fun p => JStr (project_name p)) (firstn 5 found)))])
  end.

Definition add_member_to_project (project_name_arg member_name_arg : string)
  : M envelope :=
  _ensure_cache ;;;
  c <- get_cache ;;
  match _fuzzy_match_member c (Some member_name_arg) with
  | None => ret (error ("Could not find a member matching '" ++ member_name_arg ++ "'"))
  | Some matched_member =>
      d <- get_db ;;
      found <- lift (add_member_to_project_lookup d project_name_arg) ;;
      match found with
      | NoMatch =>
          ret (error ("Could not find a project matching '" ++ project_name_arg ++ "'"))
      | Ambiguous e => ret e
      | Found project =>
          existing <- lift (Query.scalar_one_or_none
                              (filter (is_link (project_id project) (m_id matched_member))
                                      (project_members d))) ;;
          match existing with
          | Some _ =>
              ret (error (fmt_opt (m_name matched_member) ++ " is already a member of '"
                          ++ project_name project ++ "'"))
          | None =>
              commit (set_project_members
                        (project_members d
                         ++ [(project_id project, m_id matched_member)])%list d) ;;;
              ret [("success", JBool true);
                   ("message", JStr ("Added " ++ fmt_opt (m_name matched_member)
                                     ++ " to project '" ++ project_name project ++ "'"))]
          end
      end
  end.

Definition create_topic (topic_name_arg : string) (topic_description_arg : option string)
  : M envelope :=
  d <- get_db ;;
  found <- lift (Query.where_
                   (fun t => Query.ilike (Some (topic_name t)) topic_name_arg)
                   (topics d)) ;;
  existing <- lift (Query.scalar_one_or_none found) ;;
  match existing with
  | Some _ => ret (error ("A topic named '" ++ topic_name_arg ++ "' already exists"))
  | None =>
      let new_topic :=
        {| topic_id := Query.next_id (map topic_id (topics d));
           topic_name := topic_name_arg;
           topic_description := topic_description_arg |} in
      commit (set_topics (topics d ++ [new_topic])%list d) ;;;
      ret [("success", JBool true);
           ("message", JStr ("Created topic '" ++ topic_name_arg ++ "'"));
           ("topic_id", JInt (topic_id new_topic));
           ("topic_name", JStr topic_name_arg)]
  end.

(** The search for the meeting in [add_topic_to_meeting]; the matches of
    the several-matches return are bare names. *)
Definition add_topic_to_meeting_lookup (d : DB) (meeting_identifier : string)
  : outcome (lookup Meeting) :=
  meeting <-- meeting_by_id d meeting_identifier ;;
  match meeting with
  | Some m => Ok (Found m)
  | None =>
      found <-- meetings_like d meeting_identifier ;;
      match found with
      | [m] => Ok (Found m)
      | _ :: _ :: _ =>
          Ok (Ambiguous
                [("error", JStr "Multiple meetings match. Please be more specific.");
                 ("matches", JList (map (fun m => JStr (meeting_name m)) (firstn 5 found)))])
      | [] => Ok NoMatch
      end
  end.

Definition add_topic_to_meeting (meeting_identifier topic_name_arg : string)
  : M envelope :=
  d <- get_db ;;
  found <- lift (add_topic_to_meeting_lookup d meeting_identifier) ;;
  match found with
  | Ambiguous e => ret e
  | NoMatch =>
      ret (error ("Could not find a meeting matching '" ++ meeting_identifier ++ "'"))
  | Found meeting =>
      like <- lift (topics_like d topic_name_arg) ;;
      topic_opt <- lift (Query.scalar_one_or_none like) ;;
      let '(topic, d1) :=
        match topic_opt with
        | Some t => (t, d)
        | None =>
            let t := {| topic_id := Query.next_id (map topic_id (topics d));
                        topic_name := topic_name_arg;
                        topic_description := None |} in
            (t, set_topics (topics d ++ [t])%list d)
        end in
      existing <- lift (Query.scalar_one_or_none
                          (filter (is_link (meeting_id meeting) (topic_id topic))
                                  (meeting_topics d1))) ;;
      match existing with
      | Some _ =>
          ret (error ("Topic '" ++ topic_name topic ++ "' is already linked to meeting '"
                      ++ meeting_name meeting ++ "'"))
      | None =>
          commit (set_meeting_topics
                    (meeting_topics d1 ++ [(meeting_id meeting, topic_id topic)])%list d1) ;;;
          ret [("success", JBool true);
               ("message", JStr ("Linked topic '" ++ topic_name topic ++ "' to meeting '"
                                 ++ meeting_name meeting ++ "'"))]
      end
  end.


(* ====================================================================== *)
(** ** [ToolExecutor]: the Tool Router *)
(* ====================================================================== *)

(** The argument bag of a call, typed by the parameter schemas of
    [TOOL_DEFINITIONS]; a field is [None] when the bag has no such key. *)
Record Args := {
  arg_status_filter : option string;
  arg_member_name : option string;
  arg_meeting_identifier : option string;
  arg_project_name : option string;
  arg_topic_name : option string;
  arg_search_query : option string;
  arg_search_in : option string;
  arg_task_identifier : option string;
  arg_new_status : option string;
  arg_task_name : option string;
  arg_task_description : option string;
  arg_deadline : option string;
  arg_assigned_to : option (list string);
  arg_assign_to_current_user : option bool;
  arg_project_description : option string;
  arg_team_members : option (list string);
  arg_topic_description : option string }.

(** [args[key]] *)
Definition index {A} (key : string) (field : option A) : M A :=
  match field with
  | Some v => ret v
  | None => raise (KeyError key)
  end.

(** [args.get(key, default)] *)
Definition get_or {A} (field : option A) (default : A) : A :=
  match field with
  | Some v => v
  | None => default
  end.

Definition cannot_identify : envelope :=
  error "Cannot identify you. Your Discord account may not be linked.".

(** [if not user_discord_id: return {...}] before a call that needs the
    caller: neither [None] nor 0 passes. *)
Definition with_caller (user_discord_id : option Z) (k : Z -> M envelope)
  : M envelope :=
  match user_discord_id with
  | None => ret cannot_identify
  | Some z => if z =? 0 then ret cannot_identify else k z
  end.

(** [_call_tool]: route to the appropriate tool function. *)
Definition _call_tool (tool_name : string) (args : Args) (user_discord_id : option Z)
  : M envelope :=
  if String.eqb tool_name "get_my_tasks" then
    with_caller user_discord_id get_my_tasks
  else if String.eqb tool_name "get_my_identity" then
    with_caller user_discord_id get_my_identity
  else if String.eqb tool_name "get_current_datetime" then
    now <- get_clock ;;
    ret [("current_datetime_iso", JStr (Datetime.isoformat now));
         ("current_date", JStr (Datetime.str_date (dt_date now)));
         ("current_time", JStr (Datetime.str_time now));
         ("timezone", JStr "server-local")]
  else if String.eqb tool_name "get_all_tasks" then
    get_all_tasks (get_or (arg_status_filter args) "all")
  else if String.eqb tool_name "get_member_info" then
    a <- index "member_name" (arg_member_name args) ;;
    get_member_info a
  else if String.eqb tool_name "get_meeting_info" then
    a <- index "meeting_identifier" (arg_meeting_identifier args) ;;
    get_meeting_info a
  else if String.eqb tool_name "get_meetings_for_member" then
    a <- index "member_name" (arg_member_name args) ;;
    get_meetings_for_member a
  else if String.eqb tool_name "get_missed_meetings" then
    with_caller user_discord_id get_missed_meetings
  else if String.eqb tool_name "get_project_info" then
    a <- index "project_name" (arg_project_name args) ;;
    get_project_info a
  else if String.eqb tool_name "get_all_projects" then
    get_all_projects
  else if String.eqb tool_name "get_all_members" then
    get_all_members
  else if String.eqb tool_name "get_topic_info" then
    a <- index "topic_name" (arg_topic_name args) ;;
    get_topic_info a
  else if String.eqb tool_name "search_database" then
    a <- index "search_query" (arg_search_query args) ;;
    search_database a (get_or (arg_search_in args) "all")
  else if String.eqb tool_name "update_task_status" then
    a <- index "task_identifier" (arg_task_identifier args) ;;
    b <- index "new_status" (arg_new_status args) ;;
    update_task_status a b
  else if String.eqb tool_name "assign_member_to_task" then
    a <- index "task_identifier" (arg_task_identifier args) ;;
    b <- index "member_name" (arg_member_name args) ;;
    assign_member_to_task a b
  else if String.eqb tool_name "remove_member_from_task" then
    a <- index "task_identifier" (arg_task_identifier args) ;;
    b <- index "member_name" (arg_member_name args) ;;
    remove_member_from_task a b
  else if String.eqb tool_name "create_task" then
    a <- index "task_name" (arg_task_name args) ;;
    create_task a (arg_task_description args) (arg_deadline args)
      (arg_assigned_to args) (get_or (arg_assign_to_current_user args) false)
      user_discord_id
  else if String.eqb tool_name "create_project" then
    a <- index "project_name" (arg_project_name args) ;;
    create_project a (arg_project_description args) (arg_team_members args)
  else if String.eqb tool_name "add_member_to_project" then
    a <- index "project_name" (arg_project_name args) ;;
    b <- index "member_name" (arg_member_name args) ;;
    add_member_to_project a b
  else if String.eqb tool_name "create_topic" then
    a <- index "topic_name" (arg_topic_name args) ;;
    create_topic a (arg_topic_description args)
  else if String.eqb tool_name "add_topic_to_meeting" then
    a <- index "meeting_identifier" (arg_meeting_identifier args) ;;
    b <- index "topic_name" (arg_topic_name args) ;;
    add_topic_to_meeting a b
  else
    ret (error ("Unknown tool: " ++ tool_name)).

(** [execute]: the envelope whose [json.dumps] the source returns.  The
    [try] covers the routed call; [except Exception] turns what it raises
    into an error envelope. *)
Definition execute (tool_name : string) (args : Args) (user_discord_id : option Z)
  : World -> envelope * World :=
  fun w =>
    match _call_tool tool_name args user_discord_id w with
    | (Ok result, w') => (result, w')
    | (Raise e, w') => (error ("Tool execution failed: " ++ str_exn e), w')
    end.

(** The names of the tool catalog [TOOL_DEFINITIONS], in its order. *)
Definition TOOL_DEFINITIONS : list string :=
  ["get_my_tasks"; "get_current_datetime"; "get_my_identity"; "get_all_tasks";
   "get_member_info"; "get_meeting_info"; "get_meetings_for_member";
   "get_missed_meetings"; "get_project_info"; "get_all_projects";
   "get_all_members"; "get_topic_info"; "search_database"; "update_task_status";
   "assign_member_to_task"; "remove_member_from_task"; "create_task";
   "create_project"; "add_member_to_project"; "create_topic";
   "add_topic_to_meeting"].

(** An argument bag with no keys. *)
Definition no_args : Args :=
  {| arg_status_filter := None; arg_member_name := None;
     arg_meeting_identifier := None; arg_project_name := None;
     arg_topic_name := None; arg_search_query := None; arg_search_in := None;
     arg_task_identifier := None; arg_new_status := None; arg_task_name := None;
     arg_task_description := None; arg_deadline := None; arg_assigned_to := None;
     arg_assign_to_current_user := None; arg_project_description := None;
     arg_team_members := None; arg_topic_description := None |}.


(* ====================================================================== *)
(** ** A small store for the concrete runs *)
(* ====================================================================== *)

Module Sample.

Definition person (i : Z) (n : string) (disc : option Z) : Committee :=
  {| member_id := i; member_name := Some n; discord_id := disc;
     role := Some "Member"; subcommittee := None; email := None |}.

Definition task (i : Z) (n : string) (dl : option date) (st : option string) : Task :=
  {| task_id := i; task_name := n; task_description := None;
     task_deadline := dl; task_status := st |}.

Definition meeting (i : Z) (n : string) : Meeting :=
  {| meeting_id := i; meeting_name := n; meeting_type := None;
     meeting_summary := None; ingestion_timestamp := None |}.

Definition ymd (y m d : Z) : date := {| year := y; month := m; day := d |}.

Definition store : DB :=
  {| committee :=
       [person 1 "Michael Huang" (Some 1001); person 2 "Sam Li" (Some 1002);
        person 3 "Andy Shang" None; person 4 "Andy Wong" None];
     tasks :=
       [task 1 "Write report" (Some (ymd 2024 3 1)) None;
        task 2 "Book venue" None (Some "complete");
        task 3 "Write agenda" (Some (ymd 2024 1 15)) (Some "incomplete")];
     meetings := [meeting 1 "Budget kickoff"; meeting 2 "Budget review"];
     projects :=
       [{| project_id := 1; project_name := "Alpha"; project_description := None |};
        {| project_id := 2; project_name := "Alpha Two"; project_description := None |}];
     topics :=
       [{| topic_id := 1; topic_name := "Budget A"; topic_description := None |};
        {| topic_id := 2; topic_name := "Budget B"; topic_description := None |}];
     task_members := [(2, 1)];
     meeting_members := [];
     meeting_topics := [];
     meeting_tasks := [];
     meeting_projects := [];
     project_members := [];
     project_tasks := [] |}.

Definition noon : datetime :=
  {| dt_date := ymd 2024 2 1; hour := 12; minute := 0; second := 0;
     microsecond := 0 |}.

(** The world of a fresh [DatabaseTools] over [store]. *)
Definition world : World := {| db := store; cache := empty_cache; clock := noon |}.

(** A store whose only committee row has a Discord id and no name. *)
Definition nameless_store : DB :=
  {| committee := [{| member_id := 7; member_name := None;
                      discord_id := Some 7007; role := None;
                      subcommittee := None; email := None |}];
     tasks := []; meetings := []; projects := []; topics := [];
     task_members := []; meeting_members := []; meeting_topics := [];
     meeting_tasks := []; meeting_projects := []; project_members := [];
     project_tasks := [] |}.

(** A store whose only committee row has a name of white space. *)
Definition blank_name_store : DB :=
  {| committee := [person 9 " " None];
     tasks := []; meetings := []; projects := []; topics := [];
     task_members := []; meeting_members := []; meeting_topics := [];
     meeting_tasks := []; meeting_projects := []; project_members := [];
     project_tasks := [] |}.

Definition world_of (d : DB) : World :=
  {| db := d; cache := empty_cache; clock := noon |}.

End Sample.


(** Tool calls for the concrete runs. *)
Module Calls.

Definition call : Type := string * Args * option Z.

Definition update_task_status (task_identifier new_status : string) : call :=
  ("update_task_status",
   {| arg_status_filter := None; arg_member_name := None;
      arg_meeting_identifier := None; arg_project_name := None;
      arg_topic_name := None; arg_search_query := None; arg_search_in := None;
      arg_task_identifier := Some task_identifier;
      arg_new_status := Some new_status; arg_task_name := None;
      arg_task_description := None; arg_deadline := None; arg_assigned_to := None;
      arg_assign_to_current_user := None; arg_project_description := None;
      arg_team_members := None; arg_topic_description := None |},
   None).

Definition assign_member_to_task (task_identifier member_name_arg : string) : call :=
  ("assign_member_to_task",
   {| arg_status_filter := None; arg_member_name := Some member_name_arg;
      arg_meeting_identifier := None; arg_project_name := None;
      arg_topic_name := None; arg_search_query := None; arg_search_in := None;
      arg_task_identifier := Some task_identifier;
      arg_new_status := None; arg_task_name := None;
      arg_task_description := None; arg_deadline := None; arg_assigned_to := None;
      arg_assign_to_current_user := None; arg_project_description := None;
      arg_team_members := None; arg_topic_description := None |},
   None).

Definition remove_member_from_task (task_identifier member_name_arg : string) : call :=
  ("remove_member_from_task",
   {| arg_status_filter := None; arg_member_name := Some member_name_arg;
      arg_meeting_identifier := None; arg_project_name := None;
      arg_topic_name := None; arg_search_query := None; arg_search_in := None;
      arg_task_identifier := Some task_identifier;
      arg_new_status := None; arg_task_name := None;
      arg_task_description := None; arg_deadline := None; arg_assigned_to := None;
      arg_assign_to_current_user := None; arg_project_description := None;
      arg_team_members := None; arg_topic_description := None |},
   None).

Definition create_task (task_name_arg : string) (deadline : option string)
    (assigned_to : list string) (caller : option Z) : call :=
  ("create_task",
   {| arg_status_filter := None; arg_member_name := None;
      arg_meeting_identifier := None; arg_project_name := None;
      arg_topic_name := None; arg_search_query := None; arg_search_in := None;
      arg_task_identifier := None;
      arg_new_status := None; arg_task_name := Some task_name_arg;
      arg_task_description := None; arg_deadline := deadline;
      arg_assigned_to := Some assigned_to;
      arg_assign_to_current_user := None; arg_project_description := None;
      arg_team_members := None; arg_topic_description := None |},
   caller).

Definition create_project (project_name_arg : string) (team_members : list string)
  : call :=
  ("create_project",
   {| arg_status_filter := None; arg_member_name := None;
      arg_meeting_identifier := None; arg_project_name := Some project_name_arg;
      arg_topic_name := None; arg_search_query := None; arg_search_in := None;
      arg_task_identifier := None;
      arg_new_status := None; arg_task_name := None;
      arg_task_description := None; arg_deadline := None; arg_assigned_to := None;
      arg_assign_to_current_user := None; arg_project_description := None;
      arg_team_members := Some team_members; arg_topic_description := None |},
   None).

Definition add_member_to_project (project_name_arg member_name_arg : string) : call :=
  ("add_member_to_project",
   {| arg_status_filter := None; arg_member_name := Some member_name_arg;
      arg_meeting_identifier := None; arg_project_name := Some project_name_arg;
      arg_topic_name := None; arg_search_query := None; arg_search_in := None;
      arg_task_identifier := None;
      arg_new_status := None; arg_task_name := None;
      arg_task_description := None; arg_deadline := None; arg_assigned_to := None;
      arg_assign_to_current_user := None; arg_project_description := None;
      arg_team_members := None; arg_topic_description := None |},
   None).

Definition add_topic_to_meeting (meeting_identifier topic_name_arg : string) : call :=
  ("add_topic_to_meeting",
   {| arg_status_filter := None; arg_member_name := None;
      arg_meeting_identifier := Some meeting_identifier; arg_project_name := None;
      arg_topic_name := Some topic_name_arg; arg_search_query := None;
      arg_search_in := None; arg_task_identifier := None;
      arg_new_status := None; arg_task_name := None;
      arg_task_description := None; arg_deadline := None; arg_assigned_to := None;
      arg_assign_to_current_user := None; arg_project_description := None;
      arg_team_members := None; arg_topic_description := None |},
   None).

Definition get_member_info (member_name_arg : string) : call :=
  ("get_member_info",
   {| arg_status_filter := None; arg_member_name := Some member_name_arg;
      arg_meeting_identifier := None; arg_project_name := None;
      arg_topic_name := None; arg_search_query := None; arg_search_in := None;
      arg_task_identifier := None;
      arg_new_status := None; arg_task_name := None;
      arg_task_description := None; arg_deadline := None; arg_assigned_to := None;
      arg_assign_to_current_user := None; arg_project_description := None;
      arg_team_members := None; arg_topic_description := None |},
   None).

Definition create_topic (topic_name_arg : string) : call :=
  ("create_topic",
   {| arg_status_filter := None; arg_member_name := None;
      arg_meeting_identifier := None; arg_project_name := None;
      arg_topic_name := Some topic_name_arg; arg_search_query := None;
      arg_search_in := None; arg_task_identifier := None;
      arg_new_status := None; arg_task_name := None;
      arg_task_description := None; arg_deadline := None; arg_assigned_to := None;
      arg_assign_to_current_user := None; arg_project_description := None;
      arg_team_members := None; arg_topic_description := None |},
   None).

(** A session that writes to every table the tools write. *)
Definition session : list call :=
  [get_member_info "Sam";
   create_task "Plan social" (Some "2024-05-01") ["Michael"; "Sam Li"] None;
   update_task_status "1" "complete";
   assign_member_to_task "agenda" "Sam";
   remove_member_from_task "2" "Michael Huang";
   create_project "Beta" ["Sam"];
   add_member_to_project "Alpha Two" "Michael";
   add_topic_to_meeting "1" "Venue";
   add_topic_to_meeting "2" "Budget A"].

End Calls.


(** Stores for the concrete runs of the edge cases. *)
Module Edge.

(** A task whose stored status is the empty string. *)
Definition draft : Task := Sample.task 5 "Draft minutes" None (Some "").

Definition draft_store : DB :=
  set_tasks (tasks Sample.store ++ [draft])%list Sample.store.

(** The sample store after member 1 attended meeting 1. *)
Definition attended_store : DB :=
  {| committee := committee Sample.store; tasks := tasks Sample.store;
     meetings := meetings Sample.store; projects := projects Sample.store;
     topics := topics Sample.store; task_members := task_members Sample.store;
     meeting_members := [(1, 1)];
     meeting_topics := [(2, 1)];
     meeting_tasks := []; meeting_projects := [];
     project_members := []; project_tasks := [] |}.

(** A cache with an entry under the empty key, which no load produces. *)
Definition empty_key_cache : Cache :=
  {| _member_cache :=
       [("", member_of_row (Sample.person 1 "Michael Huang" (Some 1001)))];
     _member_first_name_index := [];
     _cache_loaded := true |}.

(** The sample store with Sam already a member of project 2. *)
Definition member_store : DB :=
  set_project_members [(2, 2)] Sample.store.

End Edge.


(* ====================================================================== *)
(** ** Notions used to state the properties *)
(* ====================================================================== *)

(** A sequence of [assign_member_to_task] calls, each given as
    (task_identifier, member_name), run one after the other; outcomes are
    dropped, the world is threaded. *)
Definition assign_all (calls : list (string * string)) (w : World) : World :=
  fold_left (fun w c => snd (assign_member_to_task (fst c) (snd c) w)) calls w.


(** A cache none of whose keys is the empty string; every cache the loader
    builds is of this kind. *)
Definition cache_wf (c : Cache) : Prop :=
  ~ In "" (Dict.keys (_member_cache c)) /\
  ~ In "" (Dict.keys (_member_first_name_index c)).


(** The first name of a committee row, case-folded: the key under which
    the loader files the row in the first-name index.  Rows without a name
    have none. *)
Definition first_name_key (r : Committee) : option string :=
  match member_name r with
  | Some name =>
      match Py.split_ws name with
      | first :: _ => Some (Py.lower first)
      | [] => None
      end
  | None => None
  end.

(** The row's first name is [key], up to case. *)
Definition has_first_name (key : string) (r : Committee) : bool :=
  match first_name_key r with
  | Some k => String.eqb k key
  | None => false
  end.


(** The characters ILIKE gives a meaning to, and the names without them. *)
Definition like_meta (c : ascii) : bool :=
  Ascii.eqb c "%" || Ascii.eqb c "_" || Ascii.eqb c "\".

Fixpoint plain (s : string) : bool :=
  match s with
  | EmptyString => true
  | String c s' => negb (like_meta c) && plain s'
  end.

(** Two names are the same up to case. *)
Definition same_name (a b : string) : bool :=
  String.eqb (Py.lower a) (Py.lower b).






(** Strings without white space. *)
Fixpoint no_space_chars (s : string) : bool :=
  match s with
  | EmptyString => true
  | String c s' => negb (Py.is_space c) && no_space_chars s'
  end.

(** The list filed under a key of the first-name index. *)
Definition filed (key : string) (c : Cache) : list member :=
  match Dict.get key (_member_first_name_index c) with
  | Some l => l
  | None => []
  end.

(** A row filed in the full-name cache under [key]. *)
Definition named (key : string) (r : Committee) : Prop :=
  exists name, member_name r = Some name /\ name <> "" /\ Py.lower name = key.


(** Substrings: [contains p t] tells whether [p] occurs in [t]. *)
Fixpoint is_prefix (p t : list ascii) : bool :=
  match p, t with
  | [], _ => true
  | x :: p', c :: t' => Ascii.eqb x c && is_prefix p' t'
  | _ :: _, [] => false
  end.

Fixpoint contains (p t : list ascii) : bool :=
  is_prefix p t ||
  match t with
  | [] => false
  | _ :: t' => contains p t'
  end.

(** [needle] occurs in [hay], up to case. *)
Definition icontains (needle hay : string) : bool :=
  contains (list_ascii_of_string (Py.lower needle))
           (list_ascii_of_string (Py.lower hay)).


(** The invariant of the loops of [find_longest_match] after the rows
    before [i] of the window that starts at [alo]. *)
Definition block_inv (alo i : nat) (st : list (nat * nat) * Difflib.Match) : Prop :=
  ((forall j k, In (j, k) (fst st) -> k <= i - alo)
   /\ alo <= Difflib.besti (snd st)
   /\ Difflib.besti (snd st) + Difflib.bestsize (snd st) <= i)%nat.

(** An operation keeps a relation between the world before and after. *)
Definition keeps {A} (R : World -> World -> Prop) (m : M A) : Prop :=
  forall w, R w (snd (m w)).

(** The store and the clock are as they were. *)
Definition same_store (w w' : World) : Prop :=
  db w' = db w /\ clock w' = clock w.

(** A loaded cache is as it was. *)
Definition loaded_cache_kept (w w' : World) : Prop :=
  _cache_loaded (cache w) = true -> cache w' = cache w.

(** The names of the retrieval tools, in the order of the router. *)
Definition retrieval_tools : list string :=
  ["get_my_tasks"; "get_my_identity"; "get_current_datetime"; "get_all_tasks";
   "get_member_info"; "get_meeting_info"; "get_meetings_for_member";
   "get_missed_meetings"; "get_project_info"; "get_all_projects";
   "get_all_members"; "get_topic_info"; "search_database"].

(** A sequence of tool calls, each a tool name, an argument bag and a
    caller, run one after the other through [execute]. *)
Definition run_calls (calls : list (string * Args * option Z)) (w : World) : World :=
  fold_left (fun w c => snd (execute (fst (fst c)) (snd (fst c)) (snd c) w)) calls w.

(** The row [update(Task).where(Task.task_id == id).values(status=...)]
    leaves in the place of [t]. *)
Definition with_status (id : Z) (new_status : string) (t : Task) : Task :=
  if task_id t =? id
  then {| task_id := task_id t; task_name := task_name t;
          task_description := task_description t;
          task_deadline := task_deadline t;
          task_status := Some new_status |}
  else t.

(** The writes the tools commit: one constructor for each place where a
    tool function reaches [session.commit()] with a change, with what the
    function has checked before it. *)
Inductive write (d : DB) : DB -> Prop :=
| W_status (task : Task) (new_status : string) :
    new_status = "complete" \/ new_status = "incomplete" ->
    In task (tasks d) ->
    write d (set_tasks (map (with_status (task_id task) new_status) (tasks d)) d)
| W_assign (task : Task) (m : Z) :
    In task (tasks d) ->
    filter (is_link (task_id task) m) (task_members d) = [] ->
    write d (set_task_members (task_members d ++ [(task_id task, m)])%list d)
| W_unassign (task : Task) (m : Z) :
    In task (tasks d) ->
    write d (set_task_members
               (filter (fun j => negb (is_link (task_id task) m j)) (task_members d)) d)
| W_task (name : string) (description : option string) (deadline : option date)
         (members : list member) :
    let new_task :=
      {| task_id := Query.next_id (map task_id (tasks d));
         task_name := name; task_description := description;
         task_deadline := deadline; task_status := Some "incomplete" |} in
    write d (set_task_members
               (task_members d
                ++ map (fun m => (task_id new_task, m_id m)) members)%list
               (set_tasks (tasks d ++ [new_task])%list d))
| W_project (name : string) (description : option string) (members : list member) :
    let new_project :=
      {| project_id := Query.next_id (map project_id (projects d));
         project_name := name; project_description := description |} in
    write d (set_project_members
               (project_members d
                ++ map (fun m => (project_id new_project, m_id m)) members)%list
               (set_projects (projects d ++ [new_project])%list d))
| W_project_member (project : Project) (m : Z) :
    In project (projects d) ->
    filter (is_link (project_id project) m) (project_members d) = [] ->
    write d (set_project_members
               (project_members d ++ [(project_id project, m)])%list d)
| W_topic (name : string) (description : option string) :
    let new_topic :=
      {| topic_id := Query.next_id (map topic_id (topics d));
         topic_name := name; topic_description := description |} in
    write d (set_topics (topics d ++ [new_topic])%list d)
| W_meeting_topic (meeting : Meeting) (topic : Topic) :
    In meeting (meetings d) ->
    In topic (topics d) ->
    filter (is_link (meeting_id meeting) (topic_id topic)) (meeting_topics d) = [] ->
    write d (set_meeting_topics
               (meeting_topics d ++ [(meeting_id meeting, topic_id topic)])%list d)
| W_meeting_new_topic (meeting : Meeting) (name : string) :
    let new_topic :=
      {| topic_id := Query.next_id (map topic_id (topics d));
         topic_name := name; topic_description := None |} in
    In meeting (meetings d) ->
    filter (is_link (meeting_id meeting) (topic_id new_topic)) (meeting_topics d) = [] ->
    write d (set_meeting_topics
               (meeting_topics d ++ [(meeting_id meeting, topic_id new_topic)])%list
               (set_topics (topics d ++ [new_topic])%list d)).

(** One call's change of the store: none, or one write. *)
Definition step (d d' : DB) : Prop := d' = d \/ write d d'.

(** What of a task no tool changes once the task exists. *)
Definition task_fixed (t : Task) : Z * string * option string * option date :=
  (task_id t, task_name t, task_description t, task_deadline t).

(** [l'] is [l] with rows added at its end. *)
Definition extends {A} (l l' : list A) : Prop := exists added, l' = (l ++ added)%list.

(** The store [d'] against an earlier store [d]: the member and meeting
    tables and four of the junctions are as they were; projects, topics
    and their links have only gained rows; tasks have only gained rows and
    changed in status. *)
Definition store_frame (d d' : DB) : Prop :=
  committee d' = committee d
  /\ meetings d' = meetings d
  /\ meeting_members d' = meeting_members d
  /\ meeting_tasks d' = meeting_tasks d
  /\ meeting_projects d' = meeting_projects d
  /\ project_tasks d' = project_tasks d
  /\ extends (projects d) (projects d')
  /\ extends (topics d) (topics d')
  /\ extends (project_members d) (project_members d')
  /\ extends (meeting_topics d) (meeting_topics d')
  /\ extends (map task_fixed (tasks d)) (map task_fixed (tasks d')).

(** Every stored status is NULL, 'complete' or 'incomplete'. *)
Definition status_valid (d : DB) : Prop :=
  forall t, In t (tasks d) ->
    task_status t = None \/ task_status t = Some "complete"
    \/ task_status t = Some "incomplete".

(** No two tasks, no two projects and no two topics share an identifier. *)
Definition ids_unique (d : DB) : Prop :=
  NoDup (map task_id (tasks d))
  /\ NoDup (map project_id (projects d))
  /\ NoDup (map topic_id (topics d)).

(** Every link of the three junctions the tools write names a stored task,
    project, meeting and topic. *)
Definition links_resolve (d : DB) : Prop :=
  (forall j, In j (task_members d) -> In (fst j) (map task_id (tasks d)))
  /\ (forall j, In j (project_members d) -> In (fst j) (map project_id (projects d)))
  /\ (forall j, In j (meeting_topics d) ->
        In (fst j) (map meeting_id (meetings d))
        /\ In (snd j) (map topic_id (topics d))).

(** The [required] list of each tool's [input_schema] in
    [TOOL_DEFINITIONS]. *)
Definition required (tool_name : string) : list string :=
  if String.eqb tool_name "get_member_info" then ["member_name"]
  else if String.eqb tool_name "get_meeting_info" then ["meeting_identifier"]
  else if String.eqb tool_name "get_meetings_for_member" then ["member_name"]
  else if String.eqb tool_name "get_project_info" then ["project_name"]
  else if String.eqb tool_name "get_topic_info" then ["topic_name"]
  else if String.eqb tool_name "search_database" then ["search_query"]
  else if String.eqb tool_name "update_task_status"
  then ["task_identifier"; "new_status"]
  else if String.eqb tool_name "assign_member_to_task"
  then ["task_identifier"; "member_name"]
  else if String.eqb tool_name "remove_member_from_task"
  then ["task_identifier"; "member_name"]
  else if String.eqb tool_name "create_task" then ["task_name"]
  else if String.eqb tool_name "create_project" then ["project_name"]
  else if String.eqb tool_name "add_member_to_project"
  then ["project_name"; "member_name"]
  else if String.eqb tool_name "create_topic" then ["topic_name"]
  else if String.eqb tool_name "add_topic_to_meeting"
  then ["meeting_identifier"; "topic_name"]
  else [].

Definition is_some {A} (o : option A) : bool :=
  match o with Some _ => true | None => false end.

(** [key in args] *)
Definition has_key (key : string) (a : Args) : bool :=
  if String.eqb key "status_filter" then is_some (arg_status_filter a)
  else if String.eqb key "member_name" then is_some (arg_member_name a)
  else if String.eqb key "meeting_identifier" then is_some (arg_meeting_identifier a)
  else if String.eqb key "project_name" then is_some (arg_project_name a)
  else if String.eqb key "topic_name" then is_some (arg_topic_name a)
  else if String.eqb key "search_query" then is_some (arg_search_query a)
  else if String.eqb key "search_in" then is_some (arg_search_in a)
  else if String.eqb key "task_identifier" then is_some (arg_task_identifier a)
  else if String.eqb key "new_status" then is_some (arg_new_status a)
  else if String.eqb key "task_name" then is_some (arg_task_name a)
  else if String.eqb key "task_description" then is_some (arg_task_description a)
  else if String.eqb key "deadline" then is_some (arg_deadline a)
  else if String.eqb key "assigned_to" then is_some (arg_assigned_to a)
  else if String.eqb key "assign_to_current_user"
  then is_some (arg_assign_to_current_user a)
  else if String.eqb key "project_description"
  then is_some (arg_project_description a)
  else if String.eqb key "team_members" then is_some (arg_team_members a)
  else if String.eqb key "topic_description" then is_some (arg_topic_description a)
  else false.

(** The first key of [keys] that the argument bag lacks. *)
Definition first_missing (keys : list string) (a : Args) : option string :=
  find (fun k => negb (has_key k a)) keys.

(** The dictionary [get_my_tasks] lists for one task. *)
Definition my_task_entry (task : Task) : json :=
  JDict [("task_id", JInt (task_id task));
         ("name", JStr (task_name task));
         ("description", jstr_opt (task_description task));
         ("deadline", jdate_opt (task_deadline task));
         ("status", JStr (or_incomplete (task_status task)))].

(** A LIKE pattern that does not end in a backslash. *)
Definition no_trailing_escape (p : list ascii) : Prop :=
  forall l, p <> (l ++ ["\"%char])%list.

(** The keys [search_database] files its results under. *)
Definition search_categories : list string :=
  ["members"; "meetings"; "projects"; "tasks"; "topics"].

(** An operation raises only exceptions of the kind [P]. *)
Definition raises {A} (P : exn -> Prop) (m : M A) : Prop :=
  forall w e, fst (m w) = Raise e -> P e.

Definition oraises {A} (P : exn -> Prop) (o : outcome A) : Prop :=
  forall e, o = Raise e -> P e.

(** The tools whose function loads the member cache, itself or through
    [get_member_by_discord_id]. *)
Definition cache_tools : list string :=
  ["get_my_tasks"; "get_my_identity"; "get_member_info";
   "get_meetings_for_member"; "get_missed_meetings"; "assign_member_to_task";
   "remove_member_from_task"; "create_task"; "create_project";
   "add_member_to_project"].

(** The tools whose function calls [scalar_one_or_none], itself or through
    [get_member_by_discord_id]. *)
Definition one_row_tools : list string :=
  ["get_my_tasks"; "get_my_identity"; "get_member_info"; "get_meeting_info";
   "get_missed_meetings"; "update_task_status"; "assign_member_to_task";
   "remove_member_from_task"; "create_task"; "create_project";
   "add_member_to_project"; "create_topic"; "add_topic_to_meeting"].

(** The tools whose function queries the store. *)
Definition store_tools : list string :=
  ["get_my_tasks"; "get_my_identity"; "get_all_tasks"; "get_member_info";
   "get_meeting_info"; "get_meetings_for_member"; "get_missed_meetings";
   "get_project_info"; "get_all_projects"; "get_all_members"; "get_topic_info";
   "search_database"; "update_task_status"; "assign_member_to_task";
   "remove_member_from_task"; "create_task"; "create_project";
   "add_member_to_project"; "create_topic"; "add_topic_to_meeting"].

(** The exceptions a routed call can raise, by tool.  An error of the
    store ([DBAPIError]: a refused value, a failed statement) can come from
    any tool that queries the store; the one of a LIKE pattern that ends in
    an escape only from the two tools that use a name as the pattern. *)
Definition failure (tool_name : string) (args : Args) (e : exn) : Prop :=
  match e with
  | KeyError key => first_missing (required tool_name) args = Some key
  | IndexError => In tool_name cache_tools
  | MultipleResultsFound => In tool_name one_row_tools
  | DBAPIError msg =>
      In tool_name store_tools
      /\ (msg = "LIKE pattern must not end with escape character" ->
          In tool_name ["create_project"; "create_topic"])
  | TypeError _ => In tool_name ["create_task"; "create_project"]
  end.

(** The tools that answer about the caller. *)
Definition identity_tools : list string :=
  ["get_my_tasks"; "get_my_identity"; "get_missed_meetings"].

(** The committee rows with a Discord id: the rows of
    [select(Committee).where(Committee.discord_id == discord_id)]. *)
Definition linked (d : DB) (discord : Z) : list Committee :=
  filter (fun r => match discord_id r with
                   | Some x => x =? discord
                   | None => false
                   end) (committee d).

(** The error of each identity tool for a caller without a committee row. *)
Definition unlinked_message (tool_name : string) : string :=
  if String.eqb tool_name "get_my_tasks"
  then "Could not find your member record. Please contact an admin to link your Discord account."
  else if String.eqb tool_name "get_my_identity"
  then "Could not find your member record. Your Discord account may not be linked in the committee table."
  else "Could not find your member record.".

(** A string the store accepts as a bound value: it holds no character 0. *)
Definition bound_text (s : string) : Prop :=
  Py.mem_char "000"%char s = false.

(** An integer within the range of a 64-bit column. *)
Definition int8 (z : Z) : Prop := - 2 ^ 63 <= z < 2 ^ 63.

(* ====================================================================== *)
(** * Properties *)
(* ====================================================================== *)

Local Open Scope op_scope.
Unset Implicit Arguments.

(** ** Concrete runs of the building blocks *)

Example int_plain : Py.int " 42 " = Some 42.
Proof. reflexivity. Qed.

Example int_of_a_name : Py.int "budget" = None.
Proof. reflexivity. Qed.

Example split_two_words : Py.split_ws "  Michael   Huang " = ["Michael"; "Huang"].
Proof. reflexivity. Qed.

Example clean_key_noise :
  clean_key "Michael Huang (the coolest person!)" = "michael huang".
Proof. reflexivity. Qed.

Example strptime_padded :
  Datetime.strptime_ymd "2024-03-01" = Some (Sample.ymd 2024 3 1).
Proof. reflexivity. Qed.

Example strptime_no_such_day : Datetime.strptime_ymd "2023-02-29" = None.
Proof. reflexivity. Qed.

Example ratio_abcd_bcde :
  Difflib.ratio (list_ascii_of_string "abcd") (list_ascii_of_string "bcde") = (6, 8)%nat.
Proof. vm_compute. reflexivity. Qed.

Example close_match_typo :
  Difflib.get_close_matches "micheal huang"
    ["sam li"; "michael huang"; "michael hu"] 1 (3, 5)%nat = ["michael huang"].
Proof. vm_compute. reflexivity. Qed.

Example ilike_substring : Sql.ilike "Budget Review" "%BUDGET%" = Sql.LIKE_TRUE.
Proof. vm_compute. reflexivity. Qed.

Example ilike_underscore : Sql.ilike "abc" "a_c" = Sql.LIKE_TRUE.
Proof. vm_compute. reflexivity. Qed.

Example ilike_backslash : Sql.ilike "a\b" "a\b" = Sql.LIKE_FALSE.
Proof. vm_compute. reflexivity. Qed.

(* ---------------------------------------------------------------------- *)
(** ** The Tool Router *)
(* ---------------------------------------------------------------------- *)

(** The failures the router can meet are real: a missing required argument
    raises [KeyError] inside [_call_tool]. *)
Example call_tool_missing_argument :
  _call_tool "get_member_info" no_args None Sample.world
  = (Raise (KeyError "member_name"), Sample.world).
Proof. reflexivity. Qed.

(** A member whose name is white space only makes the cache load raise
    [IndexError]. *)
Example get_member_info_index_error :
  fst (get_member_info "sam" (Sample.world_of Sample.blank_name_store))
  = Raise IndexError.
Proof. reflexivity. Qed.

(** The wrapper of [execute] around the routed call: the result of the
    call when it returns, the envelope of [str(e)] when it raises [e]. *)
Lemma execute_wrapper
    (tool_name : string) (args : Args) (user_discord_id : option Z) (w : World) :
  exists (env : envelope) (w' : World),
    execute tool_name args user_discord_id w = (env, w') /\
    match fst (_call_tool tool_name args user_discord_id w) with
    | Ok result => env = result
    | Raise e => env = [("error", JStr ("Tool execution failed: " ++ str_exn e))]
    end.
Proof.
  unfold execute.
  destruct (_call_tool tool_name args user_discord_id w) as [[result | e] w'];
    simpl; eauto.
Qed.

Lemma not_in_cons_neq (x y : string) (l : list string) :
  ~ In x (y :: l) -> x <> y /\ ~ In x l.
Proof. simpl. intuition congruence. Qed.

Lemma call_tool_unknown (tool_name : string) (args : Args)
    (user_discord_id : option Z) (w : World) :
  ~ In tool_name TOOL_DEFINITIONS ->
  _call_tool tool_name args user_discord_id w
  = (Ok (error ("Unknown tool: " ++ tool_name)), w).
Proof.
  unfold TOOL_DEFINITIONS. intros H.
  repeat (apply not_in_cons_neq in H; destruct H as [? H]).
  unfold _call_tool.
  repeat match goal with
         | Hne : tool_name <> ?s |- context [String.eqb tool_name ?s] =>
             rewrite (proj2 (String.eqb_neq tool_name s) Hne)
         end.
  reflexivity.
Qed.

(** C8.  For every tool name outside the catalog, [execute] returns
    [{"error": "Unknown tool: <name>"}]; the answer does not depend on the
    store and the world is left as it was. *)
Theorem execute_unknown_tool
    (tool_name : string) (args : Args) (user_discord_id : option Z) (w : World) :
  ~ In tool_name TOOL_DEFINITIONS ->
  execute tool_name args user_discord_id w
  = ([("error", JStr ("Unknown tool: " ++ tool_name))], w).
Proof.
  intros H. unfold execute. rewrite (@call_tool_unknown tool_name args user_discord_id w H).
  reflexivity.
Qed.

Lemma execute_unknown_tool_witness :
  execute "delete_everything" no_args None Sample.world
  = ([("error", JStr "Unknown tool: delete_everything")], Sample.world).
Proof.
  apply (@execute_unknown_tool "delete_everything").
  unfold TOOL_DEFINITIONS. simpl.
  intros H. repeat (destruct H as [H | H]; [discriminate H |]). exact H.
Defined.

(* ---------------------------------------------------------------------- *)
(** ** Task listing: order and status *)
(* ---------------------------------------------------------------------- *)





Section OrderBy.

Variable A : Type.
Variable leb : A -> A -> bool.
Variable le : A -> A -> Prop.
Hypothesis leb_le : forall x y, leb x y = true <-> le x y.
Hypothesis le_total : forall x y, le x y \/ le y x.
Hypothesis le_trans : forall x y z, le x y -> le y z -> le x z.

Lemma insert_by_perm (x : A) (l : list A) :
  Permutation (Query.insert_by leb x l) (x :: l).
Proof.
  induction l as [| y r IH]; simpl.
  - apply Permutation_refl.
  - destruct (leb x y).
    + apply Permutation_refl.
    + apply perm_trans with (y :: x :: r).
      * apply perm_skip, IH.
      * apply perm_swap.
Qed.

Lemma order_by_perm (l : list A) : Permutation (Query.order_by leb l) l.
Proof.
  induction l as [| x r IH]; simpl.
  - apply perm_nil.
  - apply perm_trans with (x :: Query.order_by leb r).
    + apply insert_by_perm.
    + apply perm_skip, IH.
Qed.



End OrderBy.

Example get_all_tasks_sample_order :
  map task_deadline (all_tasks_rows Sample.store "all")
  = [Some (Sample.ymd 2024 1 15); Some (Sample.ymd 2024 3 1); None].
Proof. reflexivity. Qed.


(* ---------------------------------------------------------------------- *)
(** ** What the building blocks leave alone *)
(* ---------------------------------------------------------------------- *)

Lemma ensure_cache_db (w w1 : World) (o : outcome unit) :
  _ensure_cache w = (o, w1) -> db w1 = db w /\ clock w1 = clock w.
Proof.
  unfold _ensure_cache. destruct (_cache_loaded (cache w)).
  - intros E. inversion E. auto.
  - destruct (cache_rows (committee (db w)) (cache w)) as [[[] | e] c];
      intros E; inversion E; auto.
Qed.

Lemma ensure_cache_loaded (w w1 : World) :
  _ensure_cache w = (Ok tt, w1) -> _cache_loaded (cache w1) = true.
Proof.
  unfold _ensure_cache. destruct (_cache_loaded (cache w)) eqn:L.
  - intros E. inversion E. subst. exact L.
  - destruct (cache_rows (committee (db w)) (cache w)) as [[[] | e] c];
      intros E; inversion E; reflexivity.
Qed.

Lemma ensure_cache_again (w : World) :
  _cache_loaded (cache w) = true -> _ensure_cache w = (Ok tt, w).
Proof. unfold _ensure_cache. intros ->. reflexivity. Qed.

Lemma scalar_one_or_none_none (A : Type) (l : list A) :
  Query.scalar_one_or_none l = Ok None -> l = [].
Proof. destruct l as [| x [| y r]]; simpl; intros E; congruence. Qed.

Lemma is_link_true (x y : Z) (j : link) : is_link x y j = true <-> j = (x, y).
Proof.
  unfold is_link. destruct j as [a b]. simpl.
  rewrite andb_true_iff, !Z.eqb_eq. split.
  - intros [-> ->]. reflexivity.
  - intros E. inversion E. auto.
Qed.

Lemma filter_is_link_nil (x y : Z) (l : list link) :
  filter (is_link x y) l = [] -> ~ In (x, y) l.
Proof.
  intros E H.
  assert (Hin : In (x, y) (filter (is_link x y) l)).
  { apply filter_In. split; [exact H |]. apply is_link_true. reflexivity. }
  rewrite E in Hin. exact Hin.
Qed.

Lemma filter_is_link_one (x y : Z) (l : list link) :
  NoDup l -> In (x, y) l -> filter (is_link x y) l = [(x, y)].
Proof.
  induction 1 as [| j r Hj Hr IH]; simpl; [tauto |].
  intros [-> | Hin].
  - rewrite (proj2 (is_link_true x y (x, y)) eq_refl).
    f_equal. destruct (filter (is_link x y) r) as [| k r'] eqn:E; [reflexivity |].
    exfalso. assert (Hk : In k (filter (is_link x y) r)) by (rewrite E; left; reflexivity).
    apply filter_In in Hk. destruct Hk as [Hk1 Hk2].
    apply is_link_true in Hk2. subst k. contradiction.
  - destruct (is_link x y j) eqn:E.
    + apply is_link_true in E. subst j. contradiction.
    + apply IH, Hin.
Qed.

Lemma NoDup_snoc (A : Type) (l : list A) (x : A) :
  NoDup l -> ~ In x l -> NoDup (l ++ [x]).
Proof.
  intros Hl Hx. apply NoDup_rev in Hl. rewrite <- (rev_involutive (l ++ [x])).
  apply NoDup_rev. rewrite rev_app_distr. simpl. constructor; [| exact Hl].
  rewrite <- in_rev. exact Hx.
Qed.

(* ---------------------------------------------------------------------- *)
(** ** Linking a member to a task *)
(* ---------------------------------------------------------------------- *)

(** What one call of [assign_member_to_task] does to the store: nothing, or
    one new pair that was not in the junction. *)
Lemma assign_member_to_task_effect (task_identifier member_name_arg : string)
    (w : World) :
  let w' := snd (assign_member_to_task task_identifier member_name_arg w) in
  db w' = db w \/
  exists t m, ~ In (t, m) (task_members (db w)) /\
              task_members (db w') = (task_members (db w) ++ [(t, m)])%list.
Proof.
  cbv zeta. unfold assign_member_to_task, bind.
  destruct (_ensure_cache w) as [[[] | e] w1] eqn:E;
    apply ensure_cache_db in E; destruct E as [E _]; [| left; exact E].
  unfold get_cache.
  destruct (_fuzzy_match_member (cache w1) (Some member_name_arg)) as [mm |];
    [| left; exact E].
  unfold get_db, lift.
  destruct (task_lookup _ (db w1) task_identifier) as [[task | env |] | e];
    try (left; exact E).
  destruct (Query.scalar_one_or_none _) as [[j |] | e] eqn:S; try (left; exact E).
  right. exists (task_id task), (m_id mm). simpl. rewrite <- E. split; [| reflexivity].
  apply filter_is_link_nil. apply scalar_one_or_none_none in S. exact S.
Qed.

Lemma assign_member_to_task_NoDup (task_identifier member_name_arg : string)
    (w : World) :
  NoDup (task_members (db w)) ->
  NoDup (task_members
           (db (snd (assign_member_to_task task_identifier member_name_arg w)))).
Proof.
  intros H.
  destruct (assign_member_to_task_effect task_identifier member_name_arg w)
    as [E | (t & m & Hn & E)]; rewrite E; [exact H |].
  apply NoDup_snoc; assumption.
Qed.

(** C4.  From a junction without duplicates: no sequence of
    [assign_member_to_task] calls produces a duplicate (task_id, member_id)
    pair; and a call whose member and task are already linked returns the
    Conflict error and leaves the store as it was. *)
Theorem assign_member_to_task_no_duplicate (w : World) :
  NoDup (task_members (db w)) ->
  (forall calls, NoDup (task_members (db (assign_all calls w)))) /\
  (forall task_identifier member_name_arg w1 matched_member task,
      _ensure_cache w = (Ok tt, w1) ->
      _fuzzy_match_member (cache w1) (Some member_name_arg) = Some matched_member ->
      task_lookup "Multiple tasks match. Please be more specific."
        (db w) task_identifier = Ok (Found task) ->
      In (task_id task, m_id matched_member) (task_members (db w)) ->
      assign_member_to_task task_identifier member_name_arg w
      = (Ok [("error", JStr (fmt_opt (m_name matched_member)
                             ++ " is already assigned to '"
                             ++ task_name task ++ "'"))], w1)
      /\ db w1 = db w).
Proof.
  intros H. split.
  - intros calls. revert w H. unfold assign_all.
    induction calls as [| c r IH]; intros w H; simpl; [exact H |].
    apply IH. apply assign_member_to_task_NoDup. exact H.
  - intros ident name w1 mm task E M L I.
    destruct (@ensure_cache_db _ _ _ E) as [D _].
    unfold assign_member_to_task, bind. rewrite E. unfold get_cache. rewrite M.
    unfold get_db, lift. rewrite D, L.
    rewrite (@filter_is_link_one _ _ _ H I). simpl. split; reflexivity.
Qed.

Lemma assign_member_to_task_no_duplicate_witness :
  NoDup (task_members
           (db (assign_all [("2", "michael"); ("report", "sam"); ("report", "Sam Li")]
                  Sample.world)))
  /\ fst (assign_member_to_task "2" "michael" Sample.world)
     = Ok [("error", JStr "Michael Huang is already assigned to 'Book venue'")].
Proof.
  assert (H : NoDup (task_members (db Sample.world))).
  { simpl. constructor; [simpl; tauto | constructor]. }
  destruct (@assign_member_to_task_no_duplicate Sample.world H) as [H1 H2].
  split; [apply H1 |].
  rewrite (proj1 (H2 "2" "michael" (snd (_ensure_cache Sample.world))
                    (member_of_row (Sample.person 1 "Michael Huang" (Some 1001)))
                    (Sample.task 2 "Book venue" None (Some "complete"))
                    eq_refl eq_refl eq_refl (or_introl eq_refl))).
  reflexivity.
Defined.

(* ---------------------------------------------------------------------- *)
(** ** Creating a task *)
(* ---------------------------------------------------------------------- *)

(** With the cache loaded, the member lookup by Discord id reads the
    committee table and nothing else, and changes nothing. *)
Lemma get_member_by_discord_id_loaded (discord : Z) (w : World) :
  _cache_loaded (cache w) = true ->
  get_member_by_discord_id discord w
  = (match Query.scalar_one_or_none
             (filter (fun r => match discord_id r with
                               | Some x => x =? discord
                               | None => false
                               end) (committee (db w))) with
     | Ok row => Ok (option_map member_of_row row)
     | Raise e => Raise e
     end, w).
Proof.
  intros L. unfold get_member_by_discord_id, bind.
  rewrite (ensure_cache_again w L). unfold get_db, lift, ret.
  destruct (Query.scalar_one_or_none _); reflexivity.
Qed.

Lemma match_members_first_unresolved (c : Cache) (pre post : list string)
    (unresolved : string) :
  Forall (fun n => _fuzzy_match_member c (Some n) <> None) pre ->
  _fuzzy_match_member c (Some unresolved) = None ->
  match_members c (pre ++ unresolved :: post) = inr unresolved.
Proof.
  intros Hpre Hun. induction Hpre as [| n r Hn Hr IH]; simpl.
  - rewrite Hun. reflexivity.
  - destruct (_fuzzy_match_member c (Some n)); [| congruence].
    rewrite IH. reflexivity.
Qed.

(** The part of [create_task] before its session leaves the store alone. *)
Lemma create_task_prepare_db (deadline : option string)
    (assigned_to : option (list string)) (flag : bool) (uid : option Z)
    (w w1 : World) (o : outcome (envelope + option date * list member)) :
  create_task_prepare deadline assigned_to flag uid w = (o, w1) ->
  db w1 = db w /\
  (forall r, o = Ok r -> _ensure_cache w = (Ok tt, w1)).
Proof.
  unfold create_task_prepare, bind.
  destruct (_ensure_cache w) as [[[] | e] wa] eqn:E.
  2:{ intros X. inversion X. subst. split; [eapply ensure_cache_db; eauto |].
      intros r R. discriminate R. }
  pose proof (@ensure_cache_db _ _ _ E) as [D _].
  pose proof (@ensure_cache_loaded _ _ E) as L.
  destruct (parse_deadline deadline) as [dl |].
  2:{ intros X. inversion X. subst. auto. }
  unfold get_cache.
  destruct (match_members (cache wa) _) as [ms | n].
  2:{ intros X. inversion X. subst. auto. }
  destruct flag, uid as [z |]; try (intros X; inversion X; subst; auto; fail).
  rewrite (get_member_by_discord_id_loaded z wa L).
  destruct (Query.scalar_one_or_none _) as [[row |] | e]; simpl.
  - destruct (existsb _ ms); intros X; inversion X; subst; auto.
  - intros X; inversion X; subst; auto.
  - intros X; inversion X; subst. split; [exact D |]. intros r R. discriminate R.
Qed.

(** Once it has succeeded, the preparation gives the same answer over any
    store with the same committee table, and changes nothing. *)
Lemma create_task_prepare_stable (deadline : option string)
    (assigned_to : option (list string)) (flag : bool) (uid : option Z)
    (w w1 : World) (r : envelope + option date * list member) (d' : DB) :
  create_task_prepare deadline assigned_to flag uid w = (Ok r, w1) ->
  committee d' = committee (db w) ->
  create_task_prepare deadline assigned_to flag uid (with_db d' w1)
  = (Ok r, with_db d' w1).
Proof.
  intros P C.
  destruct (create_task_prepare_db _ _ _ _ _ _ _ P) as [D E]. specialize (E r eq_refl).
  pose proof (@ensure_cache_loaded _ _ E) as L.
  revert P. unfold create_task_prepare, bind. rewrite E.
  rewrite (ensure_cache_again (with_db d' w1)) by exact L.
  destruct (parse_deadline deadline) as [dl |]; [| intros X; inversion X; reflexivity].
  unfold get_cache. simpl.
  destruct (match_members (cache w1) _) as [ms | n];
    [| intros X; inversion X; reflexivity].
  destruct flag, uid as [z |]; try (intros X; inversion X; reflexivity).
  rewrite (get_member_by_discord_id_loaded z w1 L).
  rewrite (get_member_by_discord_id_loaded z (with_db d' w1)) by exact L.
  simpl. rewrite C, D.
  destruct (Query.scalar_one_or_none _) as [[row |] | e]; simpl.
  - destruct (existsb _ ms); intros X; inversion X; reflexivity.
  - intros X; inversion X; reflexivity.
  - intros X; discriminate X.
Qed.

Lemma fold_max_ge (l : list Z) (x : Z) : In x l -> x <= fold_right Z.max 0 l.
Proof.
  induction l as [| y r IH]; cbn [fold_right In]; [tauto |].
  intros [-> | H]; [lia |]. specialize (IH H). lia.
Qed.

Lemma fold_max_nonneg (l : list Z) : 0 <= fold_right Z.max 0 l.
Proof. induction l; cbn [fold_right]; lia. Qed.

Lemma next_id_fresh (l : list Z) : ~ In (Query.next_id l) l.
Proof.
  unfold Query.next_id. intros H. apply fold_max_ge in H. lia.
Qed.

Lemma next_id_positive (l : list Z) : 1 <= Query.next_id l.
Proof.
  unfold Query.next_id.
  pose proof (fold_max_nonneg l). lia.
Qed.

Lemma next_id_snoc (l : list Z) :
  Query.next_id (l ++ [Query.next_id l]) = Query.next_id l + 1.
Proof.
  unfold Query.next_id.
  assert (G : forall x, fold_right Z.max 0 (l ++ [x])
                        = Z.max (fold_right Z.max 0 l) (Z.max x 0)).
  { intros x. induction l as [| y r IH]; cbn [fold_right app]; [lia |].
    rewrite IH. lia. }
  rewrite G.
  pose proof (fold_max_nonneg l). lia.
Qed.

(** What [create_task] does once its preparation has succeeded: one task
    row with the next identifier and status 'incomplete' is appended, with
    one junction row per member. *)
Lemma create_task_effect (task_name_arg : string)
    (task_description_arg deadline : option string)
    (assigned_to : option (list string)) (flag : bool) (uid : option Z)
    (w w1 : World) (dl : option date) (members : list member) :
  create_task_prepare deadline assigned_to flag uid w
  = (Ok (inr (dl, members)), w1) ->
  let new_task :=
    {| task_id := Query.next_id (map task_id (tasks (db w)));
       task_name := task_name_arg; task_description := task_description_arg;
       task_deadline := dl; task_status := Some "incomplete" |} in
  let d2 :=
    set_task_members
      (task_members (db w)
       ++ map (fun m => (task_id new_task, m_id m)) members)%list
      (set_tasks (tasks (db w) ++ [new_task])%list (db w)) in
  snd (create_task task_name_arg task_description_arg deadline assigned_to
         flag uid w) = with_db d2 w1
  /\ (forall names, names_from 0 members = Ok names ->
      exists message,
        fst (create_task task_name_arg task_description_arg deadline assigned_to
               flag uid w)
        = Ok [("success", JBool true);
              ("message", JStr message);
              ("task_id", JInt (task_id new_task));
              ("task_name", JStr task_name_arg);
              ("deadline", jdate_opt dl);
              ("assigned_to", JList (map (fun m => jstr_opt (m_name m)) members))]).
Proof.
  intros P. cbv zeta.
  destruct (create_task_prepare_db _ _ _ _ _ _ _ P) as [D _].
  unfold create_task, bind. rewrite P. unfold get_db, commit, lift. rewrite D.
  split.
  - destruct members as [| m ms]; simpl; [reflexivity |].
    unfold join_names, obind.
    destruct (names_from 0 (m :: ms)); reflexivity.
  - intros names N. destruct members as [| m ms]; simpl.
    + eexists. reflexivity.
    + unfold join_names, obind. rewrite N. simpl. eexists. reflexivity.
Qed.

(** C3, as stated, fails: with a deadline that does not parse, the call
    returns the validation error, not the NotFound error that names the
    unresolved assignee. *)
Lemma create_task_invalid_deadline_first :
  _fuzzy_match_member (cache (snd (_ensure_cache Sample.world)))
    (Some "Unknown Name") = None
  /\ create_task "Plan picnic" None (Some "tomorrow")
       (Some ["Michael Huang"; "Unknown Name"]) false None Sample.world
     = (Ok [("error", JStr "Invalid deadline format. Please use YYYY-MM-DD")],
        snd (_ensure_cache Sample.world))
  /\ fst (create_task "Plan picnic" None (Some "tomorrow")
            (Some ["Michael Huang"; "Unknown Name"]) false None Sample.world)
     <> Ok [("error", JStr "Could not find a member matching 'Unknown Name'")].
Proof.
  split; [vm_compute; reflexivity |].
  split; [vm_compute; reflexivity |].
  vm_compute. discriminate.
Qed.

(** C3 (amended).  [create_task] is all-or-nothing over its assignee list:
    when a name of [assigned_to] fails member resolution, nothing is written
    to the store; the call returns the NotFound error naming the first
    unresolved name when the deadline is absent, empty, "null" or a valid
    YYYY-MM-DD date, and the deadline's validation error otherwise. *)
Theorem create_task_all_or_nothing
    (task_name_arg : string) (task_description_arg deadline : option string)
    (resolved rest : list string) (unresolved : string)
    (assign_to_current_user : bool) (current_user_discord_id : option Z)
    (w w1 : World) :
  _ensure_cache w = (Ok tt, w1) ->
  Forall (fun n => _fuzzy_match_member (cache w1) (Some n) <> None) resolved ->
  _fuzzy_match_member (cache w1) (Some unresolved) = None ->
  create_task task_name_arg task_description_arg deadline
    (Some (resolved ++ unresolved :: rest)%list)
    assign_to_current_user current_user_discord_id w
  = (Ok [("error",
          JStr (match parse_deadline deadline with
                | Some _ => "Could not find a member matching '" ++ unresolved ++ "'"
                | None => "Invalid deadline format. Please use YYYY-MM-DD"
                end))], w1)
  /\ db w1 = db w.
Proof.
  intros E R U. destruct (@ensure_cache_db _ _ _ E) as [D _].
  split; [| exact D].
  unfold create_task, create_task_prepare, bind. rewrite E.
  destruct (parse_deadline deadline) as [dl |]; [| reflexivity].
  unfold get_cache. rewrite (match_members_first_unresolved _ _ rest _ R U).
  reflexivity.
Qed.

Lemma create_task_all_or_nothing_witness :
  create_task "Plan picnic" None (Some "2024-06-01")
    (Some ["Michael Huang"; "Unknown Name"; "sam"]) true (Some 1001) Sample.world
  = (Ok [("error", JStr "Could not find a member matching 'Unknown Name'")],
     snd (_ensure_cache Sample.world))
  /\ db (snd (_ensure_cache Sample.world)) = Sample.store.
Proof.
  apply (@create_task_all_or_nothing "Plan picnic" None (Some "2024-06-01")
           ["Michael Huang"] ["sam"] "Unknown Name" true (Some 1001)
           Sample.world (snd (_ensure_cache Sample.world))).
  - reflexivity.
  - constructor; [| constructor]. vm_compute. discriminate.
  - vm_compute. reflexivity.
Defined.

(** C10.  [create_task] makes no duplicate-name check.  Whenever its
    preparation (deadline, assignees, caller) succeeds, which does not
    involve the task's name, then for every task name, the name of an
    existing task included: a task row with that name, a fresh identifier
    and status 'incomplete' is appended; and the same call made again
    appends a second row, with another identifier. *)
Theorem create_task_no_duplicate_check
    (task_name_arg : string) (task_description_arg deadline : option string)
    (assigned_to : option (list string)) (assign_to_current_user : bool)
    (current_user_discord_id : option Z) (w w1 : World)
    (task_deadline_v : option date) (matched_members : list member) :
  create_task_prepare deadline assigned_to assign_to_current_user
    current_user_discord_id w
  = (Ok (inr (task_deadline_v, matched_members)), w1) ->
  let create :=
    create_task task_name_arg task_description_arg deadline assigned_to
      assign_to_current_user current_user_discord_id in
  let new_id := Query.next_id (map task_id (tasks (db w))) in
  let row i :=
    {| task_id := i; task_name := task_name_arg;
       task_description := task_description_arg;
       task_deadline := task_deadline_v; task_status := Some "incomplete" |} in
  ~ In new_id (map task_id (tasks (db w)))
  /\ tasks (db (snd (create w))) = (tasks (db w) ++ [row new_id])%list
  /\ tasks (db (snd (create (snd (create w)))))
     = (tasks (db w) ++ [row new_id; row (new_id + 1)])%list
  /\ (forall names, names_from 0 matched_members = Ok names ->
      exists message,
        fst (create w)
        = Ok [("success", JBool true);
              ("message", JStr message);
              ("task_id", JInt new_id);
              ("task_name", JStr task_name_arg);
              ("deadline", jdate_opt task_deadline_v);
              ("assigned_to",
               JList (map (fun m => jstr_opt (m_name m)) matched_members))]).
Proof.
  intros P. cbv zeta.
  destruct (create_task_effect task_name_arg task_description_arg _ _ _ _ _ _ _ _ P)
    as [W1 O1].
  cbv zeta in W1, O1.
  destruct (create_task_prepare_db _ _ _ _ _ _ _ P) as [D _].
  split; [apply next_id_fresh |].
  split; [rewrite W1; reflexivity |].
  split; [| exact O1].
  rewrite W1.
  match goal with
  | |- context [with_db ?d w1] =>
      assert (P2 : create_task_prepare deadline assigned_to assign_to_current_user
                     current_user_discord_id (with_db d w1)
                   = (Ok (inr (task_deadline_v, matched_members)), with_db d w1))
        by (apply (create_task_prepare_stable _ _ _ _ w w1 _ d P); reflexivity)
  end.
  destruct (create_task_effect task_name_arg task_description_arg _ _ _ _ _ _ _ _ P2)
    as [W2 _].
  cbv zeta in W2. rewrite W2. simpl.
  rewrite map_app. simpl. rewrite next_id_snoc.
  rewrite <- app_assoc. reflexivity.
Qed.

Lemma create_task_no_duplicate_check_witness :
  let create :=
    create_task "Write report" None (Some "2024-05-05")
      (Some ["Michael Huang (lol)"; "sam"]) true (Some 1001) in
  map (fun t => (task_id t, task_name t, task_status t))
      (tasks (db (snd (create (snd (create Sample.world))))))
  = [(1, "Write report", None); (2, "Book venue", Some "complete");
     (3, "Write agenda", Some "incomplete");
     (4, "Write report", Some "incomplete");
     (5, "Write report", Some "incomplete")].
Proof.
  cbv zeta.
  destruct (@create_task_no_duplicate_check "Write report" None (Some "2024-05-05")
              (Some ["Michael Huang (lol)"; "sam"]) true (Some 1001)
              Sample.world (snd (_ensure_cache Sample.world))
              (Some (Sample.ymd 2024 5 5))
              [member_of_row (Sample.person 1 "Michael Huang" (Some 1001));
               member_of_row (Sample.person 2 "Sam Li" (Some 1002))])
    as (_ & _ & H & _).
  - vm_compute. reflexivity.
  - rewrite H. reflexivity.
Defined.

(* ---------------------------------------------------------------------- *)
(** ** The Entity Resolver on blank input *)
(* ---------------------------------------------------------------------- *)

Lemma dict_get_not_in (V : Type) (k : string) (d : list (string * V)) :
  ~ In k (Dict.keys d) -> Dict.get k d = None.
Proof.
  induction d as [| [k' v] r IH]; simpl; [reflexivity |].
  intros H. destruct (String.eqb_spec k' k) as [-> | _].
  - exfalso. apply H. left. reflexivity.
  - apply IH. tauto.
Qed.

Lemma dict_keys_set (V : Type) (k x : string) (v : V) (d : list (string * V)) :
  In x (Dict.keys (Dict.set k v d)) -> x = k \/ In x (Dict.keys d).
Proof.
  induction d as [| [k' v'] r IH]; simpl.
  - intros [<- | []]. auto.
  - destruct (String.eqb_spec k' k) as [-> | _]; simpl.
    + intros [<- | H]; auto.
    + intros [<- | H]; auto. destruct (IH H); auto.
Qed.

Lemma lower_empty (s : string) : Py.lower s = "" -> s = "".
Proof. destruct s; simpl; [reflexivity | discriminate]. Qed.

Lemma split_ws_nonempty (s : string) : ~ In "" (Py.split_ws s).
Proof.
  induction s as [| c s IH]; simpl; [tauto |].
  destruct (Py.is_space c); [exact IH |].
  destruct s as [| c' s'].
  - simpl. intros [H | []]. discriminate H.
  - destruct (Py.is_space c').
    + intros [H | H]; [discriminate H | exact (IH H)].
    + destruct (Py.split_ws (String c' s')) as [| t ts].
      * intros [H | []]. discriminate H.
      * intros [H | H]; [discriminate H |]. apply IH. right. exact H.
Qed.

Lemma cache_row_wf (r : Committee) (c : Cache) :
  cache_wf c -> cache_wf (snd (cache_row r c)).
Proof.
  intros [H1 H2]. unfold cache_row.
  destruct (member_name r) as [name |]; [| split; assumption].
  destruct (String.eqb_spec name "") as [-> | Hn]; [split; assumption |].
  assert (H1' : ~ In "" (Dict.keys (Dict.set (Py.lower name) (member_of_row r)
                                      (_member_cache c)))).
  { intros H. apply dict_keys_set in H. destruct H as [H | H]; [| tauto].
    symmetry in H. apply lower_empty in H. contradiction. }
  destruct (Py.split_ws name) as [| first rest] eqn:S; simpl.
  - split; assumption.
  - split; [exact H1' |]. simpl. intros H.
    apply dict_keys_set in H. destruct H as [H | H]; [| tauto].
    symmetry in H. apply lower_empty in H. subst first.
    apply (split_ws_nonempty name). rewrite S. left. reflexivity.
Qed.

Lemma cache_rows_wf (rows : list Committee) (c : Cache) :
  cache_wf c -> cache_wf (snd (cache_rows rows c)).
Proof.
  revert c. induction rows as [| r rest IH]; intros c H; simpl; [exact H |].
  pose proof (cache_row_wf r c H) as H'.
  destruct (cache_row r c) as [[[] | e] c']; simpl in *; [apply IH |]; exact H'.
Qed.

Lemma ensure_cache_wf (w w1 : World) (o : outcome unit) :
  cache_wf (cache w) -> _ensure_cache w = (o, w1) -> cache_wf (cache w1).
Proof.
  intros H. unfold _ensure_cache. destruct (_cache_loaded (cache w)).
  - intros E. inversion E. subst. exact H.
  - pose proof (cache_rows_wf (committee (db w)) (cache w) H) as H'.
    destruct (cache_rows (committee (db w)) (cache w)) as [[[] | e] c];
      intros E; inversion E; subst; exact H'.
Qed.

Lemma empty_cache_wf : cache_wf empty_cache.
Proof. split; simpl; tauto. Qed.

Lemma real_quick_ratio_empty_word (s : list ascii) :
  s <> [] ->
  Difflib.ratio_geb (Difflib.real_quick_ratio s []) (3, 5)%nat = false.
Proof.
  destruct s as [| ch s']; [congruence |]. intros _.
  unfold Difflib.real_quick_ratio, Difflib.calculate_ratio, Difflib.ratio_geb.
  rewrite Nat.min_0_r.
  cbn [length Nat.add Nat.eqb fst snd].
  apply Nat.leb_gt. lia.
Qed.

(** No candidate is close to the empty word. *)
Lemma get_close_matches_empty_word (possibilities : list string) (n : positive) :
  ~ In "" possibilities ->
  Difflib.get_close_matches "" possibilities n (3, 5)%nat = [].
Proof.
  intros H. unfold Difflib.get_close_matches. cbv zeta.
  change (list_ascii_of_string "") with (@nil ascii).
  match goal with
  | |- map snd (Difflib.nlargest _ (flat_map ?f possibilities)) = [] =>
      assert (E : flat_map f possibilities = [])
  end.
  { induction possibilities as [| x r IH]; cbn [flat_map]; [reflexivity |].
    rewrite IH by (intros K; apply H; right; exact K).
    rewrite real_quick_ratio_empty_word; [reflexivity |].
    destruct x as [| ch x']; [| discriminate].
    exfalso. apply H. left. reflexivity. }
  rewrite E. unfold Difflib.nlargest. cbn [fold_right].
  rewrite firstn_nil. reflexivity.
Qed.

Lemma fuzzy_match_blank (c : Cache) (name : option string) :
  Py.strip (match name with Some s => s | None => "" end) = "" ->
  _fuzzy_match_member c name = None.
Proof. unfold _fuzzy_match_member. intros ->. reflexivity. Qed.

Lemma fuzzy_match_cleaned_blank (c : Cache) (name : string) :
  cache_wf c -> clean_key (Py.strip name) = "" ->
  _fuzzy_match_member c (Some name) = None.
Proof.
  intros [H1 H2] K. unfold _fuzzy_match_member.
  destruct (Py.strip name) as [| ch raw] eqn:S; [reflexivity |].
  rewrite K. rewrite (dict_get_not_in _ _ _ H1). simpl.
  rewrite (dict_get_not_in _ _ _ H2).
  unfold fuzzy_step. rewrite (get_close_matches_empty_word _ _ H1). reflexivity.
Qed.

Example clean_key_parenthetical : clean_key (Py.strip " (lol) ") = "".
Proof. reflexivity. Qed.

Example clean_key_punctuation : clean_key (Py.strip ".,;-") = "".
Proof. reflexivity. Qed.

(** C9, as stated, fails.  With a committee row whose name is white space
    only, the cache load raises and an operation given an empty member
    name fails with [IndexError] instead of returning its NotFound error;
    and an input that is empty only after cleaning does consult the
    lookups: over a cache with an entry under the empty key it is resolved
    to that entry, where an input of white space is not. *)
Lemma blank_member_name_counterexample :
  fst (get_member_info "" (Sample.world_of Sample.blank_name_store))
  = Raise IndexError
  /\ fst (execute "get_member_info" (snd (fst (Calls.get_member_info ""))) None
            (Sample.world_of Sample.blank_name_store))
     = [("error", JStr "Tool execution failed: list index out of range")]
  /\ _fuzzy_match_member Edge.empty_key_cache (Some "(lol)")
     = Some (member_of_row (Sample.person 1 "Michael Huang" (Some 1001)))
  /\ _fuzzy_match_member Edge.empty_key_cache (Some "   ") = None.
Proof. repeat split; vm_compute; reflexivity. Qed.

(** C9 (amended).  Member resolution returns no match, whatever the cache
    holds and without a lookup, for an input that is [None], empty or white
    space only; for an input that is empty once the trailing parenthetical
    and punctuation are stripped, the three lookups find nothing over every
    cache the loader builds.  Consequently, once the cache has loaded, each
    operation that takes a member name returns its NotFound error for such
    an input: the five operations with a member name, and [create_project]
    and [create_task] for the first name of their list, [create_task] when
    its deadline is absent or valid. *)
Theorem blank_member_name_not_found :
  (forall c name,
      Py.strip (match name with Some s => s | None => "" end) = "" ->
      _fuzzy_match_member c name = None)
  /\ (forall c name,
         cache_wf c -> clean_key (Py.strip name) = "" ->
         _fuzzy_match_member c (Some name) = None)
  /\ (forall w w1 name,
         cache_wf (cache w) -> _ensure_cache w = (Ok tt, w1) ->
         clean_key (Py.strip name) = "" ->
         let not_found :=
           (Ok [("error", JStr ("Could not find a member matching '" ++ name ++ "'"))],
            w1) in
         get_member_info name w = not_found
         /\ get_meetings_for_member name w = not_found
         /\ (forall task_identifier,
                assign_member_to_task task_identifier name w = not_found
                /\ remove_member_from_task task_identifier name w = not_found)
         /\ (forall project, add_member_to_project project name w = not_found)
         /\ (forall project description others,
                create_project project description (Some (name :: others)) w
                = not_found)
         /\ (forall task description deadline others flag uid,
                parse_deadline deadline <> None ->
                create_task task description deadline (Some (name :: others))
                  flag uid w
                = not_found)).
Proof.
  split; [exact fuzzy_match_blank |].
  split; [exact fuzzy_match_cleaned_blank |].
  intros w w1 name H E K. cbv zeta.
  pose proof (fuzzy_match_cleaned_blank (cache w1) name
                (ensure_cache_wf w w1 _ H E) K) as N.
  split; [| split; [| split; [| split; [| split]]]].
  - unfold get_member_info, bind. rewrite E. unfold get_cache. simpl.
    rewrite N. reflexivity.
  - unfold get_meetings_for_member, bind. rewrite E. unfold get_cache. simpl.
    rewrite N. reflexivity.
  - intros task_identifier. split.
    + unfold assign_member_to_task, bind. rewrite E. unfold get_cache. simpl.
      rewrite N. reflexivity.
    + unfold remove_member_from_task, bind. rewrite E. unfold get_cache. simpl.
      rewrite N. reflexivity.
  - intros project. unfold add_member_to_project, bind. rewrite E.
    unfold get_cache. simpl. rewrite N. reflexivity.
  - intros project description others. unfold create_project, bind. rewrite E.
    unfold get_cache. simpl. rewrite N. reflexivity.
  - intros task description deadline others flag uid D.
    unfold create_task, create_task_prepare, bind. rewrite E.
    destruct (parse_deadline deadline) as [dl |]; [| contradiction].
    unfold get_cache. simpl. rewrite N. reflexivity.
Qed.

Lemma blank_member_name_not_found_witness :
  _fuzzy_match_member (cache Sample.world) (Some "   ") = None
  /\ get_member_info "(lol)" Sample.world
     = (Ok [("error", JStr "Could not find a member matching '(lol)'")],
        snd (_ensure_cache Sample.world))
  /\ remove_member_from_task "2" ".-" Sample.world
     = (Ok [("error", JStr "Could not find a member matching '.-'")],
        snd (_ensure_cache Sample.world))
  /\ create_task "Plan picnic" None (Some "2024-06-01") (Some ["(lol)"; "Sam"])
       true (Some 1001) Sample.world
     = (Ok [("error", JStr "Could not find a member matching '(lol)'")],
        snd (_ensure_cache Sample.world)).
Proof.
  destruct blank_member_name_not_found as (H1 & _ & H3).
  split; [apply H1; reflexivity |].
  split; [| split].
  - apply (H3 Sample.world (snd (_ensure_cache Sample.world)) "(lol)"
              empty_cache_wf eq_refl eq_refl).
  - apply (H3 Sample.world (snd (_ensure_cache Sample.world)) ".-"
              empty_cache_wf eq_refl eq_refl).
  - apply (H3 Sample.world (snd (_ensure_cache Sample.world)) "(lol)"
              empty_cache_wf eq_refl eq_refl).
    vm_compute. discriminate.
Defined.

(* ---------------------------------------------------------------------- *)
(** ** [difflib]: the fuel of [matching_size] is enough *)
(* ---------------------------------------------------------------------- *)

Section MatchingBlocks.

Local Open Scope nat_scope.

Variables a b : list ascii.

Lemma j2len_get_bound (m : list (nat * nat)) (j bound : nat) :
  (forall j' k, In (j', k) m -> k <= bound) ->
  Difflib.j2len_get m j <= bound.
Proof.
  induction m as [| [j' k] m IH]; simpl; intros H; [lia |].
  destruct (j' =? j).
  - apply (H j' k). left. reflexivity.
  - apply IH. intros j0 k0 I. apply (H j0 k0). right. exact I.
Qed.

Lemma step_j_inv (alo i blo bhi j : nat) (j2len : list (nat * nat))
    (st : list (nat * nat) * Difflib.Match) :
  alo <= i ->
  (forall j' k, In (j', k) j2len -> k <= i - alo) ->
  block_inv alo (S i) st ->
  block_inv alo (S i) (Difflib.step_j i blo bhi j2len st j).
Proof.
  intros Hi Hj (H1 & H2 & H3). destruct st as [new best]. unfold Difflib.step_j.
  destruct ((j <? blo) || (bhi <=? j)); [repeat split; assumption |].
  assert (K : S (match j with
                 | O => 0
                 | S j' => Difflib.j2len_get j2len j'
                 end) <= S i - alo).
  { destruct j as [| j']; [lia |].
    pose proof (j2len_get_bound j2len j' (i - alo) Hj). lia. }
  remember (S (match j with
                 | O => 0
                 | S j' => Difflib.j2len_get j2len j'
                 end)) as k eqn:Ek.
  clear Ek. unfold block_inv in *. cbn [fst snd] in *. repeat split.
  - intros j0 k0 [E | I]; [inversion E; subst; exact K | apply (H1 j0 k0 I)].
  - destruct (Difflib.bestsize best <? k); cbn [Difflib.besti]; lia.
  - destruct (Difflib.bestsize best <? k);
      cbn [Difflib.besti Difflib.bestsize]; lia.
Qed.

Lemma fold_step_j_inv (alo i blo bhi : nat) (j2len : list (nat * nat))
    (js : list nat) (st : list (nat * nat) * Difflib.Match) :
  alo <= i ->
  (forall j' k, In (j', k) j2len -> k <= i - alo) ->
  block_inv alo (S i) st ->
  block_inv alo (S i) (fold_left (Difflib.step_j i blo bhi j2len) js st).
Proof.
  intros Hi Hj. revert st. induction js as [| j js IH]; intros st H; simpl;
    [exact H |].
  apply IH. apply step_j_inv; assumption.
Qed.

Lemma scan_a_bounds (alo blo bhi n i : nat) (j2len : list (nat * nat))
    (best : Difflib.Match) :
  alo <= i ->
  block_inv alo i (j2len, best) ->
  let m := Difflib.scan_a a b (seq i n) blo bhi j2len best in
  alo <= Difflib.besti m /\ Difflib.besti m + Difflib.bestsize m <= i + n.
Proof.
  revert i j2len best. induction n as [| n IH]; intros i j2len best Hi H; simpl.
  - destruct H as (_ & H2 & H3). simpl in *. lia.
  - assert (H0 : block_inv alo (S i) ([], best)).
    { destruct H as (_ & H2 & H3). repeat split; simpl in *; try lia.
      all: try (intros j k []). }
    pose proof (fold_step_j_inv alo i blo bhi j2len
                  (Difflib.b2j b (Difflib.elt a i)) ([], best) Hi
                  (proj1 H) H0) as H1.
    destruct (fold_left _ _ _) as [new best'].
    specialize (IH (S i) new best'). cbv zeta in IH.
    assert (Hi' : alo <= S i) by lia. specialize (IH Hi' H1). lia.
Qed.

Lemma extend_left_bounds (fuel alo blo bound : nat) (m : Difflib.Match) :
  alo <= Difflib.besti m ->
  Difflib.besti m + Difflib.bestsize m <= bound ->
  alo <= Difflib.besti (Difflib.extend_left a b fuel alo blo m)
  /\ Difflib.besti (Difflib.extend_left a b fuel alo blo m)
     + Difflib.bestsize (Difflib.extend_left a b fuel alo blo m) <= bound.
Proof.
  revert m. induction fuel as [| fuel IH]; intros m H1 H2; simpl; [lia |].
  destruct (alo <? Difflib.besti m) eqn:G; simpl; [| lia].
  apply Nat.ltb_lt in G.
  destruct (_ && _); [| lia].
  apply IH; simpl; lia.
Qed.

Lemma extend_right_bounds (fuel alo ahi bhi : nat) (m : Difflib.Match) :
  alo <= Difflib.besti m ->
  Difflib.besti m + Difflib.bestsize m <= Nat.max alo ahi ->
  alo <= Difflib.besti (Difflib.extend_right a b fuel ahi bhi m)
  /\ Difflib.besti (Difflib.extend_right a b fuel ahi bhi m)
     + Difflib.bestsize (Difflib.extend_right a b fuel ahi bhi m)
     <= Nat.max alo ahi.
Proof.
  revert m. induction fuel as [| fuel IH]; intros m H1 H2; simpl; [lia |].
  destruct (Difflib.besti m + Difflib.bestsize m <? ahi) eqn:G; simpl; [| lia].
  apply Nat.ltb_lt in G.
  destruct (_ && _); [| lia].
  apply IH; simpl; lia.
Qed.

(** The block found lies inside the window of [a]. *)
Lemma find_longest_match_bounds (alo ahi blo bhi : nat) :
  let m := Difflib.find_longest_match a b alo ahi blo bhi in
  alo <= Difflib.besti m
  /\ Difflib.besti m + Difflib.bestsize m <= Nat.max alo ahi.
Proof.
  cbv zeta. unfold Difflib.find_longest_match.
  assert (S0 : block_inv alo alo
                 ([], {| Difflib.besti := alo; Difflib.bestj := blo;
                         Difflib.bestsize := 0 |})).
  { repeat split; simpl; try lia. all: try (intros j k []). }
  pose proof (scan_a_bounds alo blo bhi (ahi - alo) alo [] _ (Nat.le_refl alo) S0)
    as [B1 B2].
  cbv zeta in B1, B2.
  assert (B2' : forall m, Difflib.besti m + Difflib.bestsize m <= alo + (ahi - alo) ->
                          Difflib.besti m + Difflib.bestsize m <= Nat.max alo ahi)
    by (intros; lia).
  destruct (extend_left_bounds (length a) alo blo (Nat.max alo ahi) _ B1 (B2' _ B2))
    as [L1 L2].
  apply extend_right_bounds; assumption.
Qed.

(** One level of fuel per character of the window is enough: more fuel
    gives the same total. *)
Lemma matching_size_fuel (fuel alo ahi blo bhi : nat) :
  ahi - alo < fuel ->
  Difflib.matching_size a b (S fuel) alo ahi blo bhi
  = Difflib.matching_size a b fuel alo ahi blo bhi.
Proof.
  revert alo ahi blo bhi. induction fuel as [| fuel IH]; intros alo ahi blo bhi H;
    [lia |].
  change (Difflib.matching_size a b (S (S fuel)) alo ahi blo bhi)
    with (let m := Difflib.find_longest_match a b alo ahi blo bhi in
          let k := Difflib.bestsize m in
          if k =? 0 then 0
          else k
               + (if (alo <? Difflib.besti m) && (blo <? Difflib.bestj m)
                  then Difflib.matching_size a b (S fuel) alo (Difflib.besti m)
                         blo (Difflib.bestj m)
                  else 0)
               + (if (Difflib.besti m + k <? ahi) && (Difflib.bestj m + k <? bhi)
                  then Difflib.matching_size a b (S fuel) (Difflib.besti m + k) ahi
                         (Difflib.bestj m + k) bhi
                  else 0)).
  change (Difflib.matching_size a b (S fuel) alo ahi blo bhi)
    with (let m := Difflib.find_longest_match a b alo ahi blo bhi in
          let k := Difflib.bestsize m in
          if k =? 0 then 0
          else k
               + (if (alo <? Difflib.besti m) && (blo <? Difflib.bestj m)
                  then Difflib.matching_size a b fuel alo (Difflib.besti m)
                         blo (Difflib.bestj m)
                  else 0)
               + (if (Difflib.besti m + k <? ahi) && (Difflib.bestj m + k <? bhi)
                  then Difflib.matching_size a b fuel (Difflib.besti m + k) ahi
                         (Difflib.bestj m + k) bhi
                  else 0)).
  cbv zeta.
  pose proof (find_longest_match_bounds alo ahi blo bhi) as [B1 B2].
  cbv zeta in B1, B2.
  destruct (Difflib.bestsize (Difflib.find_longest_match a b alo ahi blo bhi) =? 0)
    eqn:K; [reflexivity |].
  apply Nat.eqb_neq in K.
  f_equal; [f_equal |].
  - destruct (_ && _); [| reflexivity]. apply IH. lia.
  - destruct (_ && _) eqn:G; [| reflexivity]. apply IH.
    apply andb_true_iff in G. destruct G as [G _]. apply Nat.ltb_lt in G. lia.
Qed.

(** The ratio's fuel, [S (len a)], is such a fuel. *)
Lemma ratio_fuel (extra : nat) :
  Difflib.matching_size a b (extra + S (length a)) 0 (length a) 0 (length b)
  = Difflib.matching_size a b (S (length a)) 0 (length a) 0 (length b).
Proof.
  induction extra as [| extra IH]; [reflexivity |].
  rewrite <- IH. apply matching_size_fuel. lia.
Qed.

End MatchingBlocks.

(* ---------------------------------------------------------------------- *)
(** ** The fuzzy step answers with cached names *)
(* ---------------------------------------------------------------------- *)

Lemma insert_desc_in (p q : (nat * nat) * string) (l : list ((nat * nat) * string)) :
  In p (Difflib.insert_desc q l) -> p = q \/ In p l.
Proof.
  induction l as [| r l IH]; simpl.
  - intros [<- | []]. auto.
  - destruct (Difflib.score_gtb q r); simpl.
    + intros [<- | H]; auto.
    + intros [<- | H]; auto. destruct (IH H); auto.
Qed.

Lemma in_firstn (A : Type) (n : nat) (x : A) (l : list A) :
  In x (firstn n l) -> In x l.
Proof.
  revert l. induction n as [| n IH]; intros [| y l]; simpl; try tauto.
  intros [H | H]; auto.
Qed.

Lemma nlargest_in (n : nat) (p : (nat * nat) * string)
    (l : list ((nat * nat) * string)) :
  In p (Difflib.nlargest n l) -> In p l.
Proof.
  unfold Difflib.nlargest. intros H. apply in_firstn in H. revert H.
  induction l as [| q l IH]; simpl; [tauto |].
  intros H. apply insert_desc_in in H. destruct H as [-> | H]; auto.
Qed.

(** Every name [get_close_matches] returns is one of the possibilities. *)
Lemma get_close_matches_in (word x : string) (possibilities : list string)
    (n : positive) (cutoff : nat * nat) :
  In x (Difflib.get_close_matches word possibilities n cutoff) ->
  In x possibilities.
Proof.
  unfold Difflib.get_close_matches. cbv zeta. intros H.
  apply in_map_iff in H. destruct H as ([r y] & <- & H).
  apply nlargest_in in H. apply in_flat_map in H.
  destruct H as (z & Hz & H).
  destruct (_ && _) in H; [| destruct H].
  destruct H as [H | []]. inversion H. subst. exact Hz.
Qed.

Lemma dict_get_in (V : Type) (k : string) (d : list (string * V)) :
  In k (Dict.keys d) -> Dict.get k d <> None.
Proof.
  induction d as [| [k' v] r IH]; simpl; [tauto |].
  intros H. destruct (String.eqb_spec k' k) as [-> | N]; [discriminate |].
  apply IH. destruct H as [H | H]; [contradiction | exact H].
Qed.

(** The lookup [self._member_cache[matches[0]]] of the resolver's fuzzy
    step never misses: it raises no [KeyError]. *)
Lemma fuzzy_step_hit (c : Cache) (key best : string) (others : list string) :
  Difflib.get_close_matches key (Dict.keys (_member_cache c)) 1 (3, 5)%nat
  = best :: others ->
  Dict.get best (_member_cache c) <> None.
Proof.
  intros E. apply dict_get_in. apply (get_close_matches_in key best _ 1 (3, 5)%nat).
  rewrite E. left. reflexivity.
Qed.

(* ---------------------------------------------------------------------- *)
(** ** The Entity Resolver on first names *)
(* ---------------------------------------------------------------------- *)

Lemma dict_get_set_same (V : Type) (k : string) (v : V) (d : list (string * V)) :
  Dict.get k (Dict.set k v d) = Some v.
Proof.
  induction d as [| [k' v'] r IH]; simpl.
  - rewrite String.eqb_refl. reflexivity.
  - destruct (String.eqb_spec k' k) as [-> | N]; simpl.
    + rewrite String.eqb_refl. reflexivity.
    + rewrite (proj2 (String.eqb_neq k' k) N). exact IH.
Qed.

Lemma dict_get_set_other (V : Type) (k k' : string) (v : V)
    (d : list (string * V)) :
  k' <> k -> Dict.get k (Dict.set k' v d) = Dict.get k d.
Proof.
  intros N. induction d as [| [k0 v0] r IH]; simpl.
  - rewrite (proj2 (String.eqb_neq k' k) N). reflexivity.
  - destruct (String.eqb_spec k0 k') as [-> | N0]; simpl.
    + rewrite (proj2 (String.eqb_neq k' k) N). reflexivity.
    + destruct (String.eqb k0 k); [reflexivity | exact IH].
Qed.

Lemma is_space_lower_char (c : ascii) :
  Py.is_space (Py.lower_char c) = Py.is_space c.
Proof. destruct c as [[] [] [] [] [] [] [] []]; reflexivity. Qed.

Lemma no_space_chars_lower (s : string) :
  no_space_chars (Py.lower s) = no_space_chars s.
Proof.
  induction s as [| c s IH]; simpl; [reflexivity |].
  rewrite is_space_lower_char, IH. reflexivity.
Qed.

Lemma split_ws_tokens (s t : string) :
  In t (Py.split_ws s) -> no_space_chars t = true.
Proof.
  revert t. induction s as [| c s IH]; intros t; simpl; [tauto |].
  destruct (Py.is_space c) eqn:C; [apply IH |].
  destruct s as [| c' s'].
  - intros [<- | []]. simpl. rewrite C. reflexivity.
  - destruct (Py.is_space c') eqn:C'.
    + intros [<- | H]; [simpl; rewrite C; reflexivity | apply IH, H].
    + destruct (Py.split_ws (String c' s')) as [| u us] eqn:S.
      * intros [<- | []]. simpl. rewrite C. reflexivity.
      * intros [<- | H].
        -- simpl. rewrite C. simpl. apply IH. left. reflexivity.
        -- apply IH. right. exact H.
Qed.

Lemma split_ws_one_word (s : string) :
  s <> "" -> no_space_chars s = true -> Py.split_ws s = [s].
Proof.
  induction s as [| c s IH]; [congruence |]. intros _. simpl.
  intros H. apply andb_true_iff in H. destruct H as [C H].
  apply negb_true_iff in C. rewrite C.
  destruct s as [| c' s']; [reflexivity |].
  assert (C' : Py.is_space c' = false).
  { simpl in H. apply andb_true_iff in H. destruct H as [H _].
    apply negb_true_iff in H. exact H. }
  rewrite C'. rewrite IH; [reflexivity | discriminate | exact H].
Qed.

Lemma cache_row_effect (key : string) (r : Committee) (c c' : Cache) :
  cache_row r c = (Ok tt, c') ->
  filed key c'
  = (filed key c ++ (if has_first_name key r then [member_of_row r] else []))%list
  /\ (forall m, Dict.get key (_member_cache c') = Some m ->
                Dict.get key (_member_cache c) = Some m
                \/ (m = member_of_row r /\ named key r)).
Proof.
  unfold cache_row, has_first_name, first_name_key.
  destruct (member_name r) as [name |] eqn:N.
  2:{ intros E. inversion E. subst. rewrite app_nil_r. auto. }
  destruct (String.eqb_spec name "") as [-> | Hn].
  { intros E. inversion E. subst. simpl. rewrite app_nil_r. auto. }
  destruct (Py.split_ws name) as [| first rest] eqn:S; [discriminate |].
  intros E. inversion E. subst c'. clear E. unfold filed. simpl. split.
  - destruct (String.eqb_spec (Py.lower first) key) as [<- | K].
    + rewrite dict_get_set_same. reflexivity.
    + rewrite dict_get_set_other by exact K. rewrite app_nil_r. reflexivity.
  - intros m G. destruct (String.eqb_spec (Py.lower name) key) as [<- | K].
    + rewrite dict_get_set_same in G. inversion G. right.
      split; [reflexivity |]. exists name. auto.
    + rewrite dict_get_set_other in G by exact K. left. exact G.
Qed.

Lemma cache_rows_effect (key : string) (rows : list Committee) (c c' : Cache) :
  cache_rows rows c = (Ok tt, c') ->
  filed key c'
  = (filed key c ++ map member_of_row (filter (has_first_name key) rows))%list
  /\ (forall m, Dict.get key (_member_cache c') = Some m ->
                Dict.get key (_member_cache c) = Some m
                \/ exists r, In r rows /\ m = member_of_row r /\ named key r).
Proof.
  revert c. induction rows as [| r rest IH]; intros c; simpl.
  - intros E. inversion E. subst. rewrite app_nil_r. auto.
  - destruct (cache_row r c) as [[[] | e] c1] eqn:R; [| discriminate].
    intros E. destruct (IH c1 E) as [F G].
    destruct (cache_row_effect key r c c1 R) as [F1 G1]. split.
    + rewrite F, F1, <- app_assoc. f_equal.
      destruct (has_first_name key r); reflexivity.
    + intros m Hm. destruct (G m Hm) as [H | (r' & I & Hr')].
      * destruct (G1 m H) as [H1 | [H1 H2]]; [left; exact H1 |].
        right. exists r. auto.
      * right. exists r'. auto.
Qed.

(** A row whose full name is a key without white space has that key as its
    first name. *)
Lemma named_has_first_name (key : string) (r : Committee) :
  no_space_chars key = true -> named key r -> has_first_name key r = true.
Proof.
  intros K (name & N & Hn & L). unfold has_first_name, first_name_key.
  rewrite N. rewrite split_ws_one_word; [| exact Hn |].
  - rewrite L. apply String.eqb_refl.
  - rewrite <- no_space_chars_lower, L. exact K.
Qed.

Lemma has_first_name_no_space (key : string) (r : Committee) :
  has_first_name key r = true -> no_space_chars key = true.
Proof.
  unfold has_first_name, first_name_key.
  destruct (member_name r) as [name |]; [| discriminate].
  destruct (Py.split_ws name) as [| first rest] eqn:S; [discriminate |].
  intros E. apply String.eqb_eq in E. subst key.
  rewrite no_space_chars_lower. apply (split_ws_tokens name).
  rewrite S. left. reflexivity.
Qed.

Example resolve_unique_first_name :
  option_map m_name
    (_fuzzy_match_member (cache (snd (_ensure_cache Sample.world))) (Some "SAM"))
  = Some (Some "Sam Li").
Proof. vm_compute. reflexivity. Qed.

Example resolve_shared_first_name :
  option_map m_name
    (_fuzzy_match_member (cache (snd (_ensure_cache Sample.world))) (Some "andy"))
  = option_map m_name
      (fuzzy_step (cache (snd (_ensure_cache Sample.world))) "andy").
Proof. vm_compute. reflexivity. Qed.

(** C6.  Over the cache a fresh instance loads, for a query whose cleaned
    key has no space: when exactly one committee row has that first name
    (up to case), resolution returns that member; when none or several
    have it, the first-name index picks nobody, and the answer is the exact
    full-name entry if [key] is itself a cached full name and otherwise
    that of the fuzzy full-name match with cutoff 0.6, which is no match
    when no name is close enough. *)
Theorem first_name_resolution (w w1 : World) (name : string) :
  cache w = empty_cache ->
  _ensure_cache w = (Ok tt, w1) ->
  Py.strip name <> "" ->
  let key := clean_key (Py.strip name) in
  let sharing := filter (has_first_name key) (committee (db w)) in
  has_space key = false ->
  (forall r, sharing = [r] ->
             _fuzzy_match_member (cache w1) (Some name) = Some (member_of_row r))
  /\ (length sharing <> 1%nat ->
      _fuzzy_match_member (cache w1) (Some name)
      = match Dict.get key (_member_cache (cache w1)) with
        | Some m => Some m
        | None =>
            match Difflib.get_close_matches key
                    (Dict.keys (_member_cache (cache w1))) 1 (3, 5)%nat with
            | best :: _ => Dict.get best (_member_cache (cache w1))
            | [] => None
            end
        end).
Proof.
  intros C0 E R key sharing Sp.
  assert (L : exists c, cache_rows (committee (db w)) empty_cache = (Ok tt, c)
                        /\ _member_cache (cache w1) = _member_cache c
                        /\ _member_first_name_index (cache w1)
                           = _member_first_name_index c).
  { revert E. unfold _ensure_cache. rewrite C0. simpl.
    destruct (cache_rows (committee (db w)) empty_cache) as [[[] | e] c];
      intros E; inversion E. exists c. auto. }
  destruct L as (c & Lc & Lm & Li).
  destruct (cache_rows_effect key _ _ _ Lc) as [F G].
  unfold filed in F. simpl in F. fold sharing in F. rewrite <- Li in F.
  unfold _fuzzy_match_member.
  destruct (Py.strip name) as [| ch raw] eqn:S; [congruence |].
  fold key. rewrite Sp. simpl negb. cbv iota. split.
  - intros r Hr. rewrite Hr in F. simpl in F.
    destruct (Dict.get key (_member_cache (cache w1))) as [m |] eqn:X.
    + rewrite Lm in X. destruct (G m X) as [H | (r' & I & -> & Hn)];
        [discriminate H |].
      assert (K : no_space_chars key = true).
      { apply (has_first_name_no_space key r).
        assert (I' : In r sharing) by (rewrite Hr; left; reflexivity).
        apply filter_In in I'. tauto. }
      assert (I' : In r' sharing).
      { apply filter_In. split; [exact I |]. apply named_has_first_name; assumption. }
      rewrite Hr in I'. destruct I' as [<- | []]. reflexivity.
    + destruct (Dict.get key (_member_first_name_index (cache w1))) as [l |];
        [| discriminate F]. subst l. reflexivity.
  - intros Hl.
    destruct (Dict.get key (_member_cache (cache w1))) as [m |]; [reflexivity |].
    destruct (Dict.get key (_member_first_name_index (cache w1))) as [l |];
      [| reflexivity].
    subst l. destruct sharing as [| r1 [| r2 rs]]; simpl in *;
      try reflexivity. congruence.
Qed.

Lemma first_name_resolution_witness :
  _fuzzy_match_member (cache (snd (_ensure_cache Sample.world))) (Some "sam (lol)")
  = Some (member_of_row (Sample.person 2 "Sam Li" (Some 1002)))
  /\ _fuzzy_match_member (cache (snd (_ensure_cache Sample.world))) (Some "Andy")
     = Some (member_of_row (Sample.person 4 "Andy Wong" None)).
Proof.
  assert (N1 : Py.strip "sam (lol)" <> "") by discriminate.
  assert (N2 : Py.strip "Andy" <> "") by discriminate.
  destruct (first_name_resolution Sample.world (snd (_ensure_cache Sample.world))
              "sam (lol)" eq_refl eq_refl N1 eq_refl) as [H1 _].
  destruct (first_name_resolution Sample.world (snd (_ensure_cache Sample.world))
              "Andy" eq_refl eq_refl N2 eq_refl) as [_ H2].
  split.
  - apply H1. reflexivity.
  - rewrite H2; [vm_compute; reflexivity |]. vm_compute. discriminate.
Defined.

(* ---------------------------------------------------------------------- *)
(** ** ILIKE on names without wildcards *)
(* ---------------------------------------------------------------------- *)

Lemma MatchText_plain_head (x c : ascii) (p t : list ascii) :
  like_meta x = false ->
  Sql.MatchText (x :: p) (c :: t)
  = if Ascii.eqb x c then Sql.MatchText p t else Sql.LIKE_FALSE.
Proof.
  destruct x as [[] [] [] [] [] [] [] []]; intros M; try discriminate M;
    reflexivity.
Qed.

Lemma MatchText_plain_end (x : ascii) (p : list ascii) :
  like_meta x = false -> Sql.MatchText (x :: p) [] = Sql.LIKE_ABORT.
Proof.
  destruct x as [[] [] [] [] [] [] [] []]; intros M; try discriminate M;
    reflexivity.
Qed.

(** A pattern that is a plain name matches that name and nothing else, and
    is never an error. *)
Lemma MatchText_plain (p : string) (t : list ascii) :
  plain p = true ->
  (Sql.MatchText (list_ascii_of_string p) t = Sql.LIKE_TRUE
   /\ t = list_ascii_of_string p)
  \/ (Sql.MatchText (list_ascii_of_string p) t <> Sql.LIKE_TRUE
      /\ Sql.MatchText (list_ascii_of_string p) t <> Sql.LIKE_ERROR
      /\ t <> list_ascii_of_string p).
Proof.
  revert t. induction p as [| x p IH]; intros t P.
  - destruct t as [| c t]; simpl.
    + left. auto.
    + right. repeat split; discriminate.
  - simpl in P. apply andb_true_iff in P. destruct P as [M P].
    apply negb_true_iff in M.
    change (list_ascii_of_string (String x p)) with (x :: list_ascii_of_string p).
    destruct t as [| c t].
    + rewrite MatchText_plain_end by exact M. right. repeat split; discriminate.
    + rewrite MatchText_plain_head by exact M.
      destruct (Ascii.eqb_spec x c) as [<- | N].
      * destruct (IH t P) as [[H1 H2] | (H1 & H2 & H3)].
        -- left. split; [exact H1 | congruence].
        -- right. repeat split; try assumption. congruence.
      * right. repeat split; try discriminate. congruence.
Qed.

Lemma like_meta_lower_char (c : ascii) :
  like_meta c = false -> like_meta (Py.lower_char c) = false.
Proof.
  destruct c as [[] [] [] [] [] [] [] []]; intros M; try discriminate M;
    reflexivity.
Qed.

Lemma plain_lower (s : string) : plain s = true -> plain (Py.lower s) = true.
Proof.
  induction s as [| c s IH]; simpl; [reflexivity |].
  intros H. apply andb_true_iff in H. destruct H as [M P].
  apply negb_true_iff in M. rewrite (like_meta_lower_char c M). simpl. auto.
Qed.

Lemma list_ascii_of_string_inj (a b : string) :
  list_ascii_of_string a = list_ascii_of_string b -> a = b.
Proof.
  intros E. rewrite <- (string_of_list_ascii_of_string a),
              <- (string_of_list_ascii_of_string b), E. reflexivity.
Qed.

(** For a plain name the ILIKE condition is equality up to case. *)
Lemma ilike_plain (column name : string) :
  plain name = true ->
  Query.ilike (Some column) name = Ok (same_name column name).
Proof.
  intros P. unfold Query.ilike, Sql.ilike, same_name.
  destruct (MatchText_plain (Py.lower name)
              (list_ascii_of_string (Py.lower column)) (plain_lower name P))
    as [[H1 H2] | (H1 & H2 & H3)].
  - rewrite H1. apply list_ascii_of_string_inj in H2. rewrite H2.
    rewrite String.eqb_refl. reflexivity.
  - destruct (String.eqb_spec (Py.lower column) (Py.lower name)) as [E | _].
    + rewrite E in H3. congruence.
    + destruct (Sql.MatchText _ _); congruence.
Qed.

Lemma where_filter (A : Type) (cond : A -> outcome bool) (f : A -> bool)
    (rows : list A) :
  (forall r, cond r = Ok (f r)) -> Query.where_ cond rows = Ok (filter f rows).
Proof.
  intros H. induction rows as [| r rest IH]; simpl; [reflexivity |].
  rewrite H, IH. destruct (f r); reflexivity.
Qed.

(* ---------------------------------------------------------------------- *)
(** ** ILIKE [%name%] on names without wildcards is the substring test *)
(* ---------------------------------------------------------------------- *)








Lemma lower_app (a b : string) : Py.lower (a ++ b) = Py.lower a ++ Py.lower b.
Proof. induction a as [| c a IH]; simpl; [reflexivity | rewrite IH; reflexivity]. Qed.

Lemma list_ascii_of_string_app (a b : string) :
  list_ascii_of_string (a ++ b)
  = (list_ascii_of_string a ++ list_ascii_of_string b)%list.
Proof. induction a as [| c a IH]; simpl; [reflexivity | rewrite IH; reflexivity]. Qed.


Example icontains_budget : icontains "BUDGET" "Annual budget review" = true.
Proof. reflexivity. Qed.

(* ---------------------------------------------------------------------- *)
(** ** Creating a project or a topic *)
(* ---------------------------------------------------------------------- *)

(** C5, as stated, fails.  No project of the sample store is named "alph_",
    yet [create_project] answers that one exists and inserts nothing: the
    underscore of the name is a wildcard of the ILIKE test.  A project
    named "Alpha" exists, yet with a team member that resolves to nobody
    the answer is the NotFound error, not the Conflict.  And two topics
    match the name "budget%", none of them equal to it: [create_topic]
    raises. *)
Lemma create_same_name_counterexample :
  filter (fun p => same_name (project_name p) "alph_") (projects Sample.store) = []
  /\ create_project "alph_" None None Sample.world
     = (Ok [("error", JStr "A project named 'alph_' already exists")],
        snd (_ensure_cache Sample.world))
  /\ db (snd (_ensure_cache Sample.world)) = Sample.store
  /\ map project_id
       (filter (fun p => same_name (project_name p) "alpha") (projects Sample.store))
     = [1]
  /\ fst (create_project "alpha" None (Some ["Nobody Here"]) Sample.world)
     = Ok [("error", JStr "Could not find a member matching 'Nobody Here'")]
  /\ filter (fun t => same_name (topic_name t) "budget%") (topics Sample.store) = []
  /\ create_topic "budget%" None Sample.world
     = (Raise MultipleResultsFound, Sample.world).
Proof. repeat split; vm_compute; reflexivity. Qed.

(** C5 (amended).  For a name without the ILIKE characters [%], [_] and
    backslash: when exactly one stored row has that name up to case,
    [create_topic], and [create_project] once every supplied team member
    has resolved, return the Conflict error and insert nothing; when no
    stored row has it, they insert exactly one new row (and
    [create_project] one link per team member). *)
Theorem create_rejects_same_name
    (name : string) (description : option string) (w : World) :
  plain name = true ->
  let same_topics := filter (fun t => same_name (topic_name t) name) (topics (db w)) in
  let same_projects :=
    filter (fun p => same_name (project_name p) name) (projects (db w)) in
  let new_topic :=
    {| topic_id := Query.next_id (map topic_id (topics (db w)));
       topic_name := name; topic_description := description |} in
  let new_project :=
    {| project_id := Query.next_id (map project_id (projects (db w)));
       project_name := name; project_description := description |} in
  (forall t, same_topics = [t] ->
             create_topic name description w
             = (Ok [("error", JStr ("A topic named '" ++ name ++ "' already exists"))], w))
  /\ (same_topics = [] ->
      create_topic name description w
      = (Ok [("success", JBool true);
             ("message", JStr ("Created topic '" ++ name ++ "'"));
             ("topic_id", JInt (topic_id new_topic));
             ("topic_name", JStr name)],
         with_db (set_topics (topics (db w) ++ [new_topic])%list (db w)) w))
  /\ (forall team_members matched_members w1,
         _ensure_cache w = (Ok tt, w1) ->
         match_members (cache w1)
           (match team_members with Some l => l | None => [] end)
         = inl matched_members ->
         (forall p, same_projects = [p] ->
                    create_project name description team_members w
                    = (Ok [("error", JStr ("A project named '" ++ name
                                           ++ "' already exists"))], w1)
                    /\ db w1 = db w)
         /\ (same_projects = [] ->
             snd (create_project name description team_members w)
             = with_db
                 (set_project_members
                    (project_members (db w)
                     ++ map (fun m => (project_id new_project, m_id m))
                            matched_members)%list
                    (set_projects (projects (db w) ++ [new_project])%list (db w)))
                 w1)).
Proof.
  intros P. cbv zeta.
  assert (Wt : Query.where_
                 (fun t => Query.ilike (Some (topic_name t)) name) (topics (db w))
               = Ok (filter (fun t => same_name (topic_name t) name) (topics (db w))))
    by (apply where_filter; intros r; apply ilike_plain, P).
  assert (Wp : Query.where_
                 (fun p => Query.ilike (Some (project_name p)) name) (projects (db w))
               = Ok (filter (fun p => same_name (project_name p) name)
                            (projects (db w))))
    by (apply where_filter; intros r; apply ilike_plain, P).
  split; [| split].
  - intros t St. unfold create_topic, bind, get_db, lift.
    rewrite Wt, St. reflexivity.
  - intros St. unfold create_topic, bind, get_db, lift.
    rewrite Wt, St. reflexivity.
  - intros team_members matched_members w1 E Mm.
    destruct (ensure_cache_db _ _ _ E) as [D _].
    split.
    + intros p Sp. split; [| exact D].
      unfold create_project, bind. rewrite E. unfold get_cache. rewrite Mm.
      unfold get_db, lift. rewrite D, Wp, Sp. reflexivity.
    + intros Sp. unfold create_project, bind. rewrite E. unfold get_cache.
      rewrite Mm. unfold get_db, lift. rewrite D, Wp, Sp. simpl.
      unfold commit. destruct matched_members as [| m ms]; simpl; [reflexivity |].
      unfold join_names, obind. destruct (names_from 0 (m :: ms)); reflexivity.
Qed.

Lemma create_rejects_same_name_witness :
  create_topic "BUDGET a" None Sample.world
  = (Ok [("error", JStr "A topic named 'BUDGET a' already exists")], Sample.world)
  /\ map project_name
       (projects (db (snd (create_project "Gamma" None (Some ["sam"]) Sample.world))))
     = ["Alpha"; "Alpha Two"; "Gamma"].
Proof.
  destruct (create_rejects_same_name "BUDGET a" None Sample.world eq_refl)
    as (H1 & _ & _).
  destruct (create_rejects_same_name "Gamma" None Sample.world eq_refl)
    as (_ & _ & H3).
  split.
  - apply (H1 {| topic_id := 1; topic_name := "Budget A"; topic_description := None |}).
    reflexivity.
  - destruct (H3 (Some ["sam"])
                [member_of_row (Sample.person 2 "Sam Li" (Some 1002))]
                (snd (_ensure_cache Sample.world)) eq_refl eq_refl) as [_ H4].
    rewrite (H4 eq_refl). reflexivity.
Defined.

(* ---------------------------------------------------------------------- *)
(** ** The Identifier Resolver *)
(* ---------------------------------------------------------------------- *)





(* ---------------------------------------------------------------------- *)
(** ** Further properties of the operations *)
(* ---------------------------------------------------------------------- *)

(** [update_task_status] checks the new status before it touches the store:
    for a status other than 'complete' and 'incomplete' it returns the
    validation error, whatever the identifier, and the world is as it was. *)
Theorem update_task_status_validates (task_identifier new_status : string)
    (w : World) :
  new_status <> "complete" -> new_status <> "incomplete" ->
  update_task_status task_identifier new_status w
  = (Ok [("error", JStr "Status must be 'complete' or 'incomplete'")], w).
Proof.
  intros H1 H2. unfold update_task_status.
  rewrite (proj2 (String.eqb_neq _ _) H1), (proj2 (String.eqb_neq _ _) H2).
  reflexivity.
Qed.

Lemma update_task_status_validates_witness :
  update_task_status "1" "done" Sample.world
  = (Ok [("error", JStr "Status must be 'complete' or 'incomplete'")], Sample.world).
Proof.
  apply update_task_status_validates; discriminate.
Defined.

Lemma cache_rows_blank_name (rows : list Committee) (r : Committee)
    (name : string) (c : Cache) :
  In r rows -> member_name r = Some name -> name <> "" ->
  Py.split_ws name = [] ->
  exists c', cache_rows rows c = (Raise IndexError, c')
             /\ _cache_loaded c' = _cache_loaded c.
Proof.
  intros I N Hn S. revert c. induction rows as [| r0 rest IH]; intros c;
    [destruct I |].
  simpl.
  assert (Any : forall r1 c1,
             (exists c2, cache_row r1 c1 = (Ok tt, c2)
                         /\ _cache_loaded c2 = _cache_loaded c1)
             \/ (exists c2, cache_row r1 c1 = (Raise IndexError, c2)
                            /\ _cache_loaded c2 = _cache_loaded c1)).
  { intros r1 c1. unfold cache_row.
    destruct (member_name r1) as [n1 |]; [| left; eauto].
    destruct (String.eqb n1 ""); [left; eauto |].
    destruct (Py.split_ws n1); [right | left]; eexists; split; reflexivity. }
  destruct I as [-> | I].
  - exists (snd (cache_row r c)). unfold cache_row. rewrite N.
    rewrite (proj2 (String.eqb_neq _ _) Hn), S. simpl. auto.
  - destruct (Any r0 c) as [(c2 & E & L) | (c2 & E & L)]; rewrite E.
    + destruct (IH I c2) as (c' & E' & L'). exists c'. split; [exact E' | congruence].
    + exists c2. auto.
Qed.

(** A committee row whose name is white space only stops the cache load:
    [_ensure_cache] raises [IndexError], the cache stays unloaded, and
    [execute] reports the failure for every tool that resolves a member
    name, here [get_member_info]. *)
Theorem ensure_cache_blank_name_raises (w : World) (r : Committee)
    (name member_name_arg : string) (args : Args) (user_discord_id : option Z) :
  _cache_loaded (cache w) = false ->
  In r (committee (db w)) -> member_name r = Some name -> name <> "" ->
  Py.split_ws name = [] ->
  arg_member_name args = Some member_name_arg ->
  exists w',
    _ensure_cache w = (Raise IndexError, w')
    /\ db w' = db w /\ _cache_loaded (cache w') = false
    /\ execute "get_member_info" args user_discord_id w
       = ([("error", JStr "Tool execution failed: list index out of range")], w').
Proof.
  intros L I N Hn S A.
  destruct (cache_rows_blank_name _ r name (cache w) I N Hn S) as (c' & E & L').
  exists (with_cache c' w).
  assert (X : _ensure_cache w = (Raise IndexError, with_cache c' w)).
  { unfold _ensure_cache. rewrite L, E. reflexivity. }
  split; [exact X |]. split; [reflexivity |].
  split; [simpl; congruence |].
  unfold execute, _call_tool. simpl. rewrite A. unfold index, bind, ret.
  unfold get_member_info, bind. rewrite X. reflexivity.
Qed.

Lemma ensure_cache_blank_name_raises_witness :
  exists w',
    _ensure_cache (Sample.world_of Sample.blank_name_store) = (Raise IndexError, w')
    /\ db w' = Sample.blank_name_store /\ _cache_loaded (cache w') = false
    /\ execute "get_member_info"
         {| arg_status_filter := None; arg_member_name := Some "sam";
            arg_meeting_identifier := None; arg_project_name := None;
            arg_topic_name := None; arg_search_query := None;
            arg_search_in := None; arg_task_identifier := None;
            arg_new_status := None; arg_task_name := None;
            arg_task_description := None; arg_deadline := None;
            arg_assigned_to := None; arg_assign_to_current_user := None;
            arg_project_description := None; arg_team_members := None;
            arg_topic_description := None |} None
         (Sample.world_of Sample.blank_name_store)
       = ([("error", JStr "Tool execution failed: list index out of range")], w').
Proof.
  apply (ensure_cache_blank_name_raises (Sample.world_of Sample.blank_name_store)
           (Sample.person 9 " " None) " " "sam").
  - reflexivity.
  - left. reflexivity.
  - reflexivity.
  - discriminate.
  - reflexivity.
  - reflexivity.
Defined.

Lemma names_from_raises (i : nat) (members : list member) (e : exn) :
  names_from i members = Raise e ->
  exists j, e = TypeError ("sequence item " ++ Py.str_int (Z.of_nat j)
                           ++ ": expected str instance, NoneType found").
Proof.
  revert i. induction members as [| m r IH]; intros i; simpl; [discriminate |].
  destruct (m_name m).
  - unfold obind. destruct (names_from (S i) r) as [l | x] eqn:N; [discriminate |].
    intros X. inversion X; subst. apply (IH (S i)). exact N.
  - intros X. inversion X. exists i. reflexivity.
Qed.

(** [create_task] builds its answer after the commit: when a member to
    assign has no name (a caller whose committee row has a NULL name), the
    join of the names raises [TypeError] with the task row and every
    assignment row already stored, and [execute] reports the failure of a
    call that has created the task. *)
Theorem create_task_commits_then_raises
    (task_name_arg : string) (task_description_arg deadline : option string)
    (assigned_to : option (list string)) (assign_to_current_user : bool)
    (current_user_discord_id : option Z) (w w1 : World)
    (task_deadline_v : option date) (matched_members : list member) (e : exn)
    (args : Args) :
  create_task_prepare deadline assigned_to assign_to_current_user
    current_user_discord_id w
  = (Ok (inr (task_deadline_v, matched_members)), w1) ->
  names_from 0 matched_members = Raise e ->
  arg_task_name args = Some task_name_arg ->
  arg_task_description args = task_description_arg ->
  arg_deadline args = deadline ->
  arg_assigned_to args = assigned_to ->
  get_or (arg_assign_to_current_user args) false = assign_to_current_user ->
  let new_task :=
    {| task_id := Query.next_id (map task_id (tasks (db w)));
       task_name := task_name_arg;
       task_description := task_description_arg;
       task_deadline := task_deadline_v;
       task_status := Some "incomplete" |} in
  let result :=
    create_task task_name_arg task_description_arg deadline assigned_to
      assign_to_current_user current_user_discord_id w in
  fst result = Raise e
  /\ (exists i, e = TypeError ("sequence item " ++ Py.str_int (Z.of_nat i)
                               ++ ": expected str instance, NoneType found"))
  /\ tasks (db (snd result)) = (tasks (db w) ++ [new_task])%list
  /\ task_members (db (snd result))
     = (task_members (db w)
        ++ map (fun m => (task_id new_task, m_id m)) matched_members)%list
  /\ db (snd result)
     = set_task_members
         (task_members (db w)
          ++ map (fun m => (task_id new_task, m_id m)) matched_members)%list
         (set_tasks (tasks (db w) ++ [new_task])%list (db w))
  /\ execute "create_task" args current_user_discord_id w
     = (error ("Tool execution failed: " ++ str_exn e), snd result).
Proof.
  intros P N A1 A2 A3 A4 A5. cbv zeta.
  destruct (create_task_effect task_name_arg task_description_arg _ _ _ _ _ _ _ _ P)
    as [W _].
  cbv zeta in W.
  assert (F : fst (create_task task_name_arg task_description_arg deadline
                     assigned_to assign_to_current_user current_user_discord_id w)
              = Raise e).
  { destruct (create_task_prepare_db _ _ _ _ _ _ _ P) as [D _].
    unfold create_task, bind. rewrite P. unfold get_db, commit, lift.
    destruct matched_members as [| m ms]; [discriminate N |].
    unfold join_names, obind. rewrite N. reflexivity. }
  split; [exact F |].
  split; [exact (names_from_raises 0 matched_members e N) |].
  rewrite W.
  split; [reflexivity |]. split; [reflexivity |]. split; [reflexivity |].
  unfold execute, _call_tool. cbn [String.eqb Ascii.eqb Bool.eqb].
  unfold index, bind. rewrite A1, A2, A3, A4, A5. unfold ret at 1.
  destruct (create_task task_name_arg task_description_arg deadline assigned_to
              assign_to_current_user current_user_discord_id w) as [o w2].
  simpl in F, W. subst o w2. reflexivity.
Qed.

Lemma create_task_commits_then_raises_witness :
  execute "create_task"
    {| arg_status_filter := None; arg_member_name := None;
       arg_meeting_identifier := None; arg_project_name := None;
       arg_topic_name := None; arg_search_query := None;
       arg_search_in := None; arg_task_identifier := None;
       arg_new_status := None; arg_task_name := Some "Plan picnic";
       arg_task_description := None; arg_deadline := None;
       arg_assigned_to := None; arg_assign_to_current_user := Some true;
       arg_project_description := None; arg_team_members := None;
       arg_topic_description := None |} (Some 7007)
    (Sample.world_of Sample.nameless_store)
  = ([("error",
       JStr "Tool execution failed: sequence item 0: expected str instance, NoneType found")],
     snd (create_task "Plan picnic" None None None true (Some 7007)
            (Sample.world_of Sample.nameless_store)))
  /\ map task_name
       (tasks (db (snd (create_task "Plan picnic" None None None true (Some 7007)
                          (Sample.world_of Sample.nameless_store)))))
     = ["Plan picnic"]
  /\ task_members
       (db (snd (create_task "Plan picnic" None None None true (Some 7007)
                   (Sample.world_of Sample.nameless_store))))
     = [(1, 7)].
Proof.
  destruct (create_task_commits_then_raises "Plan picnic" None None None true
              (Some 7007) (Sample.world_of Sample.nameless_store)
              (snd (_ensure_cache (Sample.world_of Sample.nameless_store)))
              None
              [member_of_row
                 {| member_id := 7; member_name := None; discord_id := Some 7007;
                    role := None; subcommittee := None; email := None |}]
              (TypeError "sequence item 0: expected str instance, NoneType found")
              {| arg_status_filter := None; arg_member_name := None;
                 arg_meeting_identifier := None; arg_project_name := None;
                 arg_topic_name := None; arg_search_query := None;
                 arg_search_in := None; arg_task_identifier := None;
                 arg_new_status := None; arg_task_name := Some "Plan picnic";
                 arg_task_description := None; arg_deadline := None;
                 arg_assigned_to := None; arg_assign_to_current_user := Some true;
                 arg_project_description := None; arg_team_members := None;
                 arg_topic_description := None |}
              eq_refl eq_refl eq_refl eq_refl eq_refl eq_refl eq_refl)
    as (_ & _ & H2 & H3 & _ & H5).
  split; [exact H5 |].
  split.
  - rewrite H2. reflexivity.
  - rewrite H3. reflexivity.
Defined.

(* ====================================================================== *)
(** * Further properties of the code *)
(* ====================================================================== *)

(* ---------------------------------------------------------------------- *)
(** ** What an operation keeps *)
(* ---------------------------------------------------------------------- *)

Section Keeps.

Variable R : World -> World -> Prop.
Hypothesis R_refl : forall w, R w w.
Hypothesis R_trans : forall w1 w2 w3, R w1 w2 -> R w2 w3 -> R w1 w3.

Lemma keeps_ret (A : Type) (a : A) : keeps R (ret a).
Proof. intros w. apply R_refl. Qed.

Lemma keeps_raise (A : Type) (e : exn) : keeps R (@raise A e).
Proof. intros w. apply R_refl. Qed.

Lemma keeps_lift (A : Type) (o : outcome A) : keeps R (lift o).
Proof. intros w. apply R_refl. Qed.

Lemma keeps_get_db : keeps R get_db.
Proof. intros w. apply R_refl. Qed.

Lemma keeps_get_cache : keeps R get_cache.
Proof. intros w. apply R_refl. Qed.

Lemma keeps_get_clock : keeps R get_clock.
Proof. intros w. apply R_refl. Qed.

Lemma keeps_bind (A B : Type) (m : M A) (k : A -> M B) :
  keeps R m -> (forall a, keeps R (k a)) -> keeps R (bind m k).
Proof.
  intros Hm Hk w. unfold bind. specialize (Hm w).
  destruct (m w) as [[a | e] w1]; simpl in *; [| exact Hm].
  apply (R_trans _ _ _ Hm). apply Hk.
Qed.

Lemma keeps_index (A : Type) (key : string) (field : option A) :
  keeps R (index key field).
Proof. destruct field; [apply keeps_ret | apply keeps_raise]. Qed.

End Keeps.

(** One step of the proof that an operation keeps a relation. *)
Ltac keeps_step :=
  first
    [ apply keeps_ret; assumption
    | apply keeps_raise; assumption
    | apply keeps_lift; assumption
    | apply keeps_get_db; assumption
    | apply keeps_get_cache; assumption
    | apply keeps_get_clock; assumption
    | apply keeps_index; assumption
    | assumption
    | apply keeps_bind; [assumption | | intros ?]
    | match goal with
      | |- keeps _ (match ?x with _ => _ end) => destruct x
      | |- keeps _ (if ?b then _ else _) => destruct b
      end ].

Lemma same_store_refl (w : World) : same_store w w.
Proof. split; reflexivity. Qed.

Lemma same_store_trans (w1 w2 w3 : World) :
  same_store w1 w2 -> same_store w2 w3 -> same_store w1 w3.
Proof. intros [A1 A2] [B1 B2]. split; congruence. Qed.

Lemma ensure_cache_same_store : keeps same_store _ensure_cache.
Proof.
  intros w. destruct (_ensure_cache w) as [o w1] eqn:E.
  apply ensure_cache_db in E. exact E.
Qed.

Lemma loaded_cache_kept_refl (w : World) : loaded_cache_kept w w.
Proof. intros _. reflexivity. Qed.

Lemma loaded_cache_kept_trans (w1 w2 w3 : World) :
  loaded_cache_kept w1 w2 -> loaded_cache_kept w2 w3 -> loaded_cache_kept w1 w3.
Proof.
  intros A B L. specialize (A L). rewrite <- A. apply B. rewrite A. exact L.
Qed.

Lemma ensure_cache_loaded_kept : keeps loaded_cache_kept _ensure_cache.
Proof. intros w L. rewrite (ensure_cache_again w L). reflexivity. Qed.

Lemma commit_loaded_kept (d : DB) : keeps loaded_cache_kept (commit d).
Proof. intros w L. reflexivity. Qed.

Section ReadOnly.

Variable R : World -> World -> Prop.
Hypothesis R_refl : forall w, R w w.
Hypothesis R_trans : forall w1 w2 w3, R w1 w2 -> R w2 w3 -> R w1 w3.
Hypothesis R_ensure : keeps R _ensure_cache.

Lemma keeps_get_member_by_discord_id (z : Z) :
  keeps R (get_member_by_discord_id z).
Proof. unfold get_member_by_discord_id. repeat keeps_step. Qed.

Ltac keeps_all :=
  repeat first [apply keeps_get_member_by_discord_id | keeps_step].

Lemma keeps_get_my_identity (z : Z) : keeps R (get_my_identity z).
Proof. unfold get_my_identity. keeps_all. Qed.

Lemma keeps_get_my_tasks (z : Z) : keeps R (get_my_tasks z).
Proof. unfold get_my_tasks. keeps_all. Qed.

Lemma keeps_get_all_tasks (status_filter : string) :
  keeps R (get_all_tasks status_filter).
Proof. unfold get_all_tasks. keeps_all. Qed.

Lemma keeps_get_member_info (name : string) : keeps R (get_member_info name).
Proof. unfold get_member_info. keeps_all. Qed.

Lemma keeps_get_meeting_info (identifier : string) :
  keeps R (get_meeting_info identifier).
Proof. unfold get_meeting_info. keeps_all. Qed.

Lemma keeps_get_meetings_for_member (name : string) :
  keeps R (get_meetings_for_member name).
Proof. unfold get_meetings_for_member. keeps_all. Qed.

Lemma keeps_get_missed_meetings (z : Z) : keeps R (get_missed_meetings z).
Proof. unfold get_missed_meetings. keeps_all. Qed.

Lemma keeps_get_project_info (name : string) : keeps R (get_project_info name).
Proof. unfold get_project_info. keeps_all. Qed.

Lemma keeps_get_all_projects : keeps R get_all_projects.
Proof. unfold get_all_projects. keeps_all. Qed.

Lemma keeps_get_all_members : keeps R get_all_members.
Proof. unfold get_all_members. keeps_all. Qed.

Lemma keeps_get_topic_info (name : string) : keeps R (get_topic_info name).
Proof. unfold get_topic_info. keeps_all. Qed.

Lemma keeps_search_database (q search_in : string) :
  keeps R (search_database q search_in).
Proof. unfold search_database. keeps_all. Qed.

Lemma keeps_with_caller (uid : option Z) (k : Z -> M envelope) :
  (forall z, keeps R (k z)) -> keeps R (with_caller uid k).
Proof.
  intros H. unfold with_caller. destruct uid as [z |]; [| keeps_all].
  destruct (z =? 0); [keeps_all | apply H].
Qed.

Lemma keeps_create_task_prepare (deadline : option string)
    (assigned_to : option (list string)) (flag : bool) (uid : option Z) :
  keeps R (create_task_prepare deadline assigned_to flag uid).
Proof. unfold create_task_prepare. keeps_all. Qed.

Section Writes.

Hypothesis R_commit : forall d, keeps R (commit d).

Ltac keeps_w :=
  repeat first [apply R_commit | apply keeps_create_task_prepare
               | apply keeps_get_member_by_discord_id | keeps_step].

Lemma keeps_update_task_status (identifier status : string) :
  keeps R (update_task_status identifier status).
Proof. unfold update_task_status. keeps_w. Qed.

Lemma keeps_assign_member_to_task (identifier name : string) :
  keeps R (assign_member_to_task identifier name).
Proof. unfold assign_member_to_task. keeps_w. Qed.

Lemma keeps_remove_member_from_task (identifier name : string) :
  keeps R (remove_member_from_task identifier name).
Proof. unfold remove_member_from_task. keeps_w. Qed.

Lemma keeps_create_task (name : string) (description deadline : option string)
    (assigned_to : option (list string)) (flag : bool) (uid : option Z) :
  keeps R (create_task name description deadline assigned_to flag uid).
Proof. unfold create_task. keeps_w. Qed.

Lemma keeps_create_project (name : string) (description : option string)
    (team : option (list string)) :
  keeps R (create_project name description team).
Proof. unfold create_project. keeps_w. Qed.

Lemma keeps_add_member_to_project (project name : string) :
  keeps R (add_member_to_project project name).
Proof. unfold add_member_to_project. keeps_w. Qed.

Lemma keeps_create_topic (name : string) (description : option string) :
  keeps R (create_topic name description).
Proof. unfold create_topic. keeps_w. Qed.

Lemma keeps_add_topic_to_meeting (identifier name : string) :
  keeps R (add_topic_to_meeting identifier name).
Proof. unfold add_topic_to_meeting. keeps_w. Qed.

End Writes.

End ReadOnly.

(* ---------------------------------------------------------------------- *)
(** ** The router: what the tools leave alone *)
(* ---------------------------------------------------------------------- *)

Lemma execute_world (tool_name : string) (args : Args) (uid : option Z) (w : World) :
  snd (execute tool_name args uid w) = snd (_call_tool tool_name args uid w).
Proof.
  unfold execute. destruct (_call_tool tool_name args uid w) as [[r | e] w'];
    reflexivity.
Qed.

Lemma call_tool_retrieval_keeps (R : World -> World -> Prop)
    (tool_name : string) (args : Args) (uid : option Z) :
  (forall w, R w w) ->
  (forall w1 w2 w3, R w1 w2 -> R w2 w3 -> R w1 w3) ->
  keeps R _ensure_cache ->
  In tool_name retrieval_tools ->
  keeps R (_call_tool tool_name args uid).
Proof.
  intros R_refl R_trans R_ensure I. unfold retrieval_tools in I. simpl in I.
  repeat (destruct I as [<- | I]; [| ]); try destruct I;
    unfold _call_tool; simpl String.eqb; cbv iota;
    repeat first
      [ apply keeps_with_caller; try assumption; intros ?
      | apply keeps_get_my_tasks; assumption
      | apply keeps_get_my_identity; assumption
      | apply keeps_get_all_tasks; assumption
      | apply keeps_get_member_info; assumption
      | apply keeps_get_meeting_info; assumption
      | apply keeps_get_meetings_for_member; assumption
      | apply keeps_get_missed_meetings; assumption
      | apply keeps_get_project_info; assumption
      | apply keeps_get_all_projects; assumption
      | apply keeps_get_all_members; assumption
      | apply keeps_get_topic_info; assumption
      | apply keeps_search_database; assumption
      | keeps_step ].
Qed.

(** The thirteen retrieval tools never write: whatever the arguments and
    the caller, and whether the call returns or raises, the store and the
    clock are as they were. *)
Theorem retrieval_tools_read_only
    (tool_name : string) (args : Args) (user_discord_id : option Z) (w : World) :
  In tool_name retrieval_tools ->
  db (snd (execute tool_name args user_discord_id w)) = db w
  /\ clock (snd (execute tool_name args user_discord_id w)) = clock w.
Proof.
  intros I. rewrite execute_world.
  apply (call_tool_retrieval_keeps same_store tool_name args user_discord_id
           same_store_refl same_store_trans ensure_cache_same_store I w).
Qed.

Lemma retrieval_tools_read_only_witness :
  db (snd (execute "search_database"
             {| arg_status_filter := None; arg_member_name := None;
                arg_meeting_identifier := None; arg_project_name := None;
                arg_topic_name := None; arg_search_query := Some "budget";
                arg_search_in := None; arg_task_identifier := None;
                arg_new_status := None; arg_task_name := None;
                arg_task_description := None; arg_deadline := None;
                arg_assigned_to := None; arg_assign_to_current_user := None;
                arg_project_description := None; arg_team_members := None;
                arg_topic_description := None |} None Sample.world))
  = Sample.store
  /\ clock (snd (execute "get_my_tasks" no_args (Some 1001) Sample.world))
     = Sample.noon.
Proof.
  split.
  - apply retrieval_tools_read_only. simpl. tauto.
  - apply retrieval_tools_read_only. simpl. tauto.
Defined.

Lemma call_tool_loaded_cache_kept (tool_name : string) (args : Args)
    (uid : option Z) :
  keeps loaded_cache_kept (_call_tool tool_name args uid).
Proof.
  pose proof loaded_cache_kept_refl as R_refl.
  pose proof loaded_cache_kept_trans as R_trans.
  pose proof ensure_cache_loaded_kept as R_ensure.
  pose proof commit_loaded_kept as R_commit.
  unfold _call_tool.
  repeat match goal with
         | |- keeps _ (if String.eqb ?a ?b then _ else _) =>
             destruct (String.eqb a b)
         end;
    repeat first
      [ apply keeps_with_caller; try assumption; intros ?
      | apply keeps_get_my_tasks; assumption
      | apply keeps_get_my_identity; assumption
      | apply keeps_get_all_tasks; assumption
      | apply keeps_get_member_info; assumption
      | apply keeps_get_meeting_info; assumption
      | apply keeps_get_meetings_for_member; assumption
      | apply keeps_get_missed_meetings; assumption
      | apply keeps_get_project_info; assumption
      | apply keeps_get_all_projects; assumption
      | apply keeps_get_all_members; assumption
      | apply keeps_get_topic_info; assumption
      | apply keeps_search_database; assumption
      | apply keeps_update_task_status; assumption
      | apply keeps_assign_member_to_task; assumption
      | apply keeps_remove_member_from_task; assumption
      | apply keeps_create_task; assumption
      | apply keeps_create_project; assumption
      | apply keeps_add_member_to_project; assumption
      | apply keeps_create_topic; assumption
      | apply keeps_add_topic_to_meeting; assumption
      | keeps_step ].
Qed.

(** The member cache is built once: from a world whose cache is loaded, no
    sequence of tool calls changes the cache, whatever the calls write to
    the store. *)
Theorem member_cache_built_once
    (calls : list (string * Args * option Z)) (w : World) :
  _cache_loaded (cache w) = true ->
  cache (run_calls calls w) = cache w.
Proof.
  revert w. unfold run_calls.
  induction calls as [| [[tool_name args] uid] rest IH]; intros w L; simpl;
    [reflexivity |].
  assert (E : cache (snd (execute tool_name args uid w)) = cache w).
  { rewrite execute_world. apply (call_tool_loaded_cache_kept tool_name args uid w L). }
  rewrite IH; [exact E | rewrite E; exact L].
Qed.

(* ---------------------------------------------------------------------- *)
(** ** The writes of one call *)
(* ---------------------------------------------------------------------- *)

Lemma where_incl (A : Type) (cond : A -> outcome bool) (rows l : list A) :
  Query.where_ cond rows = Ok l -> incl l rows.
Proof.
  revert l. induction rows as [| r rest IH]; simpl; intros l E.
  - inversion E. intros x [].
  - destruct (cond r) as [b | e]; [| discriminate E].
    destruct (Query.where_ cond rest) as [l0 | e]; [| discriminate E].
    inversion E; subst. specialize (IH l0 eq_refl).
    destruct b; intros x Hx.
    + destruct Hx as [-> | Hx]; [left; reflexivity | right; apply IH; exact Hx].
    + right. apply IH. exact Hx.
Qed.

Lemma scalar_one_or_none_in (A : Type) (l : list A) (r : A) :
  Query.scalar_one_or_none l = Ok (Some r) -> In r l.
Proof.
  destruct l as [| x [| y t]]; simpl; intros E; inversion E. left. reflexivity.
Qed.

Lemma task_by_id_in (d : DB) (task_identifier : string) (t : Task) :
  task_by_id d task_identifier = Ok (Some t) -> In t (tasks d).
Proof.
  unfold task_by_id. destruct (Py.int task_identifier) as [n |]; [| discriminate].
  intros E. apply scalar_one_or_none_in in E. apply filter_In in E. tauto.
Qed.

Lemma task_lookup_in (msg : string) (d : DB) (task_identifier : string) (t : Task) :
  task_lookup msg d task_identifier = Ok (Found t) -> In t (tasks d).
Proof.
  unfold task_lookup, obind.
  destruct (task_by_id d task_identifier) as [[t0 |] | e] eqn:B; [| | discriminate].
  - intros E. inversion E; subst. eapply task_by_id_in; eauto.
  - destruct (tasks_like d task_identifier) as [[| x [| y r]] | e] eqn:L;
      intros E; inversion E; subst.
    apply where_incl in L. apply L. left. reflexivity.
Qed.

Lemma remove_member_from_task_lookup_in (d : DB) (task_identifier : string)
    (t : Task) :
  remove_member_from_task_lookup d task_identifier = Ok (Found t) -> In t (tasks d).
Proof.
  unfold remove_member_from_task_lookup, obind.
  destruct (task_by_id d task_identifier) as [[t0 |] | e] eqn:B; [| | discriminate].
  - intros E. inversion E; subst. eapply task_by_id_in; eauto.
  - destruct (tasks_like d task_identifier) as [[| x [| y r]] | e] eqn:L;
      intros E; inversion E; subst.
    apply where_incl in L. apply L. left. reflexivity.
Qed.

Lemma add_member_to_project_lookup_in (d : DB) (project_name_arg : string)
    (p : Project) :
  add_member_to_project_lookup d project_name_arg = Ok (Found p) ->
  In p (projects d).
Proof.
  unfold add_member_to_project_lookup, obind.
  destruct (projects_like d project_name_arg) as [[| x [| y r]] | e] eqn:L;
    intros E; inversion E; subst.
  apply where_incl in L. apply L. left. reflexivity.
Qed.

Lemma add_topic_to_meeting_lookup_in (d : DB) (meeting_identifier : string)
    (m : Meeting) :
  add_topic_to_meeting_lookup d meeting_identifier = Ok (Found m) ->
  In m (meetings d).
Proof.
  unfold add_topic_to_meeting_lookup, obind, meeting_by_id.
  destruct (Py.int meeting_identifier) as [n |].
  - destruct (Query.scalar_one_or_none _) as [[m0 |] | e] eqn:B; [| | discriminate].
    + intros E. inversion E; subst. apply scalar_one_or_none_in in B.
      apply filter_In in B. tauto.
    + destruct (meetings_like d meeting_identifier) as [[| x [| y r]] | e] eqn:L;
        intros E; inversion E; subst.
      apply where_incl in L. apply L. left. reflexivity.
  - destruct (meetings_like d meeting_identifier) as [[| x [| y r]] | e] eqn:L;
      intros E; inversion E; subst.
    apply where_incl in L. apply L. left. reflexivity.
Qed.

Lemma update_task_status_step (task_identifier new_status : string) (w : World) :
  step (db w) (db (snd (update_task_status task_identifier new_status w))).
Proof.
  unfold update_task_status.
  destruct (negb _) eqn:V; [left; reflexivity |].
  unfold bind, get_db, lift.
  destruct (task_lookup _ (db w) task_identifier) as [[task | env |] | e] eqn:L;
    try (left; reflexivity).
  right. simpl. apply (@W_status (db w) task new_status).
  - apply negb_false_iff, orb_true_iff in V.
    destruct V as [V | V]; apply String.eqb_eq in V; auto.
  - eapply task_lookup_in; eauto.
Qed.

Lemma assign_member_to_task_step (task_identifier member_name_arg : string)
    (w : World) :
  step (db w) (db (snd (assign_member_to_task task_identifier member_name_arg w))).
Proof.
  unfold step, assign_member_to_task, bind.
  destruct (_ensure_cache w) as [[[] | e] w1] eqn:E;
    apply ensure_cache_db in E; destruct E as [E _]; [| left; exact E].
  unfold get_cache.
  destruct (_fuzzy_match_member (cache w1) (Some member_name_arg)) as [mm |];
    [| left; exact E].
  unfold get_db, lift.
  destruct (task_lookup _ (db w1) task_identifier) as [[task | env |] | e] eqn:L;
    try (left; exact E).
  destruct (Query.scalar_one_or_none _) as [[j |] | e] eqn:S; try (left; exact E).
  right. simpl. rewrite E in *.
  apply (@W_assign (db w) task (m_id mm)).
  - eapply task_lookup_in; eauto.
  - apply scalar_one_or_none_none in S. exact S.
Qed.

Lemma remove_member_from_task_step (task_identifier member_name_arg : string)
    (w : World) :
  step (db w) (db (snd (remove_member_from_task task_identifier member_name_arg w))).
Proof.
  unfold step, remove_member_from_task, bind.
  destruct (_ensure_cache w) as [[[] | e] w1] eqn:E;
    apply ensure_cache_db in E; destruct E as [E _]; [| left; exact E].
  unfold get_cache.
  destruct (_fuzzy_match_member (cache w1) (Some member_name_arg)) as [mm |];
    [| left; exact E].
  unfold get_db, lift.
  destruct (remove_member_from_task_lookup (db w1) task_identifier)
    as [[task | env |] | e] eqn:L; try (left; exact E).
  right. cbv zeta. unfold commit.
  destruct (length _ =? 0)%nat; simpl; rewrite E in *;
    apply (@W_unassign (db w) task (m_id mm));
    eapply remove_member_from_task_lookup_in; eauto.
Qed.

Lemma create_task_step (task_name_arg : string)
    (task_description_arg deadline : option string)
    (assigned_to : option (list string)) (flag : bool) (uid : option Z)
    (w : World) :
  step (db w)
       (db (snd (create_task task_name_arg task_description_arg deadline
                   assigned_to flag uid w))).
Proof.
  destruct (create_task_prepare deadline assigned_to flag uid w)
    as [[[env | [dl members]] | e] w1] eqn:P.
  - left. unfold create_task, bind. rewrite P. simpl.
    eapply create_task_prepare_db; eauto.
  - right.
    destruct (create_task_effect task_name_arg task_description_arg deadline
                assigned_to flag uid w w1 dl members P) as [S _].
    cbv zeta in S. rewrite S. simpl.
    apply (@W_task (db w) task_name_arg task_description_arg dl members).
  - left. unfold create_task, bind. rewrite P. simpl.
    eapply create_task_prepare_db; eauto.
Qed.

Lemma create_project_step (project_name_arg : string)
    (project_description_arg : option string) (team_members : option (list string))
    (w : World) :
  step (db w)
       (db (snd (create_project project_name_arg project_description_arg
                   team_members w))).
Proof.
  unfold step, create_project, bind.
  destruct (_ensure_cache w) as [[[] | e] w1] eqn:E;
    apply ensure_cache_db in E; destruct E as [E _]; [| left; exact E].
  unfold get_cache.
  destruct (match_members (cache w1) _) as [members | name]; [| left; exact E].
  unfold get_db, lift.
  destruct (Query.where_ _ (projects (db w1))) as [found | e]; [| left; exact E].
  destruct (Query.scalar_one_or_none found) as [[p |] | e]; try (left; exact E).
  right. unfold commit.
  destruct members as [| m ms]; simpl.
  - rewrite E. apply (@W_project (db w) project_name_arg project_description_arg []).
  - destruct (join_names (m :: ms)); simpl; rewrite E;
      apply (@W_project (db w) project_name_arg project_description_arg (m :: ms)).
Qed.

Lemma add_member_to_project_step (project_name_arg member_name_arg : string)
    (w : World) :
  step (db w) (db (snd (add_member_to_project project_name_arg member_name_arg w))).
Proof.
  unfold step, add_member_to_project, bind.
  destruct (_ensure_cache w) as [[[] | e] w1] eqn:E;
    apply ensure_cache_db in E; destruct E as [E _]; [| left; exact E].
  unfold get_cache.
  destruct (_fuzzy_match_member (cache w1) (Some member_name_arg)) as [mm |];
    [| left; exact E].
  unfold get_db, lift.
  destruct (add_member_to_project_lookup (db w1) project_name_arg)
    as [[project | env |] | e] eqn:L; try (left; exact E).
  destruct (Query.scalar_one_or_none _) as [[j |] | e] eqn:S; try (left; exact E).
  right. simpl. rewrite E in *.
  apply (@W_project_member (db w) project (m_id mm)).
  - eapply add_member_to_project_lookup_in; eauto.
  - apply scalar_one_or_none_none in S. exact S.
Qed.

Lemma create_topic_step (topic_name_arg : string)
    (topic_description_arg : option string) (w : World) :
  step (db w) (db (snd (create_topic topic_name_arg topic_description_arg w))).
Proof.
  unfold step, create_topic, bind, get_db, lift.
  destruct (Query.where_ _ (topics (db w))) as [found | e]; [| left; reflexivity].
  destruct (Query.scalar_one_or_none found) as [[p |] | e]; try (left; reflexivity).
  right. simpl. apply (@W_topic (db w) topic_name_arg topic_description_arg).
Qed.

Lemma add_topic_to_meeting_step (meeting_identifier topic_name_arg : string)
    (w : World) :
  step (db w) (db (snd (add_topic_to_meeting meeting_identifier topic_name_arg w))).
Proof.
  unfold step, add_topic_to_meeting, bind, get_db, lift.
  destruct (add_topic_to_meeting_lookup (db w) meeting_identifier)
    as [[meeting | env |] | e] eqn:L; try (left; reflexivity).
  pose proof (add_topic_to_meeting_lookup_in _ _ _ L) as Hm.
  destruct (topics_like (db w) topic_name_arg) as [like | e] eqn:T;
    [| left; reflexivity].
  destruct (Query.scalar_one_or_none like) as [[topic |] | e] eqn:S;
    try (left; reflexivity).
  - destruct (Query.scalar_one_or_none (filter _ _)) as [[j |] | e] eqn:X;
      try (left; reflexivity).
    right. simpl. apply (@W_meeting_topic (db w) meeting topic).
    + exact Hm.
    + apply scalar_one_or_none_in in S. apply where_incl in T. apply T. exact S.
    + apply scalar_one_or_none_none in X. exact X.
  - destruct (Query.scalar_one_or_none (filter _ _)) as [[j |] | e] eqn:X;
      try (left; reflexivity).
    right. simpl. apply (@W_meeting_new_topic (db w) meeting topic_name_arg).
    + exact Hm.
    + apply scalar_one_or_none_none in X. exact X.
Qed.

Lemma index_step (A : Type) (key : string) (field : option A)
    (k : A -> M envelope) :
  (forall a w, step (db w) (db (snd (k a w)))) ->
  forall w, step (db w) (db (snd ((a <- index key field ;; k a) w))).
Proof.
  intros H w. unfold index, bind. destruct field as [a |].
  - apply H.
  - left. reflexivity.
Qed.

Lemma call_tool_step (tool_name : string) (args : Args) (uid : option Z)
    (w : World) :
  step (db w) (db (snd (_call_tool tool_name args uid w))).
Proof.
  destruct (in_dec string_dec tool_name retrieval_tools) as [I | N].
  - left.
    apply (call_tool_retrieval_keeps same_store tool_name args uid
             same_store_refl same_store_trans ensure_cache_same_store I w).
  - revert w. unfold _call_tool.
    repeat match goal with
           | |- context [if String.eqb tool_name ?s then _ else _] =>
               destruct (String.eqb_spec tool_name s) as [-> | _];
               [first [ exfalso; apply N; simpl; tauto | idtac ] |]
           end.
    all: repeat (apply index_step; intros ?).
    all: intros w.
    + apply update_task_status_step.
    + apply assign_member_to_task_step.
    + apply remove_member_from_task_step.
    + apply create_task_step.
    + apply create_project_step.
    + apply add_member_to_project_step.
    + apply create_topic_step.
    + apply add_topic_to_meeting_step.
    + left. reflexivity.
Qed.

Lemma run_calls_invariant (I : DB -> Prop) :
  (forall d d', write d d' -> I d -> I d') ->
  forall calls w, I (db w) -> I (db (run_calls calls w)).
Proof.
  intros H calls. unfold run_calls.
  induction calls as [| [[tool_name args] uid] rest IH]; intros w Hw; simpl;
    [exact Hw |].
  apply IH. rewrite execute_world.
  destruct (call_tool_step tool_name args uid w) as [E | W].
  - rewrite E. exact Hw.
  - eapply H; eauto.
Qed.

Lemma extends_refl (A : Type) (l : list A) : extends l l.
Proof. exists []. symmetry. apply app_nil_r. Qed.

Lemma extends_trans (A : Type) (l1 l2 l3 : list A) :
  extends l1 l2 -> extends l2 l3 -> extends l1 l3.
Proof.
  intros [a ->] [b ->]. exists (a ++ b)%list. symmetry. apply app_assoc.
Qed.

Lemma extends_app (A : Type) (l a : list A) : extends l (l ++ a).
Proof. exists a. reflexivity. Qed.

Lemma store_frame_refl (d : DB) : store_frame d d.
Proof. unfold store_frame. repeat split; apply extends_refl. Qed.

Lemma store_frame_trans (d1 d2 d3 : DB) :
  store_frame d1 d2 -> store_frame d2 d3 -> store_frame d1 d3.
Proof.
  unfold store_frame.
  intros (A1 & A2 & A3 & A4 & A5 & A6 & A7 & A8 & A9 & A10 & A11)
         (B1 & B2 & B3 & B4 & B5 & B6 & B7 & B8 & B9 & B10 & B11).
  repeat split; try congruence; eapply extends_trans; eauto.
Qed.

Lemma task_fixed_with_status (id : Z) (st : string) (l : list Task) :
  map task_fixed (map (with_status id st) l) = map task_fixed l.
Proof.
  rewrite map_map. apply map_ext. intros t. unfold with_status.
  destruct (task_id t =? id); reflexivity.
Qed.

Lemma task_id_with_status (id : Z) (st : string) (l : list Task) :
  map task_id (map (with_status id st) l) = map task_id l.
Proof.
  rewrite map_map. apply map_ext. intros t. unfold with_status.
  destruct (task_id t =? id); reflexivity.
Qed.

Lemma write_store_frame (d d' : DB) : write d d' -> store_frame d d'.
Proof.
  intros W. destruct W; unfold store_frame; cbn [committee meetings meeting_members
    meeting_tasks meeting_projects project_tasks projects topics project_members
    meeting_topics tasks set_tasks set_task_members set_projects
    set_project_members set_topics set_meeting_topics];
    repeat split;
    try rewrite task_fixed_with_status;
    try rewrite map_app;
    first [apply extends_refl | apply extends_app].
Qed.

(** Each call commits at most one write: after [execute], the store is as
    it was, or it differs by one status update, one link added or removed,
    or one task, project or topic row added with its links. *)
Theorem execute_commits_one_write
    (tool_name : string) (args : Args) (user_discord_id : option Z) (w : World) :
  step (db w) (db (snd (execute tool_name args user_discord_id w))).
Proof. rewrite execute_world. apply call_tool_step. Qed.

(** No sequence of tool calls removes or changes a member, a meeting, a
    project or a topic, nor a link other than a task assignment; tasks
    are never removed and change only in status. *)
Theorem tool_calls_keep_store_frame
    (calls : list (string * Args * option Z)) (w : World) :
  store_frame (db w) (db (run_calls calls w)).
Proof.
  apply (run_calls_invariant (fun d => store_frame (db w) d)).
  - intros d d' W F. eapply store_frame_trans; [exact F |].
    apply write_store_frame. exact W.
  - apply store_frame_refl.
Qed.

Lemma write_status_valid (d d' : DB) : write d d' -> status_valid d -> status_valid d'.
Proof.
  intros W V. destruct W; unfold status_valid in *;
    cbn [tasks set_tasks set_task_members set_projects set_project_members
         set_topics set_meeting_topics]; try exact V.
  - intros t Ht. apply in_map_iff in Ht. destruct Ht as [t0 [<- Ht0]].
    unfold with_status. destruct (task_id t0 =? task_id task).
    + cbn [task_status]. destruct H as [-> | ->]; auto.
    + apply V. exact Ht0.
  - intros t Ht. apply in_app_or in Ht. destruct Ht as [Ht | [<- | []]].
    + apply V. exact Ht.
    + cbn [task_status]. auto.
Qed.

(** Valid statuses stay valid: if every stored status is NULL, 'complete'
    or 'incomplete', it is so after any sequence of tool calls. *)
Theorem tool_calls_keep_status_valid
    (calls : list (string * Args * option Z)) (w : World) :
  status_valid (db w) -> status_valid (db (run_calls calls w)).
Proof. apply (run_calls_invariant status_valid). exact write_status_valid. Qed.

Lemma NoDup_map_snoc_next_id (A : Type) (f : A -> Z) (l : list A) (x : A) :
  f x = Query.next_id (map f l) -> NoDup (map f l) -> NoDup (map f (l ++ [x])).
Proof.
  intros E H. rewrite map_app. cbn [map]. apply NoDup_snoc; [exact H |].
  rewrite E. apply next_id_fresh.
Qed.

Lemma write_ids_unique (d d' : DB) : write d d' -> ids_unique d -> ids_unique d'.
Proof.
  intros W (T & P & O). destruct W; unfold ids_unique;
    cbn [tasks projects topics set_tasks set_task_members set_projects
         set_project_members set_topics set_meeting_topics];
    try rewrite task_id_with_status;
    repeat split; try assumption;
    apply NoDup_map_snoc_next_id; try assumption; reflexivity.
Qed.

(** Identifiers stay unique: if no two tasks, no two projects and no two
    topics share an identifier, it is so after any sequence of tool
    calls. *)
Theorem tool_calls_keep_ids_unique
    (calls : list (string * Args * option Z)) (w : World) :
  ids_unique (db w) -> ids_unique (db (run_calls calls w)).
Proof. apply (run_calls_invariant ids_unique). exact write_ids_unique. Qed.

Lemma write_links_resolve (d d' : DB) :
  write d d' -> links_resolve d -> links_resolve d'.
Proof.
  intros W (T & P & O). destruct W; unfold links_resolve;
    cbn [tasks projects topics meetings task_members project_members
         meeting_topics set_tasks set_task_members set_projects
         set_project_members set_topics set_meeting_topics];
    try rewrite task_id_with_status.
  - repeat split; auto; apply O; assumption.
  - repeat split; try (apply O; assumption); auto.
    intros j Hj. apply in_app_or in Hj. destruct Hj as [Hj | [<- | []]]; auto.
    cbn [fst]. apply in_map. assumption.
  - repeat split; try (apply O; assumption); auto.
    intros j Hj. apply filter_In in Hj. apply T. tauto.
  - repeat split; try (apply O; assumption); auto.
    intros j Hj. rewrite map_app. apply in_or_app.
    apply in_app_or in Hj. destruct Hj as [Hj | Hj]; [left; auto |].
    right. apply in_map_iff in Hj. destruct Hj as [m [<- _]]. left. reflexivity.
  - repeat split; try (apply O; assumption); auto.
    intros j Hj. rewrite map_app. apply in_or_app.
    apply in_app_or in Hj. destruct Hj as [Hj | Hj]; [left; auto |].
    right. apply in_map_iff in Hj. destruct Hj as [m [<- _]]. left. reflexivity.
  - repeat split; try (apply O; assumption); auto.
    intros j Hj. apply in_app_or in Hj. destruct Hj as [Hj | [<- | []]]; auto.
    cbn [fst]. apply in_map. assumption.
  - repeat split; auto; try (apply O; assumption).
    rewrite map_app. apply in_or_app. left. apply O. assumption.
  - repeat split; auto.
    + apply in_app_or in H2. destruct H2 as [Hj | [<- | []]].
      * apply O. exact Hj.
      * cbn [fst]. apply in_map. assumption.
    + apply in_app_or in H2. destruct H2 as [Hj | [<- | []]].
      * apply O. exact Hj.
      * cbn [snd]. apply in_map. assumption.
  - repeat split; auto.
    + apply in_app_or in H1. destruct H1 as [Hj | [<- | []]].
      * apply O. exact Hj.
      * cbn [fst]. apply in_map. assumption.
    + rewrite map_app. apply in_or_app.
      apply in_app_or in H1. destruct H1 as [Hj | [<- | []]].
      * left. apply O. exact Hj.
      * right. left. reflexivity.
Qed.

(** No dangling link is made: if every task assignment names a stored
    task, every project membership a stored project and every meeting
    topic link a stored meeting and a stored topic, it is so after any
    sequence of tool calls. *)
Theorem tool_calls_keep_links_resolved
    (calls : list (string * Args * option Z)) (w : World) :
  links_resolve (db w) -> links_resolve (db (run_calls calls w)).
Proof. apply (run_calls_invariant links_resolve). exact write_links_resolve. Qed.

Lemma member_cache_built_once_witness :
  _cache_loaded (cache (snd (_ensure_cache Sample.world))) = true
  /\ cache (run_calls Calls.session (snd (_ensure_cache Sample.world)))
     = cache (snd (_ensure_cache Sample.world)).
Proof.
  split.
  - vm_compute. reflexivity.
  - apply member_cache_built_once. vm_compute. reflexivity.
Defined.

Lemma sample_status_valid : status_valid Sample.store.
Proof.
  intros t Ht. simpl in Ht.
  repeat (destruct Ht as [<- | Ht]; [cbn [task_status Sample.task]; auto |]).
  destruct Ht.
Qed.

Lemma tool_calls_keep_status_valid_witness :
  status_valid (db Sample.world)
  /\ status_valid (db (run_calls Calls.session Sample.world)).
Proof.
  split.
  - exact sample_status_valid.
  - apply tool_calls_keep_status_valid. exact sample_status_valid.
Defined.

Lemma sample_ids_unique : ids_unique Sample.store.
Proof.
  unfold ids_unique. simpl.
  repeat split; repeat (constructor; [simpl; intuition discriminate |]);
    constructor.
Qed.

Lemma tool_calls_keep_ids_unique_witness :
  ids_unique (db Sample.world)
  /\ ids_unique (db (run_calls Calls.session Sample.world)).
Proof.
  split.
  - exact sample_ids_unique.
  - apply tool_calls_keep_ids_unique. exact sample_ids_unique.
Defined.

Lemma sample_links_resolve : links_resolve Sample.store.
Proof.
  unfold links_resolve. simpl. split; [| split].
  - intros j [<- | []]. simpl. tauto.
  - intros j [].
  - intros j [].
Qed.

Lemma tool_calls_keep_links_resolved_witness :
  links_resolve (db Sample.world)
  /\ links_resolve (db (run_calls Calls.session Sample.world)).
Proof.
  split.
  - exact sample_links_resolve.
  - apply tool_calls_keep_links_resolved. exact sample_links_resolve.
Defined.

Lemma write_meeting_topics_NoDup (d d' : DB) :
  write d d' -> NoDup (meeting_topics d) -> NoDup (meeting_topics d').
Proof.
  intros W N. destruct W;
    cbn [meeting_topics set_tasks set_task_members set_projects
         set_project_members set_topics set_meeting_topics];
    try exact N;
    apply NoDup_snoc; try exact N; apply filter_is_link_nil; assumption.
Qed.

(** No topic is linked to a meeting twice: from a meeting_topics junction
    without duplicates, no sequence of tool calls produces a duplicate
    (meeting_id, topic_id) pair. *)
Theorem tool_calls_keep_meeting_topics_unique
    (calls : list (string * Args * option Z)) (w : World) :
  NoDup (meeting_topics (db w)) ->
  NoDup (meeting_topics (db (run_calls calls w))).
Proof.
  intros N.
  apply (run_calls_invariant (fun d => NoDup (meeting_topics d))); [| exact N].
  exact write_meeting_topics_NoDup.
Qed.

Lemma tool_calls_keep_meeting_topics_unique_witness :
  NoDup (meeting_topics (db Sample.world))
  /\ NoDup (meeting_topics
              (db (run_calls
                     [Calls.add_topic_to_meeting "1" "Venue";
                      Calls.add_topic_to_meeting "kickoff" "venue";
                      Calls.add_topic_to_meeting "2" "Venue"]
                     Sample.world))).
Proof.
  split.
  - constructor.
  - apply tool_calls_keep_meeting_topics_unique. constructor.
Defined.

(* ---------------------------------------------------------------------- *)
(** ** The router and the parameter schemas *)
(* ---------------------------------------------------------------------- *)

(** A call that lacks a key its schema requires fails on the first such
    key: [execute] answers "Tool execution failed: '<key>'" and nothing is
    read or written, not even the member cache. *)
Theorem missing_required_argument
    (tool_name : string) (args : Args) (user_discord_id : option Z) (w : World)
    (key : string) :
  first_missing (required tool_name) args = Some key ->
  execute tool_name args user_discord_id w
  = (error ("Tool execution failed: '" ++ key ++ "'"), w).
Proof.
  unfold required.
  repeat match goal with
         | |- context [if String.eqb tool_name ?s then _ else _] =>
             destruct (String.eqb_spec tool_name s) as [-> | _]
         end;
    unfold first_missing; cbn [find has_key String.eqb Ascii.eqb Bool.eqb];
    unfold execute, _call_tool; cbn [String.eqb Ascii.eqb Bool.eqb];
    unfold index, bind, raise, ret;
    repeat match goal with
           | |- context [is_some ?o] => destruct o; cbn [is_some negb]
           end;
    intros E; inversion E; subst; reflexivity.
Qed.

Lemma missing_required_argument_witness :
  first_missing (required "update_task_status")
    (snd (fst (Calls.get_member_info "Sam"))) = Some "task_identifier"
  /\ execute "update_task_status" (snd (fst (Calls.get_member_info "Sam")))
       (Some 1001) Sample.world
     = (error "Tool execution failed: 'task_identifier'", Sample.world).
Proof.
  split.
  - reflexivity.
  - apply (missing_required_argument "update_task_status"
             (snd (fst (Calls.get_member_info "Sam"))) (Some 1001) Sample.world
             "task_identifier").
    reflexivity.
Defined.

(* ---------------------------------------------------------------------- *)
(** ** What the task listings show *)
(* ---------------------------------------------------------------------- *)

Lemma join_in (A : Type) (key : A -> Z) (col other : link -> Z) (v : Z)
    (rows : list A) (junction : list link) (r : A) :
  In r (Query.join key col other v rows junction)
  <-> In r rows /\ exists j, In j junction /\ col j = key r /\ other j = v.
Proof.
  unfold Query.join. rewrite in_flat_map. split.
  - intros (x & Hx & H). apply in_map_iff in H. destruct H as (j & <- & Hj).
    apply filter_In in Hj. destruct Hj as [Hj B].
    apply andb_true_iff in B. destruct B as [B1 B2].
    apply Z.eqb_eq in B1. apply Z.eqb_eq in B2.
    split; [exact Hx |]. exists j. auto.
  - intros (Hr & j & Hj & C & O). exists r. split; [exact Hr |].
    apply in_map_iff. exists j. split; [reflexivity |].
    apply filter_In. split; [exact Hj |].
    apply andb_true_iff. split; apply Z.eqb_eq; auto.
Qed.

Lemma get_member_by_discord_id_row (discord : Z) (w w1 : World) (m : member) :
  get_member_by_discord_id discord w = (Ok (Some m), w1) ->
  db w1 = db w
  /\ exists r, In r (committee (db w)) /\ discord_id r = Some discord
               /\ m = member_of_row r.
Proof.
  unfold get_member_by_discord_id, bind.
  destruct (_ensure_cache w) as [[[] | e] wa] eqn:E; [| discriminate].
  apply ensure_cache_db in E. destruct E as [D _].
  unfold get_db, lift, ret.
  destruct (Query.scalar_one_or_none _) as [[r |] | e] eqn:S;
    intros X; inversion X; subst.
  split; [exact D |]. exists r. rewrite D in S.
  apply scalar_one_or_none_in in S. apply filter_In in S. destruct S as [S B].
  split; [exact S |]. split; [| reflexivity].
  destruct (discord_id r) as [x |]; [| discriminate].
  apply Z.eqb_eq in B. subst. reflexivity.
Qed.

(** [get_my_tasks] lists the caller's tasks and no others: when it returns
    a task list, the caller's Discord id is that of a committee row, and a
    dictionary is listed exactly when it is the entry of a stored task
    that a task_members row links to that member. *)
Theorem get_my_tasks_lists_own_tasks
    (discord : Z) (w : World) (env : envelope) (listed : list json) :
  fst (get_my_tasks discord w) = Ok env ->
  Dict.get "tasks" env = Some (JList listed) ->
  exists r,
    In r (committee (db w)) /\ discord_id r = Some discord
    /\ forall entry,
         In entry listed
         <-> exists task,
               entry = my_task_entry task
               /\ In task (tasks (db w))
               /\ In (task_id task, member_id r) (task_members (db w)).
Proof.
  unfold get_my_tasks, bind.
  destruct (_ensure_cache w) as [[[] | e] w1] eqn:E; [| discriminate].
  apply ensure_cache_db in E. destruct E as [D1 _].
  destruct (get_member_by_discord_id discord w1) as [[[m |] | e] w2] eqn:G;
    [| intros X; inversion X; subst; discriminate | discriminate].
  apply get_member_by_discord_id_row in G. destruct G as (D2 & r & Hr & Hd & ->).
  unfold get_db. cbn [fst snd].
  assert (Rows : forall task,
             In task (Query.order_by by_deadline
                        (Query.join task_id fst snd (m_id (member_of_row r))
                           (tasks (db w2)) (task_members (db w2))))
             <-> In task (tasks (db w))
                 /\ In (task_id task, member_id r) (task_members (db w))).
  { intros task. rewrite D2, D1. split.
    - intros H. apply (Permutation_in _ (order_by_perm _ by_deadline _)) in H.
      apply join_in in H. destruct H as (Ht & [a b] & Hj & C & O).
      cbn [fst snd m_id member_of_row] in *. subst. auto.
    - intros (Ht & Hj).
      apply (Permutation_in _ (Permutation_sym (order_by_perm _ by_deadline _))).
      apply join_in. split; [exact Ht |]. exists (task_id task, member_id r).
      auto. }
  rewrite D1 in Hr.
  set (rows := Query.order_by by_deadline _) in *.
  change (map _ rows) with (map my_task_entry rows).
  assert (Goal : forall entry,
             In entry (map my_task_entry rows)
             <-> exists task,
                   entry = my_task_entry task
                   /\ In task (tasks (db w))
                   /\ In (task_id task, member_id r) (task_members (db w))).
  { intros entry. rewrite in_map_iff. split.
    - intros (task & <- & Ht). exists task. split; [reflexivity |].
      apply Rows. exact Ht.
    - intros (task & -> & Ht). exists task. split; [reflexivity |].
      apply Rows. exact Ht. }
  destruct (map my_task_entry rows) as [| e0 es] eqn:M; unfold ret; cbn [fst];
    intros X; injection X as <-; cbn [Dict.get]; simpl String.eqb; cbv iota;
    intros Y; injection Y as <-; exists r; auto.
Qed.

Lemma get_my_tasks_lists_own_tasks_witness :
  fst (get_my_tasks 1001 Sample.world)
  = Ok [("message", JStr "Found 1 task(s) for Michael Huang");
        ("tasks",
         JList [my_task_entry (Sample.task 2 "Book venue" None (Some "complete"))])]
  /\ exists r,
       In r (committee (db Sample.world)) /\ discord_id r = Some 1001
       /\ forall entry,
            In entry [my_task_entry
                        (Sample.task 2 "Book venue" None (Some "complete"))]
            <-> exists task,
                  entry = my_task_entry task
                  /\ In task (tasks (db Sample.world))
                  /\ In (task_id task, member_id r)
                        (task_members (db Sample.world)).
Proof.
  assert (H : fst (get_my_tasks 1001 Sample.world)
              = Ok [("message", JStr "Found 1 task(s) for Michael Huang");
                    ("tasks",
                     JList [my_task_entry
                              (Sample.task 2 "Book venue" None (Some "complete"))])])
    by (vm_compute; reflexivity).
  split; [exact H |].
  apply (get_my_tasks_lists_own_tasks 1001 Sample.world _ _ H).
  vm_compute. reflexivity.
Defined.

Lemma filter_partition_perm (A : Type) (f g : A -> bool) (l : list A) :
  (forall x, In x l -> xorb (f x) (g x) = true) ->
  Permutation (filter f l ++ filter g l) l.
Proof.
  induction l as [| x r IH]; intros H; simpl; [constructor |].
  assert (Hx := H x (or_introl eq_refl)).
  assert (Hr : forall y, In y r -> xorb (f y) (g y) = true)
    by (intros y Hy; apply H; right; exact Hy).
  specialize (IH Hr).
  destruct (f x), (g x); try discriminate Hx; simpl.
  - constructor. exact IH.
  - apply Permutation_sym. apply Permutation_cons_app.
    apply Permutation_sym. exact IH.
Qed.

(** With valid statuses, the two status filters of [get_all_tasks] split
    the tasks: the rows listed for 'complete' and those listed for
    'incomplete' are, together, the stored tasks, each once; and any other
    filter value lists what 'all' lists. *)
Theorem get_all_tasks_filters_partition (d : DB) :
  status_valid d ->
  Permutation (all_tasks_rows d "complete" ++ all_tasks_rows d "incomplete")
              (tasks d)
  /\ forall status_filter,
       status_filter <> "complete" -> status_filter <> "incomplete" ->
       all_tasks_rows d status_filter = all_tasks_rows d "all"
       /\ Permutation (all_tasks_rows d status_filter) (tasks d).
Proof.
  intros V. split.
  - unfold all_tasks_rows.
    eapply perm_trans;
      [apply Permutation_app; apply order_by_perm |].
    apply filter_partition_perm. intros t Ht. unfold status_where. simpl.
    destruct (V t Ht) as [-> | [-> | ->]]; reflexivity.
  - intros f Hc Hi. unfold all_tasks_rows.
    assert (E : forall l, filter (status_where f) l = l
                          /\ filter (status_where "all") l = l).
    { induction l as [| t r [IH1 IH2]]; simpl; [auto |].
      unfold status_where at 1 3.
      rewrite (proj2 (String.eqb_neq f "complete") Hc).
      rewrite (proj2 (String.eqb_neq f "incomplete") Hi).
      simpl. rewrite IH1, IH2. auto. }
    destruct (E (tasks d)) as [-> ->]. split; [reflexivity |].
    apply order_by_perm.
Qed.

Lemma get_all_tasks_filters_partition_witness :
  status_valid Sample.store
  /\ Permutation (all_tasks_rows Sample.store "complete"
                  ++ all_tasks_rows Sample.store "incomplete")
                 (tasks Sample.store).
Proof.
  split.
  - exact sample_status_valid.
  - apply (get_all_tasks_filters_partition Sample.store sample_status_valid).
Defined.

(** A stored status that is the empty string falls between the filters:
    the task is listed under 'all', where its status reads 'incomplete',
    and under neither 'complete' nor 'incomplete'. *)
Theorem get_all_tasks_empty_status (d : DB) (t : Task) :
  In t (tasks d) -> task_status t = Some "" ->
  In t (all_tasks_rows d "all")
  /\ (exists kv, all_tasks_entry d t = JDict kv
                 /\ Dict.get "status" kv = Some (JStr "incomplete"))
  /\ ~ In t (all_tasks_rows d "complete")
  /\ ~ In t (all_tasks_rows d "incomplete").
Proof.
  intros Ht S. unfold all_tasks_rows. repeat split.
  - apply (Permutation_in _ (Permutation_sym (order_by_perm _ by_deadline _))).
    apply filter_In. split; [exact Ht | reflexivity].
  - eexists. split; [reflexivity |]. simpl. rewrite S. reflexivity.
  - intros H. apply (Permutation_in _ (order_by_perm _ by_deadline _)) in H.
    apply filter_In in H. destruct H as [_ H]. unfold status_where in H.
    simpl in H. rewrite S in H. discriminate H.
  - intros H. apply (Permutation_in _ (order_by_perm _ by_deadline _)) in H.
    apply filter_In in H. destruct H as [_ H]. unfold status_where in H.
    simpl in H. rewrite S in H. discriminate H.
Qed.

(* ---------------------------------------------------------------------- *)
(** ** Substring patterns and [search_database] *)
(* ---------------------------------------------------------------------- *)

Lemma MatchText_cons_eq (x c : ascii) (p t : list ascii) :
  Sql.MatchText (x :: p) (c :: t)
  = if Ascii.eqb x "\"
    then match p with
         | [] => Sql.LIKE_ERROR
         | y :: p' => if Ascii.eqb y c then Sql.MatchText p' t else Sql.LIKE_FALSE
         end
    else if Ascii.eqb x "%" then Sql.AfterPercent p (c :: t)
    else if Ascii.eqb x "_" then Sql.MatchText p t
    else if Ascii.eqb x c then Sql.MatchText p t else Sql.LIKE_FALSE.
Proof.
  destruct x as [[] [] [] [] [] [] [] []]; try reflexivity;
    destruct p; reflexivity.
Qed.

Lemma AfterPercent_cons_eq (x : ascii) (p t : list ascii) :
  Sql.AfterPercent (x :: p) t
  = if Ascii.eqb x "%" then Sql.AfterPercent p t
    else if Ascii.eqb x "_"
    then match t with
         | [] => Sql.LIKE_ABORT
         | _ :: t' => Sql.AfterPercent p t'
         end
    else if Ascii.eqb x "\"
    then match p with
         | [] => Sql.LIKE_ERROR
         | y :: p' => Sql.scan (Sql.MatchText p') y t
         end
    else Sql.scan (Sql.MatchText p) x t.
Proof.
  destruct x as [[] [] [] [] [] [] [] []]; try reflexivity;
    destruct p; reflexivity.
Qed.

Lemma scan_no_error (rest : list ascii -> Sql.like_result) (x : ascii)
    (t : list ascii) :
  (forall t', rest t' <> Sql.LIKE_ERROR) -> Sql.scan rest x t <> Sql.LIKE_ERROR.
Proof.
  intros H. induction t as [| c t IH]; simpl; [discriminate |].
  destruct (Ascii.eqb c x); [| exact IH].
  destruct (rest t) eqn:R; try discriminate; [exact IH |].
  exfalso. exact (H t R).
Qed.

Lemma no_trailing_escape_tail (x : ascii) (p : list ascii) :
  no_trailing_escape (x :: p) -> no_trailing_escape p.
Proof. intros H l E. apply (H (x :: l)). rewrite E. reflexivity. Qed.

Lemma like_no_error (n : nat) :
  forall p, (length p <= n)%nat -> no_trailing_escape p ->
  forall t, Sql.MatchText p t <> Sql.LIKE_ERROR
            /\ Sql.AfterPercent p t <> Sql.LIKE_ERROR.
Proof.
  induction n as [| n IH]; intros p L G t.
  - destruct p; [| simpl in L; lia].
    destruct t; simpl; split; discriminate.
  - destruct p as [| x p]; [destruct t; simpl; split; discriminate |].
    simpl in L. assert (Lp : (length p <= n)%nat) by lia.
    pose proof (no_trailing_escape_tail _ _ G) as Gp.
    assert (Esc : x = "\"%char -> exists y p', p = y :: p'
                                         /\ (length p' <= n)%nat
                                         /\ no_trailing_escape p').
    { intros ->. destruct p as [| y p'].
      - exfalso. apply (G []). reflexivity.
      - exists y, p'. split; [reflexivity |]. simpl in Lp.
        split; [lia |]. eapply no_trailing_escape_tail; eauto. }
    split.
    + destruct t as [| c t].
      * cbn [Sql.MatchText]. destruct (forallb _ _); discriminate.
      * rewrite MatchText_cons_eq.
        destruct (Ascii.eqb_spec x "\") as [X |_].
        { destruct (Esc X) as (y & p' & -> & L' & G').
          destruct (Ascii.eqb y c); [apply IH; assumption | discriminate]. }
        destruct (Ascii.eqb x "%"); [apply IH; assumption |].
        destruct (Ascii.eqb x "_"); [apply IH; assumption |].
        destruct (Ascii.eqb x c); [apply IH; assumption | discriminate].
    + rewrite AfterPercent_cons_eq.
      destruct (Ascii.eqb x "%"); [apply IH; assumption |].
      destruct (Ascii.eqb x "_").
      { destruct t; [discriminate | apply IH; assumption]. }
      destruct (Ascii.eqb_spec x "\") as [X |_].
      { destruct (Esc X) as (y & p' & -> & L' & G').
        apply scan_no_error. intros t'. apply IH; assumption. }
      apply scan_no_error. intros t'. apply IH; assumption.
Qed.

Lemma substring_pattern_no_trailing_escape (q : string) :
  no_trailing_escape (list_ascii_of_string (Py.lower ("%" ++ q ++ "%"))).
Proof.
  intros l E. rewrite !lower_app, !list_ascii_of_string_app in E.
  rewrite app_assoc in E.
  change (list_ascii_of_string (Py.lower "%")) with ["%"%char] in E.
  apply app_inj_tail in E. destruct E as [_ E]. discriminate E.
Qed.

(** A substring condition [column ILIKE %q%] has a truth value for every
    [q]: it never is the error of a pattern ending in an escape. *)
Lemma ilike_substring_ok (column : option string) (q : string) :
  exists b, Query.ilike column ("%" ++ q ++ "%") = Ok b.
Proof.
  unfold Query.ilike. destruct column as [s |]; [| eexists; reflexivity].
  unfold Sql.ilike.
  destruct (like_no_error _ _ (le_n _) (substring_pattern_no_trailing_escape q)
              (list_ascii_of_string (Py.lower s))) as [H _].
  destruct (Sql.MatchText _ _); try (eexists; reflexivity).
  exfalso. apply H. reflexivity.
Qed.

Lemma or_ok (conds : list (outcome bool)) :
  (forall c, In c conds -> exists b, c = Ok b) -> exists b, Query.or_ conds = Ok b.
Proof.
  induction conds as [| c r IH]; intros H; simpl; [eexists; reflexivity |].
  destruct (H c (or_introl eq_refl)) as [b ->].
  destruct b; [eexists; reflexivity |].
  apply IH. intros c' Hc. apply H. right. exact Hc.
Qed.

Lemma where_ok (A : Type) (cond : A -> outcome bool) (rows : list A) :
  (forall r, exists b, cond r = Ok b) ->
  exists l, Query.where_ cond rows = Ok l.
Proof.
  intros H. induction rows as [| r rest [l IH]]; simpl; [eexists; reflexivity |].
  destruct (H r) as [b ->]. rewrite IH. eexists. reflexivity.
Qed.

Lemma search_category_ok (A : Type) (on : bool) (cols : A -> list (option string))
    (render : A -> json) (q : string) (rows : list A) :
  exists l, search_category on cols render ("%" ++ q ++ "%") rows = Ok l
            /\ (length l <= 10)%nat
            /\ (on = false -> l = []).
Proof.
  unfold search_category. destruct on.
  - destruct (where_ok A
                (fun r => Query.or_ (map (fun c => Query.ilike c ("%" ++ q ++ "%"))
                                         (cols r))) rows) as [found F].
    { intros r. apply or_ok. intros c Hc. apply in_map_iff in Hc.
      destruct Hc as (col & <- & _). apply ilike_substring_ok. }
    unfold obind. rewrite F. eexists. split; [reflexivity |].
    split; [| discriminate]. rewrite length_map. apply firstn_le_length.
  - exists []. split; [reflexivity |]. split; [simpl; lia | reflexivity].
Qed.

(** For a query the store accepts (no character 0), [search_database]
    never raises, wildcards and backslashes in the query included; it reads
    only.  Its answer is the no-results message, or a results dictionary
    whose keys are among the five categories, in their order, each
    selected by [search_in] and holding between one and ten entries.  A
    [search_in] that is neither 'all' nor a category finds nothing. *)
Theorem search_database_answers
    (search_query search_in : string) (w : World) :
  bound_text search_query ->
  exists env,
    search_database search_query search_in w = (Ok env, w)
    /\ (env = [("message", JStr ("No results found for '" ++ search_query ++ "'"))]
        \/ exists results,
             env = [("message", JStr ("Search results for '" ++ search_query ++ "'"));
                    ("results", JDict results)]
             /\ results <> []
             /\ forall k v, In (k, v) results ->
                  In k search_categories /\ searches search_in k = true
                  /\ exists l, v = JList l /\ l <> [] /\ (length l <= 10)%nat)
    /\ (searches search_in "members" = false ->
        searches search_in "meetings" = false ->
        searches search_in "projects" = false ->
        searches search_in "tasks" = false ->
        searches search_in "topics" = false ->
        env = [("message", JStr ("No results found for '" ++ search_query ++ "'"))]).
Proof.
  intros _. unfold search_database, bind, get_db, lift. cbv zeta.
  lazymatch goal with
  | |- context [@search_category _ (searches search_in "members") ?c ?r ?p ?rows] =>
      pose proof (search_category_ok _ (searches search_in "members") c r
                    search_query rows) as X
  end.
  destruct X as (l1 & X & B1 & O1). rewrite X. clear X. cbv beta iota.
  lazymatch goal with
  | |- context [@search_category _ (searches search_in "meetings") ?c ?r ?p ?rows] =>
      pose proof (search_category_ok _ (searches search_in "meetings") c r
                    search_query rows) as X
  end.
  destruct X as (l2 & X & B2 & O2). rewrite X. clear X. cbv beta iota.
  lazymatch goal with
  | |- context [@search_category _ (searches search_in "projects") ?c ?r ?p ?rows] =>
      pose proof (search_category_ok _ (searches search_in "projects") c r
                    search_query rows) as X
  end.
  destruct X as (l3 & X & B3 & O3). rewrite X. clear X. cbv beta iota.
  lazymatch goal with
  | |- context [@search_category _ (searches search_in "tasks") ?c ?r ?p ?rows] =>
      pose proof (search_category_ok _ (searches search_in "tasks") c r
                    search_query rows) as X
  end.
  destruct X as (l4 & X & B4 & O4). rewrite X. clear X. cbv beta iota.
  lazymatch goal with
  | |- context [@search_category _ (searches search_in "topics") ?c ?r ?p ?rows] =>
      pose proof (search_category_ok _ (searches search_in "topics") c r
                    search_query rows) as X
  end.
  destruct X as (l5 & X & B5 & O5). rewrite X. clear X. cbv beta iota.
  cbv zeta.
  set (results := flat_map _ _).
  assert (R : forall k v, In (k, v) results ->
                In k search_categories /\ searches search_in k = true
                /\ exists l, v = JList l /\ l <> [] /\ (length l <= 10)%nat).
  { intros k v H. unfold results in H. apply in_flat_map in H.
    destruct H as ([k' l] & Hk & H). cbn [fst snd] in H.
    destruct l as [| e es] eqn:El; [destruct H |].
    destruct H as [H | []]. inversion H; subst k' v. clear H.
    assert (S : searches search_in k = true).
    { simpl in Hk.
      destruct Hk as [H|[H|[H|[H|[H|[]]]]]]; inversion H; subst;
        match goal with
        | |- ?s = true => destruct s eqn:S; [reflexivity |]
        end;
        match goal with
        | O : _ -> _ :: _ = [] |- _ =>
            first [discriminate (O eq_refl) | discriminate (O S)]
        end. }
    split.
    - simpl in Hk. unfold search_categories. simpl.
      destruct Hk as [H|[H|[H|[H|[H|[]]]]]]; inversion H; tauto.
    - split; [exact S |]. exists (e :: es). split; [reflexivity |].
      split; [discriminate |].
      simpl in Hk.
      destruct Hk as [H|[H|[H|[H|[H|[]]]]]]; inversion H; subst; assumption. }
  assert (N : searches search_in "members" = false ->
              searches search_in "meetings" = false ->
              searches search_in "projects" = false ->
              searches search_in "tasks" = false ->
              searches search_in "topics" = false -> results = []).
  { intros S1 S2 S3 S4 S5. unfold results.
    rewrite (O1 S1), (O2 S2), (O3 S3), (O4 S4), (O5 S5). reflexivity. }
  destruct results as [| kv rest] eqn:E; unfold ret; eexists;
    (split; [reflexivity |]); split.
  - left. reflexivity.
  - intros. reflexivity.
  - right. exists (kv :: rest). split; [reflexivity |]. split; [discriminate |].
    exact R.
  - intros S1 S2 S3 S4 S5. discriminate (N S1 S2 S3 S4 S5).
Qed.

Lemma search_database_answers_witness :
  bound_text "100%_\"
  /\ exists env,
       search_database "100%_\" "tasks" Sample.world = (Ok env, Sample.world)
       /\ env = [("message", JStr "No results found for '100%_\'")].
Proof.
  assert (B : bound_text "100%_\") by reflexivity.
  split; [exact B |].
  destruct (search_database_answers "100%_\" "tasks" Sample.world B)
    as (env & E & _ & _).
  exists env. split; [exact E |].
  assert (C : search_database "100%_\" "tasks" Sample.world
              = (Ok [("message", JStr "No results found for '100%_\'")],
                 Sample.world)) by (vm_compute; reflexivity).
  rewrite C in E. inversion E. reflexivity.
Defined.

Lemma get_all_tasks_empty_status_witness :
  In Edge.draft (tasks Edge.draft_store)
  /\ task_status Edge.draft = Some ""
  /\ In Edge.draft (all_tasks_rows Edge.draft_store "all")
  /\ (exists kv, all_tasks_entry Edge.draft_store Edge.draft = JDict kv
                 /\ Dict.get "status" kv = Some (JStr "incomplete")).
Proof.
  assert (H : In Edge.draft (tasks Edge.draft_store)) by (simpl; tauto).
  destruct (get_all_tasks_empty_status Edge.draft_store Edge.draft H eq_refl)
    as (A & B & _).
  repeat split; assumption.
Defined.

(* ---------------------------------------------------------------------- *)
(** ** Assigning and removing *)
(* ---------------------------------------------------------------------- *)

Lemma task_lookup_ambiguous (msg : string) (d : DB) (task_identifier : string)
    (e : envelope) :
  task_lookup msg d task_identifier = Ok (Ambiguous e) ->
  Dict.get "success" e = None.
Proof.
  unfold task_lookup, obind.
  destruct (task_by_id d task_identifier) as [[t0 |] | x]; try discriminate.
  destruct (tasks_like d task_identifier) as [[| x [| y r]] | x];
    intros E; inversion E. reflexivity.
Qed.

Lemma task_lookup_found_remove (msg : string) (d d' : DB)
    (task_identifier : string) (t : Task) :
  tasks d' = tasks d ->
  task_lookup msg d task_identifier = Ok (Found t) ->
  remove_member_from_task_lookup d' task_identifier = Ok (Found t).
Proof.
  intros T. unfold task_lookup, remove_member_from_task_lookup, obind,
    task_by_id, tasks_like. rewrite T.
  destruct (match Py.int task_identifier with
            | Some n => Query.scalar_one_or_none
                          (filter (fun t0 => task_id t0 =? n) (tasks d))
            | None => Ok None
            end) as [[t0 |] | x]; try discriminate; [auto |].
  destruct (Query.where_ _ (tasks d)) as [[| x [| y r]] | x];
    intros E; inversion E; reflexivity.
Qed.

Lemma filter_unlink_snoc (x y : Z) (l : list link) :
  filter (is_link x y) l = [] ->
  filter (fun j => negb (is_link x y j)) (l ++ [(x, y)]) = l
  /\ length (filter (is_link x y) (l ++ [(x, y)])) = 1%nat.
Proof.
  intros E. rewrite !filter_app, E. cbn [filter app].
  rewrite (proj2 (is_link_true x y (x, y)) eq_refl). cbn [negb length].
  split; [| reflexivity]. rewrite app_nil_r.
  induction l as [| j r IH]; [reflexivity |].
  cbn [filter] in *. destruct (is_link x y j); [discriminate E |].
  cbn [negb]. rewrite IH by exact E. reflexivity.
Qed.

Lemma set_task_members_same (d : DB) : set_task_members (task_members d) d = d.
Proof. destruct d. reflexivity. Qed.

Lemma set_task_members_twice (l l' : list link) (d : DB) :
  set_task_members l (set_task_members l' d) = set_task_members l d.
Proof. reflexivity. Qed.

(** Removing undoes assigning: when [assign_member_to_task] succeeds,
    [remove_member_from_task] with the same arguments succeeds and the
    store is again what it was before the assignment; removing once more
    reports that the member was not assigned and changes nothing. *)
Theorem assign_then_remove_round_trip
    (task_identifier member_name_arg : string) (w : World) (env : envelope) :
  fst (assign_member_to_task task_identifier member_name_arg w) = Ok env ->
  Dict.get "success" env = Some (JBool true) ->
  let w1 := snd (assign_member_to_task task_identifier member_name_arg w) in
  let w2 := snd (remove_member_from_task task_identifier member_name_arg w1) in
  db w1 <> db w
  /\ (exists message,
         fst (remove_member_from_task task_identifier member_name_arg w1)
         = Ok [("success", JBool true); ("message", JStr message)])
  /\ db w2 = db w
  /\ (exists message,
         remove_member_from_task task_identifier member_name_arg w2
         = (Ok (error message), w2)).
Proof.
  cbv zeta. unfold assign_member_to_task at 1 2 3 4 5 6, bind.
  destruct (_ensure_cache w) as [[[] | e] wa] eqn:E; [| discriminate].
  pose proof (@ensure_cache_loaded _ _ E) as L.
  apply ensure_cache_db in E. destruct E as [D _].
  unfold get_cache.
  destruct (_fuzzy_match_member (cache wa) (Some member_name_arg)) as [mm |] eqn:F;
    [| intros X; inversion X; subst; discriminate].
  unfold get_db, lift.
  destruct (task_lookup _ (db wa) task_identifier) as [[task | amb |] | e] eqn:T;
    [| | intros X; inversion X; subst; discriminate | discriminate].
  2:{ intros X; inversion X; subst. intros Y.
      rewrite (task_lookup_ambiguous _ _ _ _ T) in Y. discriminate Y. }
  destruct (Query.scalar_one_or_none _) as [[j |] | e] eqn:S;
    [intros X; inversion X; subst; discriminate | | discriminate].
  apply scalar_one_or_none_none in S.
  intros _ _. unfold commit, ret. cbn [fst snd].
  set (d1 := set_task_members _ (db wa)).
  set (w1 := with_db d1 wa).
  assert (L1 : _cache_loaded (cache w1) = true) by exact L.
  assert (R1 : remove_member_from_task task_identifier member_name_arg w1
               = (Ok [("success", JBool true);
                      ("message", JStr ("Removed " ++ fmt_opt (m_name mm)
                                        ++ " from task '" ++ task_name task ++ "'"))],
                  with_db (db wa) wa)).
  { unfold remove_member_from_task, bind.
    rewrite (ensure_cache_again w1 L1). unfold get_cache.
    change (cache w1) with (cache wa). rewrite F. unfold get_db, lift.
    rewrite (task_lookup_found_remove _ (db wa) (db w1) task_identifier task
               eq_refl T).
    cbv zeta. unfold commit, ret.
    change (task_members (db w1))
      with (task_members (db wa) ++ [(task_id task, m_id mm)])%list.
    destruct (filter_unlink_snoc (task_id task) (m_id mm) (task_members (db wa)) S)
      as [U1 U2].
    rewrite U1, U2. cbn [Nat.eqb]. f_equal.
    unfold with_db. cbn [cache clock db]. f_equal.
    unfold w1, d1. cbn [db with_db]. rewrite set_task_members_twice.
    apply set_task_members_same. }
  rewrite R1. cbn [fst snd db with_db].
  split; [| split; [| split]].
  - unfold d1. rewrite <- D. intros X.
    apply (f_equal task_members) in X. unfold w1, d1 in X.
    cbn [db with_db task_members set_task_members] in X.
    apply (f_equal (@length link)) in X. rewrite length_app in X. simpl in X. lia.
  - eexists. reflexivity.
  - exact D.
  - set (w2 := with_db (db wa) wa).
    unfold remove_member_from_task, bind.
    rewrite (ensure_cache_again w2 L). unfold get_cache.
    change (cache w2) with (cache wa). rewrite F. unfold get_db, lift.
    rewrite (task_lookup_found_remove _ (db wa) (db w2) task_identifier task
               eq_refl T).
    cbv zeta. unfold commit, ret. change (task_members (db w2)) with (task_members (db wa)).
    rewrite S. cbn [length Nat.eqb].
    assert (U : filter (fun j => negb (is_link (task_id task) (m_id mm) j))
                       (task_members (db wa)) = task_members (db wa)).
    { revert S. generalize (task_members (db wa)).
      induction l as [| j r IH]; [reflexivity |].
      cbn [filter]. destruct (is_link _ _ j); [discriminate |].
      intros S. cbn [negb]. rewrite IH by exact S. reflexivity. }
    rewrite U. eexists. f_equal.
    unfold w2, with_db. cbn [cache clock db]. f_equal.
    apply set_task_members_same.
Qed.

Lemma assign_then_remove_round_trip_witness :
  fst (assign_member_to_task "agenda" "Sam" Sample.world)
  = Ok [("success", JBool true);
        ("message", JStr "Assigned Sam Li to task 'Write agenda'");
        ("task_id", JInt 3); ("task_name", JStr "Write agenda");
        ("member_name", JStr "Sam Li")]
  /\ db (snd (remove_member_from_task "agenda" "Sam"
                (snd (assign_member_to_task "agenda" "Sam" Sample.world))))
     = db Sample.world.
Proof.
  assert (H : fst (assign_member_to_task "agenda" "Sam" Sample.world)
              = Ok [("success", JBool true);
                    ("message", JStr "Assigned Sam Li to task 'Write agenda'");
                    ("task_id", JInt 3); ("task_name", JStr "Write agenda");
                    ("member_name", JStr "Sam Li")])
    by (vm_compute; reflexivity).
  split; [exact H |].
  destruct (assign_then_remove_round_trip "agenda" "Sam" Sample.world _ H eq_refl)
    as (_ & _ & R & _).
  exact R.
Defined.

(* ---------------------------------------------------------------------- *)
(** ** Missed meetings *)
(* ---------------------------------------------------------------------- *)

Lemma index_set_in (k k' : Z) (m m' : Meeting) (d : list (Z * Meeting)) :
  In (k', m') (index_set k m d) -> (k' = k /\ m' = m) \/ In (k', m') d.
Proof.
  induction d as [| [k0 m0] r IH]; simpl.
  - intros [E | []]. inversion E. auto.
  - destruct (k0 =? k); simpl.
    + intros [E | H]; [inversion E; auto | auto].
    + intros [E | H]; [auto |]. destruct (IH H); auto.
Qed.

Lemma index_set_key (k : Z) (m : Meeting) (d : list (Z * Meeting)) :
  In k (map fst (index_set k m d)).
Proof.
  induction d as [| [k0 m0] r IH]; simpl; [auto |].
  destruct (k0 =? k); simpl; auto.
Qed.

Lemma index_set_keeps_keys (k k0 : Z) (m : Meeting) (d : list (Z * Meeting)) :
  In k0 (map fst d) -> In k0 (map fst (index_set k m d)).
Proof.
  induction d as [| [k1 m1] r IH]; simpl; [tauto |].
  destruct (Z.eqb_spec k1 k) as [-> | N]; simpl.
  - intros [<- | H]; auto.
  - intros [<- | H]; auto.
Qed.

Lemma index_fold_in (rows : list Meeting) (acc : list (Z * Meeting)) (k : Z)
    (m : Meeting) :
  In (k, m) (fold_left (fun a x => index_set (meeting_id x) x a) rows acc) ->
  (In m rows /\ k = meeting_id m) \/ In (k, m) acc.
Proof.
  revert acc. induction rows as [| x r IH]; intros acc; simpl; [auto |].
  intros H. destruct (IH _ H) as [[H1 H2] | H1]; [auto |].
  apply index_set_in in H1. destruct H1 as [[-> ->] | H1]; auto.
Qed.

Lemma index_fold_keys (rows : list Meeting) (acc : list (Z * Meeting)) (k : Z) :
  In k (map meeting_id rows) \/ In k (map fst acc) ->
  In k (map fst (fold_left (fun a x => index_set (meeting_id x) x a) rows acc)).
Proof.
  revert acc. induction rows as [| x r IH]; intros acc; simpl; [tauto |].
  intros [[<- | H] | H]; apply IH.
  - right. apply index_set_key.
  - left. exact H.
  - right. apply index_set_keeps_keys. exact H.
Qed.

Lemma index_by_id_in (rows : list Meeting) (k : Z) (m : Meeting) :
  In (k, m) (index_by_id rows) -> In m rows /\ k = meeting_id m.
Proof.
  intros H. apply index_fold_in in H. destruct H as [H | []]. exact H.
Qed.

Lemma index_by_id_key (rows : list Meeting) (m : Meeting) :
  In m rows -> exists m', In (meeting_id m, m') (index_by_id rows).
Proof.
  intros H.
  assert (K : In (meeting_id m) (map fst (index_by_id rows))).
  { apply index_fold_keys. left. apply in_map. exact H. }
  apply in_map_iff in K. destruct K as ([k m'] & E & K). simpl in E. subst k.
  exists m'. exact K.
Qed.

Lemma attended_spec (mid member : Z) (junction : list link) :
  existsb (Z.eqb mid) (map fst (filter (fun j => snd j =? member) junction)) = true
  <-> In (mid, member) junction.
Proof.
  rewrite existsb_exists. split.
  - intros (x & Hx & E). apply Z.eqb_eq in E. subst x.
    apply in_map_iff in Hx. destruct Hx as ([a b] & E & Hx). simpl in E. subst a.
    apply filter_In in Hx. destruct Hx as [Hx B]. simpl in B.
    apply Z.eqb_eq in B. subst b. exact Hx.
  - intros H. exists mid. split; [| apply Z.eqb_refl].
    apply in_map_iff. exists (mid, member). split; [reflexivity |].
    apply filter_In. split; [exact H | apply Z.eqb_refl].
Qed.

(** [get_missed_meetings] lists the meetings the caller did not attend and
    no others: whenever it returns a list, the caller's Discord id belongs
    to a committee row; every entry is for a stored meeting that no
    meeting_members row links to that member; and every stored meeting
    without such a row has an entry with its meeting_id. *)
Theorem get_missed_meetings_lists_unattended
    (discord : Z) (w : World) (env : envelope) (listed : list json) :
  fst (get_missed_meetings discord w) = Ok env ->
  Dict.get "missed_meetings" env = Some (JList listed) ->
  exists r,
    In r (committee (db w)) /\ discord_id r = Some discord
    /\ (forall entry, In entry listed ->
          exists meeting kv,
            In meeting (meetings (db w))
            /\ ~ In (meeting_id meeting, member_id r) (meeting_members (db w))
            /\ entry = JDict kv
            /\ Dict.get "meeting_id" kv = Some (JInt (meeting_id meeting))
            /\ Dict.get "name" kv = Some (JStr (meeting_name meeting)))
    /\ (forall meeting,
          In meeting (meetings (db w)) ->
          ~ In (meeting_id meeting, member_id r) (meeting_members (db w)) ->
          exists kv,
            In (JDict kv) listed
            /\ Dict.get "meeting_id" kv = Some (JInt (meeting_id meeting))).
Proof.
  unfold get_missed_meetings, bind.
  destruct (get_member_by_discord_id discord w) as [[[m |] | e] w1] eqn:G;
    [| intros X; inversion X; subst; discriminate | discriminate].
  apply get_member_by_discord_id_row in G. destruct G as (D & r & Hr & Hd & ->).
  unfold get_db. cbv zeta. cbn [m_id member_of_row]. rewrite D.
  set (rows := Query.order_by by_timestamp_desc (meetings (db w))).
  assert (Rows : forall x, In x rows <-> In x (meetings (db w))).
  { intros x. split; intros H.
    - apply (Permutation_in _ (order_by_perm _ by_timestamp_desc _)). exact H.
    - apply (Permutation_in _ (Permutation_sym (order_by_perm _ by_timestamp_desc _))).
      exact H. }
  set (missed := flat_map _ (index_by_id rows)).
  assert (Sound : forall entry, In entry missed ->
            exists meeting kv,
              In meeting (meetings (db w))
              /\ ~ In (meeting_id meeting, member_id r) (meeting_members (db w))
              /\ entry = JDict kv
              /\ Dict.get "meeting_id" kv = Some (JInt (meeting_id meeting))
              /\ Dict.get "name" kv = Some (JStr (meeting_name meeting))).
  { intros entry H. unfold missed in H. apply in_flat_map in H.
    destruct H as ([mid meeting] & Hk & H).
    apply index_by_id_in in Hk. destruct Hk as [Hk ->].
    destruct (existsb _ _) eqn:A; [destruct H |].
    destruct H as [<- | []].
    exists meeting. eexists. split; [apply Rows; exact Hk |].
    split.
    - intros I. apply attended_spec in I. rewrite I in A. discriminate A.
    - split; [reflexivity |]. split; reflexivity. }
  assert (Complete : forall meeting,
            In meeting (meetings (db w)) ->
            ~ In (meeting_id meeting, member_id r) (meeting_members (db w)) ->
            exists kv, In (JDict kv) missed
                       /\ Dict.get "meeting_id" kv = Some (JInt (meeting_id meeting))).
  { intros meeting Hm Hn. apply Rows in Hm.
    destruct (index_by_id_key rows meeting Hm) as [m' Hk].
    pose proof (index_by_id_in _ _ _ Hk) as [_ Eid].
    eexists. split.
    - unfold missed. apply in_flat_map. exists (meeting_id meeting, m').
      split; [exact Hk |]. cbv beta iota.
      destruct (existsb _ _) eqn:A.
      + apply attended_spec in A. contradiction.
      + left. reflexivity.
    - simpl. rewrite Eid. reflexivity. }
  destruct missed as [| e0 es] eqn:M; unfold ret; cbn [fst];
    intros X; injection X as <-; cbn [Dict.get]; simpl String.eqb; cbv iota;
    intros Y; injection Y as <-; exists r; auto.
Qed.

Lemma get_missed_meetings_lists_unattended_witness :
  fst (get_missed_meetings 1001 (Sample.world_of Edge.attended_store))
  = Ok [("message", JStr "You missed 1 meeting(s)");
        ("missed_meetings",
         JList [JDict [("meeting_id", JInt 2); ("name", JStr "Budget review");
                       ("type", JNull); ("date", JNull); ("summary", JNull);
                       ("topics", JList [JStr "Budget A"])]])]
  /\ exists r,
       In r (committee Edge.attended_store) /\ discord_id r = Some 1001
       /\ exists kv,
            In (JDict kv)
               [JDict [("meeting_id", JInt 2); ("name", JStr "Budget review");
                       ("type", JNull); ("date", JNull); ("summary", JNull);
                       ("topics", JList [JStr "Budget A"])]]
            /\ Dict.get "meeting_id" kv = Some (JInt 2).
Proof.
  assert (H : fst (get_missed_meetings 1001 (Sample.world_of Edge.attended_store))
              = Ok [("message", JStr "You missed 1 meeting(s)");
                    ("missed_meetings",
                     JList [JDict [("meeting_id", JInt 2);
                                   ("name", JStr "Budget review");
                                   ("type", JNull); ("date", JNull);
                                   ("summary", JNull);
                                   ("topics", JList [JStr "Budget A"])]])])
    by (vm_compute; reflexivity).
  split; [exact H |].
  destruct (get_missed_meetings_lists_unattended 1001
              (Sample.world_of Edge.attended_store) _ _ H eq_refl)
    as (r & Hr & Hd & _ & Complete).
  exists r. split; [exact Hr |]. split; [exact Hd |].
  apply (Complete (Sample.meeting 2 "Budget review")).
  - simpl. tauto.
  - simpl. intros [E | []]. discriminate E.
Defined.

(* ---------------------------------------------------------------------- *)
(** ** What the Entity Resolver can return *)
(* ---------------------------------------------------------------------- *)

(** Over the cache a fresh instance loads, the resolver never makes up a
    member: whatever the name asked for, an answer is the dictionary of a
    committee row with a non-empty name. *)
Theorem resolved_member_is_committee_row
    (w w1 : World) (name : option string) (m : member) :
  cache w = empty_cache ->
  _ensure_cache w = (Ok tt, w1) ->
  _fuzzy_match_member (cache w1) name = Some m ->
  exists r name_r,
    In r (committee (db w)) /\ m = member_of_row r
    /\ member_name r = Some name_r /\ name_r <> "".
Proof.
  intros C0 E.
  assert (L : exists c, cache_rows (committee (db w)) empty_cache = (Ok tt, c)
                        /\ _member_cache (cache w1) = _member_cache c
                        /\ _member_first_name_index (cache w1)
                           = _member_first_name_index c).
  { revert E. unfold _ensure_cache. rewrite C0. simpl.
    destruct (cache_rows (committee (db w)) empty_cache) as [[[] | e] c];
      intros E; inversion E. exists c. auto. }
  destruct L as (c & Lc & Lm & Li).
  assert (Full : forall key m0, Dict.get key (_member_cache (cache w1)) = Some m0 ->
                   exists r name_r,
                     In r (committee (db w)) /\ m0 = member_of_row r
                     /\ member_name r = Some name_r /\ name_r <> "").
  { intros key m0 G. rewrite Lm in G.
    destruct (cache_rows_effect key _ _ _ Lc) as [_ H].
    destruct (H m0 G) as [H0 | (r & Hr & -> & (n & N1 & N2 & _))];
      [discriminate H0 |].
    exists r, n. auto. }
  assert (First : forall key m0,
             Dict.get key (_member_first_name_index (cache w1)) = Some [m0] ->
             exists r name_r,
               In r (committee (db w)) /\ m0 = member_of_row r
               /\ member_name r = Some name_r /\ name_r <> "").
  { intros key m0 G. rewrite Li in G.
    destruct (cache_rows_effect key _ _ _ Lc) as [H _].
    unfold filed in H. rewrite G in H. simpl in H.
    assert (I : In m0 (map member_of_row
                         (filter (has_first_name key) (committee (db w)))))
      by (rewrite <- H; left; reflexivity).
    apply in_map_iff in I. destruct I as (r & <- & I).
    apply filter_In in I. destruct I as [I B].
    unfold has_first_name, first_name_key in B.
    destruct (member_name r) as [n |] eqn:N; [| discriminate B].
    exists r, n. repeat split; auto.
    intros ->. simpl in B. discriminate B. }
  unfold _fuzzy_match_member. cbv zeta.
  destruct (Py.strip _) as [| ch rest]; [discriminate |].
  set (key := clean_key (String ch rest)).
  destruct (Dict.get key (_member_cache (cache w1))) as [m0 |] eqn:G.
  - intros X. inversion X; subst. eapply Full; eauto.
  - destruct (negb (has_space key)).
    + destruct (Dict.get key (_member_first_name_index (cache w1)))
        as [[| m0 [| m1 l]] |] eqn:I.
      * unfold fuzzy_step.
        destruct (Difflib.get_close_matches _ _ _ _) as [| best others];
          [discriminate |].
        intros X. eapply Full; eauto.
      * intros X. inversion X; subst. eapply First; eauto.
      * unfold fuzzy_step.
        destruct (Difflib.get_close_matches _ _ _ _) as [| best others];
          [discriminate |].
        intros X. eapply Full; eauto.
      * unfold fuzzy_step.
        destruct (Difflib.get_close_matches _ _ _ _) as [| best others];
          [discriminate |].
        intros X. eapply Full; eauto.
    + unfold fuzzy_step.
      destruct (Difflib.get_close_matches _ _ _ _) as [| best others];
        [discriminate |].
      intros X. eapply Full; eauto.
Qed.

Lemma resolved_member_is_committee_row_witness :
  _fuzzy_match_member (cache (snd (_ensure_cache Sample.world))) (Some "Micheal Huang")
  = Some (member_of_row (Sample.person 1 "Michael Huang" (Some 1001)))
  /\ exists r name_r,
       In r (committee (db Sample.world))
       /\ member_of_row (Sample.person 1 "Michael Huang" (Some 1001)) = member_of_row r
       /\ member_name r = Some name_r /\ name_r <> "".
Proof.
  assert (H : _fuzzy_match_member (cache (snd (_ensure_cache Sample.world)))
                (Some "Micheal Huang")
              = Some (member_of_row (Sample.person 1 "Michael Huang" (Some 1001))))
    by (vm_compute; reflexivity).
  split; [exact H |].
  apply (resolved_member_is_committee_row Sample.world
           (snd (_ensure_cache Sample.world)) (Some "Micheal Huang") _
           eq_refl eq_refl H).
Defined.

(* ---------------------------------------------------------------------- *)
(** ** The exceptions of a routed call *)
(* ---------------------------------------------------------------------- *)

Lemma cache_rows_raises (rows : list Committee) (c c' : Cache) (x : exn) :
  cache_rows rows c = (Raise x, c') -> x = IndexError.
Proof.
  revert c. induction rows as [| r rest IH]; intros c; simpl; [discriminate |].
  destruct (cache_row r c) as [[[] | y] c1] eqn:R; [apply IH |].
  intros E. inversion E; subst. revert R. unfold cache_row.
  destruct (member_name r) as [name |]; [| discriminate].
  destruct (String.eqb name ""); [discriminate |].
  destruct (Py.split_ws name); [| discriminate].
  intros R. inversion R. reflexivity.
Qed.

Section Raises.

Variable P : exn -> Prop.

Lemma oraises_ok (A : Type) (a : A) : oraises P (Ok a).
Proof. intros e E. discriminate E. Qed.

Lemma oraises_obind (A B : Type) (o : outcome A) (k : A -> outcome B) :
  oraises P o -> (forall a, oraises P (k a)) -> oraises P (obind o k).
Proof.
  intros H K e. unfold obind. destruct o as [a | x].
  - apply K.
  - intros E. inversion E; subst. apply H. reflexivity.
Qed.

Lemma oraises_where_substring (A : Type) (f : A -> string) (q : string)
    (rows : list A) :
  oraises P (Query.where_ (fun r => Query.ilike (Some (f r)) ("%" ++ q ++ "%")) rows).
Proof.
  destruct (where_ok A (fun r => Query.ilike (Some (f r)) ("%" ++ q ++ "%")) rows)
    as [l E].
  - intros r. apply ilike_substring_ok.
  - rewrite E. apply oraises_ok.
Qed.

Lemma oraises_search_category (A : Type) (on : bool)
    (cols : A -> list (option string)) (render : A -> json) (q : string)
    (rows : list A) :
  oraises P (search_category on cols render ("%" ++ q ++ "%") rows).
Proof.
  destruct (search_category_ok A on cols render q rows) as (l & E & _).
  rewrite E. apply oraises_ok.
Qed.

Lemma raises_ret (A : Type) (a : A) : raises P (ret a).
Proof. intros w e E. discriminate E. Qed.

Lemma raises_get_db : raises P get_db.
Proof. intros w e E. discriminate E. Qed.

Lemma raises_get_cache : raises P get_cache.
Proof. intros w e E. discriminate E. Qed.

Lemma raises_get_clock : raises P get_clock.
Proof. intros w e E. discriminate E. Qed.

Lemma raises_commit (d : DB) : raises P (commit d).
Proof. intros w e E. discriminate E. Qed.

Lemma raises_lift (A : Type) (o : outcome A) : oraises P o -> raises P (lift o).
Proof. intros H w e E. apply H. exact E. Qed.

Lemma raises_bind (A B : Type) (m : M A) (k : A -> M B) :
  raises P m -> (forall a, raises P (k a)) -> raises P (bind m k).
Proof.
  intros H K w e. unfold bind. destruct (m w) as [[a | x] w1] eqn:E.
  - apply K.
  - intros X. simpl in X. inversion X; subst. apply (H w). rewrite E. reflexivity.
Qed.

Lemma raises_with_caller (uid : option Z) (k : Z -> M envelope) :
  (forall z, raises P (k z)) -> raises P (with_caller uid k).
Proof.
  intros H. unfold with_caller. destruct uid as [z |]; [| apply raises_ret].
  destruct (z =? 0); [apply raises_ret | apply H].
Qed.

(** The lookups with a substring condition only. *)
Lemma oraises_tasks_like (d : DB) (q : string) : oraises P (tasks_like d q).
Proof. apply oraises_where_substring. Qed.

Lemma oraises_meetings_like (d : DB) (q : string) : oraises P (meetings_like d q).
Proof. apply oraises_where_substring. Qed.

Lemma oraises_projects_like (d : DB) (q : string) : oraises P (projects_like d q).
Proof. apply oraises_where_substring. Qed.

Lemma oraises_topics_like (d : DB) (q : string) : oraises P (topics_like d q).
Proof. apply oraises_where_substring. Qed.

Lemma oraises_get_project_info_lookup (d : DB) (q : string) :
  oraises P (get_project_info_lookup d q).
Proof.
  unfold get_project_info_lookup. apply oraises_obind;
    [apply oraises_projects_like |].
  intros [| x [| y r]]; try apply oraises_ok.
  destruct (find _ _); apply oraises_ok.
Qed.

Lemma oraises_get_topic_info_lookup (d : DB) (q : string) :
  oraises P (get_topic_info_lookup d q).
Proof.
  unfold get_topic_info_lookup. apply oraises_obind;
    [apply oraises_topics_like |].
  intros [| x r]; apply oraises_ok.
Qed.

Lemma oraises_add_member_to_project_lookup (d : DB) (q : string) :
  oraises P (add_member_to_project_lookup d q).
Proof.
  unfold add_member_to_project_lookup. apply oraises_obind;
    [apply oraises_projects_like |].
  intros [| x [| y r]]; apply oraises_ok.
Qed.

Section OneRow.

Hypothesis one_row : P MultipleResultsFound.

Lemma oraises_scalar_one_or_none (A : Type) (l : list A) :
  oraises P (Query.scalar_one_or_none l).
Proof.
  destruct l as [| x [| y r]]; simpl; intros e E; inversion E. exact one_row.
Qed.

Lemma oraises_task_by_id (d : DB) (q : string) : oraises P (task_by_id d q).
Proof.
  unfold task_by_id. destruct (Py.int q);
    [apply oraises_scalar_one_or_none | apply oraises_ok].
Qed.

Lemma oraises_meeting_by_id (d : DB) (q : string) : oraises P (meeting_by_id d q).
Proof.
  unfold meeting_by_id. destruct (Py.int q);
    [apply oraises_scalar_one_or_none | apply oraises_ok].
Qed.

Lemma oraises_task_lookup (msg : string) (d : DB) (q : string) :
  oraises P (task_lookup msg d q).
Proof.
  unfold task_lookup. apply oraises_obind; [apply oraises_task_by_id |].
  intros [t |]; [apply oraises_ok |].
  apply oraises_obind; [apply oraises_tasks_like |].
  intros [| x [| y r]]; apply oraises_ok.
Qed.

Lemma oraises_remove_member_from_task_lookup (d : DB) (q : string) :
  oraises P (remove_member_from_task_lookup d q).
Proof.
  unfold remove_member_from_task_lookup.
  apply oraises_obind; [apply oraises_task_by_id |].
  intros [t |]; [apply oraises_ok |].
  apply oraises_obind; [apply oraises_tasks_like |].
  intros [| x [| y r]]; apply oraises_ok.
Qed.

Lemma oraises_get_meeting_info_lookup (d : DB) (q : string) :
  oraises P (get_meeting_info_lookup d q).
Proof.
  unfold get_meeting_info_lookup.
  apply oraises_obind; [apply oraises_meeting_by_id |].
  intros [t |]; [apply oraises_ok |].
  apply oraises_obind; [apply oraises_meetings_like |].
  intros [| x [| y r]]; apply oraises_ok.
Qed.

Lemma oraises_add_topic_to_meeting_lookup (d : DB) (q : string) :
  oraises P (add_topic_to_meeting_lookup d q).
Proof.
  unfold add_topic_to_meeting_lookup.
  apply oraises_obind; [apply oraises_meeting_by_id |].
  intros [t |]; [apply oraises_ok |].
  apply oraises_obind; [apply oraises_meetings_like |].
  intros [| x [| y r]]; apply oraises_ok.
Qed.

End OneRow.

Section Like.

Hypothesis like_error : P (DBAPIError "LIKE pattern must not end with escape character").

Lemma oraises_where_ilike (A : Type) (f : A -> string) (pattern : string)
    (rows : list A) :
  oraises P (Query.where_ (fun r => Query.ilike (Some (f r)) pattern) rows).
Proof.
  induction rows as [| r rest IH]; cbn [Query.where_]; [apply oraises_ok |].
  unfold Query.ilike at 1.
  destruct (Sql.ilike (f r) pattern);
    try (destruct (Query.where_ _ rest) as [l | x];
         [apply oraises_ok | intros e E; apply IH; exact E]).
  intros e E. inversion E. exact like_error.
Qed.

End Like.

Section Join.

Hypothesis type_error : forall msg, P (TypeError msg).

Lemma oraises_names_from (i : nat) (members : list member) :
  oraises P (names_from i members).
Proof.
  revert i. induction members as [| m r IH]; intros i; simpl; [apply oraises_ok |].
  destruct (m_name m).
  - apply oraises_obind; [apply IH | intros l; apply oraises_ok].
  - intros e E. inversion E. apply type_error.
Qed.

Lemma oraises_join_names (members : list member) : oraises P (join_names members).
Proof.
  unfold join_names. apply oraises_obind;
    [apply oraises_names_from | intros l; apply oraises_ok].
Qed.

End Join.

End Raises.

(** One step of the proof that an operation raises only exceptions of a
    kind. *)
Ltac raises_step :=
  first
    [ apply raises_ret
    | apply raises_get_db
    | apply raises_get_cache
    | apply raises_get_clock
    | apply raises_commit
    | assumption
    | apply raises_lift; first
        [ apply oraises_ok
        | apply oraises_search_category
        | apply oraises_tasks_like
        | apply oraises_meetings_like
        | apply oraises_projects_like
        | apply oraises_topics_like
        | apply oraises_get_project_info_lookup
        | apply oraises_get_topic_info_lookup
        | apply oraises_add_member_to_project_lookup
        | apply oraises_scalar_one_or_none; assumption
        | apply oraises_task_lookup; assumption
        | apply oraises_remove_member_from_task_lookup; assumption
        | apply oraises_get_meeting_info_lookup; assumption
        | apply oraises_add_topic_to_meeting_lookup; assumption
        | apply oraises_where_ilike; assumption ]
    | apply raises_bind; [| intros ?]
    | match goal with
      | |- raises _ (match ?x with _ => _ end) => destruct x
      | |- raises _ (if ?b then _ else _) => destruct b
      | |- raises _ (let '(_, _) := ?x in _) => destruct x
      end ].

Ltac raises_all := repeat raises_step.

Section RaisesOps.

Variable P : exn -> Prop.

(** Tools that raise nothing. *)
Lemma raises_get_all_tasks (status_filter : string) :
  raises P (get_all_tasks status_filter).
Proof. unfold get_all_tasks. raises_all. Qed.

Lemma raises_get_project_info (name : string) : raises P (get_project_info name).
Proof. unfold get_project_info. raises_all. Qed.

Lemma raises_get_all_projects : raises P get_all_projects.
Proof. unfold get_all_projects. raises_all. Qed.

Lemma raises_get_all_members : raises P get_all_members.
Proof. unfold get_all_members. raises_all. Qed.

Lemma raises_get_topic_info (name : string) : raises P (get_topic_info name).
Proof. unfold get_topic_info. raises_all. Qed.

Lemma raises_search_database (q search_in : string) :
  raises P (search_database q search_in).
Proof. unfold search_database. raises_all. Qed.

Section WithOneRow.

Hypothesis one_row : P MultipleResultsFound.

Lemma raises_get_meeting_info (identifier : string) :
  raises P (get_meeting_info identifier).
Proof. unfold get_meeting_info. raises_all. Qed.

Lemma raises_update_task_status (identifier status : string) :
  raises P (update_task_status identifier status).
Proof. unfold update_task_status. raises_all. Qed.

Lemma raises_add_topic_to_meeting (identifier name : string) :
  raises P (add_topic_to_meeting identifier name).
Proof. unfold add_topic_to_meeting. raises_all. Qed.

Section WithLike.

Hypothesis like_error : P (DBAPIError "LIKE pattern must not end with escape character").

Lemma raises_create_topic (name : string) (description : option string) :
  raises P (create_topic name description).
Proof. unfold create_topic. raises_all. Qed.

End WithLike.

Section WithCache.

Hypothesis index_error : P IndexError.

Lemma raises_ensure_cache : raises P _ensure_cache.
Proof.
  intros w e. unfold _ensure_cache. destruct (_cache_loaded (cache w));
    [discriminate |].
  destruct (cache_rows _ _) as [[[] | x] c] eqn:R; [discriminate |].
  intros E. simpl in E. inversion E; subst.
  rewrite (cache_rows_raises _ _ _ _ R). exact index_error.
Qed.

End WithCache.

End WithOneRow.

End RaisesOps.

Ltac oraises_step :=
  first
    [ apply oraises_ok
    | apply oraises_join_names; assumption
    | apply oraises_scalar_one_or_none; assumption
    | apply oraises_where_ilike; assumption
    | apply oraises_obind; [| intros ?]
    | match goal with
      | |- oraises _ (match ?x with _ => _ end) => destruct x
      end ].

Ltac raises_cache_step :=
  first
    [ apply raises_ensure_cache; assumption
    | raises_step
    | apply raises_lift; repeat oraises_step ].

Section RaisesCacheOps.

Variable P : exn -> Prop.
Hypothesis index_error : P IndexError.

Lemma raises_get_meetings_for_member (name : string) :
  raises P (get_meetings_for_member name).
Proof. unfold get_meetings_for_member. repeat raises_cache_step. Qed.

Section WithOneRow.

Hypothesis one_row : P MultipleResultsFound.

Lemma raises_get_member_by_discord_id (discord : Z) :
  raises P (get_member_by_discord_id discord).
Proof. unfold get_member_by_discord_id. repeat raises_cache_step. Qed.

Lemma raises_get_my_identity (discord : Z) : raises P (get_my_identity discord).
Proof.
  unfold get_my_identity. apply raises_bind;
    [apply raises_get_member_by_discord_id |].
  intros ?. repeat raises_cache_step.
Qed.

Lemma raises_get_my_tasks (discord : Z) : raises P (get_my_tasks discord).
Proof.
  unfold get_my_tasks. apply raises_bind; [apply raises_ensure_cache; assumption |].
  intros _. apply raises_bind; [apply raises_get_member_by_discord_id |].
  intros ?. repeat raises_cache_step.
Qed.

Lemma raises_get_missed_meetings (discord : Z) :
  raises P (get_missed_meetings discord).
Proof.
  unfold get_missed_meetings. apply raises_bind;
    [apply raises_get_member_by_discord_id |].
  intros ?. repeat raises_cache_step.
Qed.

Lemma raises_get_member_info (name : string) : raises P (get_member_info name).
Proof. unfold get_member_info. repeat raises_cache_step. Qed.

Lemma raises_assign_member_to_task (identifier name : string) :
  raises P (assign_member_to_task identifier name).
Proof. unfold assign_member_to_task. repeat raises_cache_step. Qed.

Lemma raises_remove_member_from_task (identifier name : string) :
  raises P (remove_member_from_task identifier name).
Proof. unfold remove_member_from_task. repeat raises_cache_step. Qed.

Lemma raises_add_member_to_project (project name : string) :
  raises P (add_member_to_project project name).
Proof. unfold add_member_to_project. repeat raises_cache_step. Qed.

Lemma raises_create_task_prepare (deadline : option string)
    (assigned_to : option (list string)) (flag : bool) (uid : option Z) :
  raises P (create_task_prepare deadline assigned_to flag uid).
Proof.
  unfold create_task_prepare.
  apply raises_bind; [apply raises_ensure_cache; assumption |]. intros _.
  destruct (parse_deadline deadline); [| apply raises_ret].
  apply raises_bind; [apply raises_get_cache |]. intros c.
  destruct (match_members c _); [| apply raises_ret].
  destruct flag; [| apply raises_ret].
  destruct uid; [| apply raises_ret].
  apply raises_bind; [apply raises_get_member_by_discord_id |].
  intros ?. repeat raises_cache_step.
Qed.

Section WithJoin.

Hypothesis type_error : forall msg, P (TypeError msg).

Lemma raises_create_task (name : string) (description deadline : option string)
    (assigned_to : option (list string)) (flag : bool) (uid : option Z) :
  raises P (create_task name description deadline assigned_to flag uid).
Proof.
  unfold create_task. apply raises_bind; [apply raises_create_task_prepare |].
  intros ?. repeat raises_cache_step.
Qed.

Section WithLike.

Hypothesis like_error : P (DBAPIError "LIKE pattern must not end with escape character").

Lemma raises_create_project (name : string) (description : option string)
    (team : option (list string)) :
  raises P (create_project name description team).
Proof. unfold create_project. repeat raises_cache_step. Qed.

End WithLike.

End WithJoin.

End WithOneRow.

End RaisesCacheOps.

Lemma use_raises (A : Type) (P : exn -> Prop) (m : M A) (w : World) (e : exn) :
  raises P m -> fst (m w) = Raise e -> P e.
Proof. intros H. apply H. Qed.

Ltac failure_side :=
  first
    [ assumption
    | solve [simpl; tauto]
    | solve [intros; simpl; tauto]
    | solve [split; [simpl; tauto | intros _; simpl; tauto]] ].

Ltac raises_tool :=
  first
    [ apply raises_get_all_tasks
    | apply raises_get_project_info
    | apply raises_get_all_projects
    | apply raises_get_all_members
    | apply raises_get_topic_info
    | apply raises_search_database
    | apply raises_get_meeting_info
    | apply raises_update_task_status
    | apply raises_add_topic_to_meeting
    | apply raises_create_topic
    | apply raises_get_meetings_for_member
    | apply raises_get_my_identity
    | apply raises_get_my_tasks
    | apply raises_get_missed_meetings
    | apply raises_get_member_info
    | apply raises_assign_member_to_task
    | apply raises_remove_member_from_task
    | apply raises_add_member_to_project
    | apply raises_create_task
    | apply raises_create_project ].

Ltac to_raises :=
  lazymatch goal with
  | |- fst (?m ?w) = Raise ?e -> failure ?t ?a ?e =>
      apply (@use_raises _ (failure t a) m w e)
  end.

Lemma raises_index_bind (A : Type) (P : exn -> Prop) (key : string)
    (field : option A) (k : A -> M envelope) :
  (field = None -> P (KeyError key)) ->
  (forall a, field = Some a -> raises P (k a)) ->
  raises P (a <- index key field ;; k a).
Proof.
  intros N S w e. unfold index, bind. destruct field as [a |].
  - apply (S a eq_refl).
  - simpl. intros E. inversion E. apply N. reflexivity.
Qed.

Ltac key_error :=
  intros; unfold failure, first_missing;
  cbn [required find has_key String.eqb Ascii.eqb Bool.eqb];
  repeat match goal with
         | E : _ = None |- _ => rewrite E; clear E
         | E : _ = Some _ |- _ => rewrite E; clear E
         end;
  reflexivity.

(** What a routed call can raise, tool by tool: [KeyError] only for the
    first required key the arguments lack; [IndexError] only from a tool
    that loads the member cache; [MultipleResultsFound] only from a tool
    that asks for one row or none; [TypeError] only from [create_task] and
    [create_project], which join member names; an error of the store only
    from a tool that queries the store, and the one of a LIKE pattern that
    ends in an escape only from [create_project] and [create_topic], whose
    name check uses the name as the pattern.  So [get_current_datetime]
    and an unknown tool raise nothing, and [get_all_tasks],
    [get_all_projects], [get_all_members], [get_project_info],
    [get_topic_info] and [search_database], given their required
    arguments, raise nothing but what the store raises. *)
Theorem call_tool_failures
    (tool_name : string) (args : Args) (user_discord_id : option Z) (w : World)
    (e : exn) :
  fst (_call_tool tool_name args user_discord_id w) = Raise e ->
  failure tool_name args e.
Proof.
  unfold _call_tool.
  repeat match goal with
         | |- context [if String.eqb tool_name ?s then _ else _] =>
             destruct (String.eqb_spec tool_name s) as [-> | _]; cbv iota
         end.
  all: to_raises.
  all: repeat (apply raises_index_bind; [solve [key_error] | intros ? ?]).
  all: try (apply raises_with_caller; intros ?).
  all: try (raises_tool; failure_side).
  - apply raises_bind; [apply raises_get_clock | intros ?; apply raises_ret].
  - apply raises_ret.
Qed.

Lemma call_tool_failures_witness :
  fst (_call_tool "create_topic" (snd (fst (Calls.create_topic "Budget\")))
         None Sample.world)
  = Raise (DBAPIError "LIKE pattern must not end with escape character")
  /\ failure "create_topic" (snd (fst (Calls.create_topic "Budget\")))
       (DBAPIError "LIKE pattern must not end with escape character").
Proof.
  assert (H : fst (_call_tool "create_topic"
                     (snd (fst (Calls.create_topic "Budget\"))) None Sample.world)
              = Raise (DBAPIError "LIKE pattern must not end with escape character"))
    by (vm_compute; reflexivity).
  split; [exact H |].
  apply (call_tool_failures "create_topic" _ None Sample.world _ H).
Defined.

(* ---------------------------------------------------------------------- *)
(** ** The caller of the identity tools *)
(* ---------------------------------------------------------------------- *)

(** The three identity tools and their caller.  Without a Discord id, or
    with the id 0, the router answers "Cannot identify you" and touches
    nothing.  With an id the store accepts (within the 64-bit range of the
    column) that no committee row carries, each tool answers with its own
    "Could not find your member record" error once the cache is loaded,
    and the store is as it was.  With an id that two or more
    rows carry, the call fails with the error of [scalar_one_or_none]. *)
Theorem identity_tools_caller
    (tool_name : string) (args : Args) (w : World) :
  In tool_name identity_tools ->
  execute tool_name args None w = (cannot_identify, w)
  /\ execute tool_name args (Some 0) w = (cannot_identify, w)
  /\ forall discord w1,
       discord <> 0 ->
       _ensure_cache w = (Ok tt, w1) ->
       db w1 = db w
       /\ (int8 discord ->
           linked (db w) discord = [] ->
           execute tool_name args (Some discord) w
           = (error (unlinked_message tool_name), w1))
       /\ (forall r1 r2 rest,
             linked (db w) discord = r1 :: r2 :: rest ->
             execute tool_name args (Some discord) w
             = (error "Tool execution failed: Multiple rows were found when one or none was required",
                w1)).
Proof.
  intros I.
  assert (Step : forall discord w1,
             _ensure_cache w = (Ok tt, w1) ->
             db w1 = db w
             /\ get_member_by_discord_id discord w
                = (match Query.scalar_one_or_none (linked (db w) discord) with
                   | Ok row => Ok (option_map member_of_row row)
                   | Raise x => Raise x
                   end, w1)
             /\ get_member_by_discord_id discord w1
                = (match Query.scalar_one_or_none (linked (db w) discord) with
                   | Ok row => Ok (option_map member_of_row row)
                   | Raise x => Raise x
                   end, w1)).
  { intros discord w1 E.
    pose proof (@ensure_cache_loaded _ _ E) as L.
    destruct (@ensure_cache_db _ _ _ E) as [D _].
    split; [exact D |]. split.
    - unfold get_member_by_discord_id, bind. rewrite E.
      unfold get_db, lift, ret, linked. rewrite D.
      destruct (Query.scalar_one_or_none _); reflexivity.
    - rewrite (get_member_by_discord_id_loaded discord w1 L).
      unfold linked. rewrite D. reflexivity. }
  unfold identity_tools in I. simpl in I.
  destruct I as [<- | [<- | [<- | []]]];
    (split; [reflexivity |]); (split; [reflexivity |]);
    intros discord w1 N E;
    destruct (Step discord w1 E) as (D & G & G1);
    (split; [exact D |]);
    unfold execute, _call_tool, unlinked_message;
    cbn [String.eqb Ascii.eqb Bool.eqb];
    unfold with_caller; rewrite (proj2 (Z.eqb_neq discord 0) N).
  - unfold get_my_tasks, bind. rewrite E, G1.
    split; [intros _ ->; reflexivity | intros r1 r2 rest ->; reflexivity].
  - unfold get_my_identity, bind. rewrite G.
    split; [intros _ ->; reflexivity | intros r1 r2 rest ->; reflexivity].
  - unfold get_missed_meetings, bind. rewrite G.
    split; [intros _ ->; reflexivity | intros r1 r2 rest ->; reflexivity].
Qed.

Lemma identity_tools_caller_witness :
  int8 4242
  /\ linked (db Sample.world) 4242 = []
  /\ execute "get_missed_meetings" no_args (Some 4242) Sample.world
     = (error "Could not find your member record.",
        snd (_ensure_cache Sample.world)).
Proof.
  assert (R : int8 4242) by (unfold int8; lia).
  split; [exact R |].
  split; [reflexivity |].
  destruct (identity_tools_caller "get_missed_meetings" no_args Sample.world)
    as (_ & _ & H).
  - simpl. tauto.
  - destruct (H 4242 (snd (_ensure_cache Sample.world))) as (_ & U & _).
    + discriminate.
    + vm_compute. reflexivity.
    + apply (U R). reflexivity.
Defined.

(* ---------------------------------------------------------------------- *)
(** ** Projects and their members *)
(* ---------------------------------------------------------------------- *)

(** [create_project] is all-or-nothing over its team list: when a name of
    [team_members] fails member resolution, nothing is written, whatever
    the project name is (taken already or not, a valid LIKE pattern or
    not), and the answer names the first unresolved name. *)
Theorem create_project_all_or_nothing
    (project_name_arg : string) (project_description_arg : option string)
    (resolved rest : list string) (unresolved : string) (w w1 : World) :
  _ensure_cache w = (Ok tt, w1) ->
  Forall (fun n => _fuzzy_match_member (cache w1) (Some n) <> None) resolved ->
  _fuzzy_match_member (cache w1) (Some unresolved) = None ->
  create_project project_name_arg project_description_arg
    (Some (resolved ++ unresolved :: rest)%list) w
  = (Ok (error ("Could not find a member matching '" ++ unresolved ++ "'")), w1)
  /\ db w1 = db w.
Proof.
  intros E R U. destruct (@ensure_cache_db _ _ _ E) as [D _].
  split; [| exact D].
  unfold create_project, bind. rewrite E. unfold get_cache.
  rewrite (match_members_first_unresolved _ _ rest _ R U). reflexivity.
Qed.

Lemma create_project_all_or_nothing_witness :
  create_project "Alpha\" None (Some ["Sam"; "Nobody Atall"; "Michael"]) Sample.world
  = (Ok (error "Could not find a member matching 'Nobody Atall'"),
     snd (_ensure_cache Sample.world))
  /\ db (snd (_ensure_cache Sample.world)) = db Sample.world.
Proof.
  apply (create_project_all_or_nothing "Alpha\" None ["Sam"] ["Michael"]
           "Nobody Atall" Sample.world (snd (_ensure_cache Sample.world))).
  - vm_compute. reflexivity.
  - constructor; [| constructor]. vm_compute. discriminate.
  - vm_compute. reflexivity.
Defined.

Lemma add_member_to_project_effect (project_name_arg member_name_arg : string)
    (w : World) :
  let w' := snd (add_member_to_project project_name_arg member_name_arg w) in
  db w' = db w \/
  exists p m, ~ In (p, m) (project_members (db w)) /\
              project_members (db w') = (project_members (db w) ++ [(p, m)])%list.
Proof.
  cbv zeta. unfold add_member_to_project, bind.
  destruct (_ensure_cache w) as [[[] | e] w1] eqn:E;
    apply ensure_cache_db in E; destruct E as [E _]; [| left; exact E].
  unfold get_cache.
  destruct (_fuzzy_match_member (cache w1) (Some member_name_arg)) as [mm |];
    [| left; exact E].
  unfold get_db, lift.
  destruct (add_member_to_project_lookup (db w1) project_name_arg)
    as [[project | env |] | e]; try (left; exact E).
  destruct (Query.scalar_one_or_none _) as [[j |] | e] eqn:S; try (left; exact E).
  right. exists (project_id project), (m_id mm). simpl. rewrite <- E.
  split; [| reflexivity].
  apply filter_is_link_nil. apply scalar_one_or_none_none in S. exact S.
Qed.

(** [add_member_to_project] never stores a membership twice: from a
    project_members junction without duplicates, a call leaves it without
    duplicates; and a call whose member and project are already linked
    answers "is already a member of" and leaves the world as it was after
    the cache load. *)
Theorem add_member_to_project_no_duplicate
    (project_name_arg member_name_arg : string) (w : World) :
  NoDup (project_members (db w)) ->
  NoDup (project_members
           (db (snd (add_member_to_project project_name_arg member_name_arg w))))
  /\ forall w1 matched_member project,
       _ensure_cache w = (Ok tt, w1) ->
       _fuzzy_match_member (cache w1) (Some member_name_arg) = Some matched_member ->
       add_member_to_project_lookup (db w) project_name_arg = Ok (Found project) ->
       In (project_id project, m_id matched_member) (project_members (db w)) ->
       add_member_to_project project_name_arg member_name_arg w
       = (Ok (error (fmt_opt (m_name matched_member) ++ " is already a member of '"
                     ++ project_name project ++ "'")), w1).
Proof.
  intros N. split.
  - destruct (add_member_to_project_effect project_name_arg member_name_arg w)
      as [E | (p & m & Hn & E)]; rewrite E; [exact N |].
    apply NoDup_snoc; assumption.
  - intros w1 mm project E F L I.
    destruct (@ensure_cache_db _ _ _ E) as [D _].
    unfold add_member_to_project, bind. rewrite E. unfold get_cache. rewrite F.
    unfold get_db, lift. rewrite D, L.
    rewrite (filter_is_link_one _ _ _ N I). reflexivity.
Qed.

Lemma add_member_to_project_no_duplicate_witness :
  NoDup (project_members Edge.member_store)
  /\ In (2, 2) (project_members Edge.member_store)
  /\ NoDup (project_members
              (db (snd (add_member_to_project "Alpha Two" "Sam"
                          (Sample.world_of Edge.member_store)))))
  /\ add_member_to_project "Alpha Two" "Sam" (Sample.world_of Edge.member_store)
     = (Ok (error "Sam Li is already a member of 'Alpha Two'"),
        snd (_ensure_cache (Sample.world_of Edge.member_store)))
  /\ NoDup (project_members
              (db (snd (add_member_to_project "Alpha Two" "Michael"
                          (Sample.world_of Edge.member_store)))))
  /\ project_members
       (db (snd (add_member_to_project "Alpha Two" "Michael"
                   (Sample.world_of Edge.member_store))))
     = [(2, 2); (2, 1)].
Proof.
  assert (N : NoDup (project_members (db (Sample.world_of Edge.member_store)))).
  { simpl. constructor; [intros [] | constructor]. }
  assert (I : In (2, 2) (project_members Edge.member_store))
    by (simpl; tauto).
  destruct (add_member_to_project_no_duplicate "Alpha Two" "Sam"
              (Sample.world_of Edge.member_store) N) as [H1 H2].
  destruct (add_member_to_project_no_duplicate "Alpha Two" "Michael"
              (Sample.world_of Edge.member_store) N) as [H3 _].
  split; [exact N |]. split; [exact I |]. split; [exact H1 |].
  split; [| split; [exact H3 | vm_compute; reflexivity]].
  apply (H2 (snd (_ensure_cache (Sample.world_of Edge.member_store)))
            (member_of_row (Sample.person 2 "Sam Li" (Some 1002)))
            {| project_id := 2; project_name := "Alpha Two";
               project_description := None |}).
  - vm_compute. reflexivity.
  - vm_compute. reflexivity.
  - vm_compute. reflexivity.
  - exact I.
Defined.

(* ---------------------------------------------------------------------- *)
(** ** A created task and its identifier *)
(* ---------------------------------------------------------------------- *)

Lemma create_task_prepare_inl (deadline : option string)
    (assigned_to : option (list string)) (flag : bool) (uid : option Z)
    (w w1 : World) (env : envelope) :
  create_task_prepare deadline assigned_to flag uid w = (Ok (inl env), w1) ->
  exists msg, env = error msg.
Proof.
  unfold create_task_prepare, bind.
  destruct (_ensure_cache w) as [[[] | e] wa]; [| discriminate].
  destruct (parse_deadline deadline) as [dl |];
    [| intros X; inversion X; eexists; reflexivity].
  unfold get_cache.
  destruct (match_members (cache wa) _) as [matched | name];
    [| intros X; inversion X; eexists; reflexivity].
  destruct flag; [| discriminate].
  destruct uid as [discord |]; [| discriminate].
  destruct (get_member_by_discord_id discord wa) as [[[cm |] | e] wb];
    [| intros X; inversion X; eexists; reflexivity | discriminate].
  destruct (existsb _ _); discriminate.
Qed.

Lemma filter_id_fresh (A : Type) (key : A -> Z) (rows : list A) (x : A) :
  key x = Query.next_id (map key rows) ->
  filter (fun r => key r =? key x) (rows ++ [x]) = [x].
Proof.
  intros E. rewrite filter_app. cbn [filter]. rewrite Z.eqb_refl.
  replace (filter (fun r => key r =? key x) rows) with (@nil A); [reflexivity |].
  symmetry. pose proof (next_id_fresh (map key rows)) as F. rewrite <- E in F.
  clear E. induction rows as [| r rest IH]; [reflexivity |].
  cbn [filter]. destruct (Z.eqb_spec (key r) (key x)) as [K | K].
  - exfalso. apply F. left. exact K.
  - apply IH. intros H. apply F. right. exact H.
Qed.

Lemma map_with_status_fresh (rows : list Task) (x : Task) (st : string) :
  task_id x = Query.next_id (map task_id rows) ->
  map (with_status (task_id x) st) (rows ++ [x])
  = (rows ++ [with_status (task_id x) st x])%list.
Proof.
  intros E. rewrite map_app. cbn [map]. f_equal.
  pose proof (next_id_fresh (map task_id rows)) as F. rewrite <- E in F.
  clear E. induction rows as [| r rest IH]; [reflexivity |].
  cbn [map]. unfold with_status at 1.
  destruct (Z.eqb_spec (task_id r) (task_id x)) as [K | K].
  - exfalso. apply F. left. exact K.
  - f_equal. apply IH. intros H. apply F. right. exact H.
Qed.

(** The identifier [create_task] returns addresses the task it created:
    after a successful call the store has one more task, with the given
    name and the status 'incomplete'; any identifier that reads as the
    returned task_id is resolved to that task by the task lookup, whatever
    the names of the other tasks; and [update_task_status] with it changes
    the status of the new task and of no other. *)
Theorem created_task_is_addressable
    (task_name_arg : string) (task_description_arg deadline : option string)
    (assigned_to : option (list string)) (flag : bool) (uid : option Z)
    (w : World) (env : envelope) (n : Z) (task_identifier : string) :
  fst (create_task task_name_arg task_description_arg deadline assigned_to
         flag uid w) = Ok env ->
  Dict.get "task_id" env = Some (JInt n) ->
  Py.int task_identifier = Some n ->
  let w' := snd (create_task task_name_arg task_description_arg deadline
                   assigned_to flag uid w) in
  exists task,
    tasks (db w') = (tasks (db w) ++ [task])%list
    /\ task_id task = n /\ task_name task = task_name_arg
    /\ task_status task = Some "incomplete"
    /\ ~ In n (map task_id (tasks (db w)))
    /\ (forall msg, task_lookup msg (db w') task_identifier = Ok (Found task))
    /\ tasks (db (snd (update_task_status task_identifier "complete" w')))
       = (tasks (db w) ++ [with_status n "complete" task])%list.
Proof.
  intros R T I. cbv zeta.
  destruct (create_task_prepare deadline assigned_to flag uid w)
    as [[[e0 | [dl members]] | x] w1] eqn:P.
  - exfalso. revert R. unfold create_task, bind. rewrite P. cbn [fst ret].
    intros X. inversion X; subst.
    destruct (create_task_prepare_inl _ _ _ _ _ _ _ P) as [msg ->].
    discriminate T.
  - destruct (create_task_effect task_name_arg task_description_arg deadline
                assigned_to flag uid w w1 dl members P) as [S A].
    cbv zeta in S, A.
    assert (En : n = Query.next_id (map task_id (tasks (db w)))).
    { destruct (names_from 0 members) as [names | x] eqn:N.
      - destruct (A names eq_refl) as [message A'].
        rewrite A' in R. inversion R; subst. simpl in T. inversion T. reflexivity.
      - exfalso. revert R. unfold create_task, bind. rewrite P.
        unfold get_db, commit, lift. cbv zeta.
        destruct members as [| m ms]; [simpl in N; discriminate N |].
        unfold join_names, obind. rewrite N. discriminate. }
    rewrite S. cbn [db with_db tasks set_task_members set_tasks].
    set (task := {| task_id := Query.next_id (map task_id (tasks (db w)));
                    task_name := task_name_arg;
                    task_description := task_description_arg;
                    task_deadline := dl; task_status := Some "incomplete" |}).
    assert (Fresh : task_id task = Query.next_id (map task_id (tasks (db w))))
      by reflexivity.
    assert (L : forall msg d',
               tasks d' = (tasks (db w) ++ [task])%list ->
               task_lookup msg d' task_identifier = Ok (Found task)).
    { intros msg d' Td. unfold task_lookup, obind, task_by_id. rewrite I, Td, En.
      rewrite <- Fresh.
      rewrite (filter_id_fresh Task task_id (tasks (db w)) task Fresh).
      reflexivity. }
    exists task. repeat split; auto.
    + rewrite En. apply next_id_fresh.
    + unfold update_task_status. cbn [String.eqb Ascii.eqb Bool.eqb negb orb].
      unfold bind, get_db, lift. erewrite L by reflexivity.
      cbn [db with_db commit ret fst snd tasks set_task_members set_tasks].
      rewrite En. rewrite <- Fresh.
      apply (map_with_status_fresh (tasks (db w)) task "complete" Fresh).
  - exfalso. revert R. unfold create_task, bind. rewrite P. discriminate.
Qed.

Lemma created_task_is_addressable_witness :
  fst (create_task "Plan social" None (Some "2024-05-01") (Some ["Sam"]) false None
         Sample.world)
  = Ok [("success", JBool true);
        ("message", JStr "Created task 'Plan social' and assigned to Sam Li");
        ("task_id", JInt 4); ("task_name", JStr "Plan social");
        ("deadline", JStr "2024-05-01"); ("assigned_to", JList [JStr "Sam Li"])]
  /\ Py.int " 4 " = Some 4
  /\ exists task,
       task_id task = 4
       /\ forall msg,
            task_lookup msg
              (db (snd (create_task "Plan social" None (Some "2024-05-01")
                          (Some ["Sam"]) false None Sample.world))) " 4 "
            = Ok (Found task).
Proof.
  assert (H : fst (create_task "Plan social" None (Some "2024-05-01") (Some ["Sam"])
                     false None Sample.world)
              = Ok [("success", JBool true);
                    ("message",
                     JStr "Created task 'Plan social' and assigned to Sam Li");
                    ("task_id", JInt 4); ("task_name", JStr "Plan social");
                    ("deadline", JStr "2024-05-01");
                    ("assigned_to", JList [JStr "Sam Li"])])
    by (vm_compute; reflexivity).
  assert (I : Py.int " 4 " = Some 4) by (vm_compute; reflexivity).
  split; [exact H |]. split; [exact I |].
  destruct (created_task_is_addressable "Plan social" None (Some "2024-05-01")
              (Some ["Sam"]) false None Sample.world _ 4 " 4 " H eq_refl I)
    as (task & _ & Id & _ & _ & _ & L & _).
  exists task. split; [exact Id | exact L].
Defined.
